(** * MelodyMind backend: mood logs, songs, playlists and game sessions

    A shallow embedding of the request handlers and Mongoose models of the
    MelodyMind backend (routes/moods.js, routes/songs.js, the playlist, game
    and analytics routers, models/Song.js, models/Game.js, the MoodLog and
    GameSession models), and the properties the specification states about
    them.

    Conventions of the embedding:
    - a collection is the list of its documents in insertion order;
    - an ObjectId is the string its [toString()] yields;
    - a [Date] is its number of milliseconds since the epoch, a [Z];
    - a JavaScript number is an exact rational ([Q]) where the code lets it be
      fractional, and a [Z] where a validator forces an integer;
    - what a handler takes from its environment (the clock, the fresh
      ObjectId of a created document) is an explicit argument;
    - the release of Mongoose, which the sources do not pin, is a
      parameter. *)

From Stdlib Require Import ZArith QArith Qround Lqa String Ascii List Lia Bool
  Sorted.
From stdpp Require Import base option list gmap strings pretty.

#[local] Set Warnings "-register-all".

Open Scope string_scope.
Open Scope Z_scope.

Definition ObjectId := string.
Definition Date := Z.

(** ** The Mongoose release

    The sources pin no release of Mongoose, and two behaviours that decide
    what the handlers answer differ between the releases:
    [mongoose.Types.ObjectId(id)], called without [new], casts up to release
    6 and throws from release 7 on; the [enum] validator of a string path
    rejects [null] up to release 7 and accepts it from release 8 on. *)
Inductive Release := upTo6 | release7 | from8.

Class Mongoose := release : Release.

Definition objectIdCallable {mongoose : Mongoose} : bool :=
  match release with
  | upTo6 => true
  | release7 | from8 => false
  end.

Definition enumAcceptsNull {mongoose : Mongoose} : bool :=
  match release with
  | upTo6 | release7 => false
  | from8 => true
  end.

(** ** JavaScript values and HTTP responses *)

Module JS.

(** A JSON value, as found in a request body or a [Mixed] field. *)
Inductive Json : Type :=
| JNull
| JBool (b : bool)
| JNum (q : Q)
| JStr (s : string)
| JArr (l : list Json)
| JObj (l : list (string * Json)).

(** [o[k]] on the fields of an object. *)
Fixpoint lookup_key (k : string) (o : list (string * Json)) : option Json :=
  match o with
  | [] => None
  | (k', v) :: o' => if String.eqb k' k then Some v else lookup_key k o'
  end.

(** A value of a request body that [isInt] is asked about: a number or a
    string. *)
Inductive Scalar :=
| Num (q : Q)
| Text (s : string).

Definition digit (c : ascii) : option Z :=
  let n := nat_of_ascii c in
  if ((48 <=? n) && (n <=? 57))%nat then Some (Z.of_nat (n - 48)) else None.

(** The number a run of decimal digits denotes, after [acc]. *)
Fixpoint digits (acc : Z) (s : string) : option Z :=
  match s with
  | EmptyString => Some acc
  | String c s' =>
      match digit c with
      | Some d => digits (10 * acc + d) s'
      | None => None
      end
  end.

Definition unsigned (s : string) : option Z :=
  match s with
  | EmptyString => None
  | _ => digits 0 s
  end.

(** The integer a text denotes when it matches [/^[-+]?[0-9]+$/], the
    pattern of [isInt]. *)
Definition intOfText (s : string) : option Z :=
  match s with
  | String "+" s' => unsigned s'
  | String "-" s' => Z.opp <$> unsigned s'
  | _ => unsigned s
  end.

(** The integer [isInt] reads a value as: the validator is given the text of
    the value, which for a number is a run of digits exactly when the number
    is whole. *)
Definition intOfScalar (v : Scalar) : option Z :=
  match v with
  | Num q =>
      if Qnum q mod Zpos (Qden q) =? 0 then Some (Qnum q / Zpos (Qden q))
      else None
  | Text s => intOfText s
  end.

(** [Number(String(x) + s)]: the number JavaScript reads the text of a number
    followed by a text as ([None] for [NaN]); the conversion belongs to the
    language, not to these sources, and is left open. *)
Class NumberText := numberText : Q -> string -> option Q.

(** JavaScript truthiness of an optional string ([undefined] is [None]). *)
Definition truthy_str (o : option string) : bool :=
  match o with
  | Some s => negb (String.eqb s "")
  | None => false
  end.

(** [o || d] on an optional string. *)
Definition or_str (o : option string) (d : string) : string :=
  match o with
  | Some s => if String.eqb s "" then d else s
  | None => d
  end.

Definition is_space (c : ascii) : bool :=
  match nat_of_ascii c with
  | 9%nat | 10%nat | 11%nat | 12%nat | 13%nat | 32%nat => true
  | _ => false
  end.

Fixpoint trimStart (s : string) : string :=
  match s with
  | String c s' => if is_space c then trimStart s' else s
  | EmptyString => EmptyString
  end.

(** [String.prototype.trim] on a string of ASCII characters. *)
Definition trim (s : string) : string :=
  String.rev (trimStart (String.rev (trimStart s))).

(** [isIn(values)] of express-validator, [enum] of Mongoose. *)
Definition isIn (values : list string) (s : string) : bool :=
  existsb (String.eqb s) values.

(** What a handler sends back: [res.status(status).json({success, message,
    data})], with the [errors] array of a failed validation. *)
Inductive Response (A : Type) : Type :=
| Success (status : Z) (message : option string) (data : A)
| Failure (status : Z) (message : string) (errors : list string).
Arguments Success {A} status message data.
Arguments Failure {A} status message errors.

Definition status {A} (r : Response A) : Z :=
  match r with
  | Success st _ _ => st
  | Failure st _ _ => st
  end.

(** Stable insertion sort; [before a b] says that [a] may stay in front of
    [b].  A [.sort({...})] of a query is the sort by the matching order. *)
Fixpoint insert_sorted {A} (before : A -> A -> bool) (x : A) (l : list A) : list A :=
  match l with
  | [] => [x]
  | y :: l' => if before x y then x :: l else y :: insert_sorted before x l'
  end.

Definition sort_by {A} (before : A -> A -> bool) (l : list A) : list A :=
  foldr (insert_sorted before) [] l.

(** *** Collections

    A collection is the list of its documents; [key] reads the [_id]. *)
Section Collection.
Context {A : Type} (key : A -> ObjectId).

Definition has_id (id : ObjectId) (d : A) : bool := String.eqb (key d) id.

(** [Model.findById(id)]. *)
Definition find_by_id (id : ObjectId) (store : list A) : option A :=
  List.find (has_id id) store.

(** The write of an existing document: the stored document of that [_id] is
    replaced ([None] when there is none). *)
Fixpoint replace_doc (d : A) (store : list A) : option (list A) :=
  match store with
  | [] => None
  | x :: rest =>
      if has_id (key d) x then Some (d :: rest)
      else option_map (cons x) (replace_doc d rest)
  end.

(** The write of a new document: appended, unless its [_id] is taken (the
    duplicate key error of the [_id] index). *)
Definition insert_doc (d : A) (store : list A) : option (list A) :=
  if existsb (has_id (key d)) store then None else Some (store ++ [d])%list.

(** [Model.findByIdAndDelete(id)]. *)
Fixpoint delete_doc (id : ObjectId) (store : list A) : list A :=
  match store with
  | [] => []
  | x :: rest => if has_id id x then rest else x :: delete_doc id rest
  end.

End Collection.

End JS.
Import JS.

(** ** Mood logs (MoodLog model, routes/moods.js) *)

Module MoodLog.

Definition moods : list string :=
  ["happy"; "sad"; "energetic"; "calm"; "anxious"; "excited"; "melancholic";
   "focused"; "angry"; "peaceful"; "romantic"; "nostalgic"].
Definition detectionMethods : list string :=
  ["camera"; "voice"; "text"; "manual"; "activity"; "journal"].
Definition weathers : list string :=
  ["sunny"; "cloudy"; "rainy"; "snowy"; "stormy"; "foggy"; "unknown"].
Definition timesOfDay : list string :=
  ["morning"; "afternoon"; "evening"; "night"].
Definition triggerKinds : list string :=
  ["work"; "family"; "friends"; "health"; "money"; "relationship";
   "achievement"; "loss"; "stress"; "exercise"; "music"; "nature"; "other"].

Record Context := mkContext {
  location : option string;
  activity : option string;
  weather : option string;
  timeOfDay : option string
}.

Record PreviousMood := mkPreviousMood {
  pm_mood : string;
  pm_intensity : Z;
  pm_timestamp : Date
}.

Record t := mk {
  _id : ObjectId;
  user : ObjectId;
  mood : string;
  intensity : Z;
  detectionMethod : string;
  confidence : Q;
  notes : option string;
  context : Context;
  triggers : list string;
  previousMood : option PreviousMood;
  sessionId : option string;
  createdAt : Date
}.

Definition set_context (c : Context) (d : t) : t :=
  mk (_id d) (user d) (mood d) (intensity d) (detectionMethod d) (confidence d)
     (notes d) c (triggers d) (previousMood d) (sessionId d) (createdAt d).

Definition set_timeOfDay (v : string) (c : Context) : Context :=
  mkContext (location c) (activity c) (weather c) (Some v).

(** [new Date(t).getHours()] in a time zone [tz] milliseconds east of UTC. *)
Definition getHours (tz : Z) (t : Date) : Z := ((t + tz) / 3600000) mod 24.

(** The four bands of the pre-save hook. *)
Definition band (hour : Z) : string :=
  if (5 <=? hour) && (hour <? 12) then "morning"
  else if (12 <=? hour) && (hour <? 17) then "afternoon"
  else if (17 <=? hour) && (hour <? 21) then "evening"
  else "night".

(** [moodLogSchema.pre('save', ...)]. *)
Definition pre_save (tz : Z) (d : t) : t :=
  if negb (truthy_str (timeOfDay (context d))) then
    set_context (set_timeOfDay (band (getHours tz (createdAt d))) (context d)) d
  else d.

(** The document validators of the schema ([enum], [min], [max],
    [maxlength], [required]). *)
Definition enum_ok (values : list string) (o : option string) : bool :=
  match o with
  | Some s => isIn values s
  | None => true
  end.

Definition schema_valid (d : t) : bool :=
  isIn moods (mood d)
  && (1 <=? intensity d) && (intensity d <=? 10)
  && isIn detectionMethods (detectionMethod d)
  && Qle_bool 0 (confidence d) && Qle_bool (confidence d) 1
  && match notes d with
     | Some n => (Z.of_nat (String.length n) <=? 500)
     | None => true
     end
  && enum_ok weathers (weather (context d))
  && truthy_str (timeOfDay (context d))
  && enum_ok timesOfDay (timeOfDay (context d))
  && forallb (isIn triggerKinds) (triggers d).

(** [MoodLog.findById(id)]. *)
Definition findById (id : ObjectId) (store : list t) : option t :=
  find_by_id _id id store.

(** [doc.save()]: the validators, the pre-save hook, the write.  Mongoose
    validates a document before it runs the [pre('save')] hooks of its
    schema, so a document without the required [context.timeOfDay] is
    rejected before the hook could fill it.  [None] stands for the rejected
    promise. *)
Definition save (isNew : bool) (tz : Z) (d : t) (store : list t)
    : option (t * list t) :=
  if schema_valid d then
    let d' := pre_save tz d in
    option_map (pair d')
      (if isNew then insert_doc _id d' store else replace_doc _id d' store)
  else None.

(** *** POST /api/moods *)

Record ContextBody := mkContextBody {
  b_location : option string;
  b_activity : option string;
  b_weather : option string;
  b_timeOfDay : option string
}.

Record LogBody := mkLogBody {
  b_mood : option string;
  b_intensity : option Z;
  b_detectionMethod : option string;
  b_confidence : option Q;
  b_notes : option string;
  b_context : option ContextBody;
  b_triggers : option (list string);
  b_sessionId : option string
}.

Definition check (ok : bool) (msg : string) : list string :=
  if ok then [] else [msg].

Definition validate_log (b : LogBody) : list string :=
  check (match b_mood b with Some m => isIn moods m | None => false end)
        "Invalid mood type"
  ++ check (match b_intensity b with
            | Some i => (1 <=? i) && (i <=? 10)
            | None => false
            end)
           "Intensity must be between 1 and 10"
  ++ check (match b_detectionMethod b with
            | Some m => isIn detectionMethods m
            | None => false
            end)
           "Invalid detection method"
  ++ check (match b_confidence b with
            | Some c => Qle_bool 0 c && Qle_bool c 1
            | None => true
            end)
           "Confidence must be between 0 and 1"
  ++ check (match b_notes b with
            | Some n => (Z.of_nat (String.length (trim n)) <=? 500)
            | None => true
            end)
           "Notes cannot exceed 500 characters".

(** [createdAt] descending: the later document first. *)
Definition newer_first (a b : t) : bool := createdAt b <=? createdAt a.

Definition owned_by (uid : ObjectId) (d : t) : bool := String.eqb (user d) uid.

(** [MoodLog.findOne({ user }).sort({ createdAt: -1 }).limit(1)]. *)
Definition findLatest (uid : ObjectId) (store : list t) : option t :=
  head (sort_by newer_first (List.filter (owned_by uid) store)).

Definition snapshot (p : t) : PreviousMood :=
  mkPreviousMood (mood p) (intensity p) (createdAt p).

(** The document the handler builds, before [save]. *)
Definition new_mood_log (now : Date) (newId uid : ObjectId) (b : LogBody)
    (store : list t) : t :=
  let confidence := default 1%Q (b_confidence b) in
  let context := default (mkContextBody None None None None) (b_context b) in
  let triggers := default [] (b_triggers b) in
  let previousMood := findLatest uid store in
  mk newId uid
     (default "" (b_mood b))
     (default 0 (b_intensity b))
     (default "" (b_detectionMethod b))
     confidence
     (trim <$> b_notes b)
     (mkContext (trim <$> b_location context)
                (trim <$> b_activity context)
                (Some (or_str (b_weather context) "unknown"))
                (b_timeOfDay context))
     triggers
     (snapshot <$> previousMood)
     (b_sessionId b)
     now.

Definition logMood (now : Date) (tz : Z) (newId uid : ObjectId) (b : LogBody)
    (store : list t) : Response t * list t :=
  match validate_log b with
  | [] =>
      match save true tz (new_mood_log now newId uid b store) store with
      | Some (moodLog, store') =>
          (Success 201 (Some "Mood logged successfully") moodLog, store')
      | None => (Failure 500 "Server error logging mood" [], store)
      end
  | errors => (Failure 400 "Validation failed" errors, store)
  end.

(** *** PUT /api/moods/:id *)

(** The [context] object of an update: a key is absent ([None]), or present
    with [null] ([Some None]) or a string. *)
Record ContextPatch := mkContextPatch {
  p_location : option (option string);
  p_activity : option (option string);
  p_weather : option (option string);
  p_timeOfDay : option (option string)
}.

(** The body of an update.  The handler reads [notes], [context] and
    [triggers]; the other keys are what a caller may send besides. *)
Record UpdateBody := mkUpdateBody {
  u_notes : option string;
  u_context : option ContextPatch;
  u_triggers : option (list string);
  u_mood : option string;
  u_intensity : option Z;
  u_detectionMethod : option string;
  u_confidence : option Q;
  u_previousMood : option PreviousMood;
  u_sessionId : option string;
  u_user : option ObjectId;
  u_createdAt : option Date
}.

Definition validate_update (b : UpdateBody) : list string :=
  check (match u_notes b with
         | Some n => (Z.of_nat (String.length (trim n)) <=? 500)
         | None => true
         end)
        "Notes cannot exceed 500 characters".

(** [{ ...moodLog.context, ...req.body.context }], then the setters of the
    schema ([trim]). *)
Definition merge_context (c : Context) (p : ContextPatch) : Context :=
  mkContext (fmap trim (default (location c) (p_location p)))
            (fmap trim (default (activity c) (p_activity p)))
            (default (weather c) (p_weather p))
            (default (timeOfDay c) (p_timeOfDay p)).

(** [Object.assign(moodLog, updates)] for the three allowed keys. *)
Definition apply_updates (b : UpdateBody) (d : t) : t :=
  mk (_id d) (user d) (mood d) (intensity d) (detectionMethod d) (confidence d)
     (match u_notes b with Some n => Some (trim n) | None => notes d end)
     (match u_context b with
      | Some p => merge_context (context d) p
      | None => context d
      end)
     (default (triggers d) (u_triggers b))
     (previousMood d) (sessionId d) (createdAt d).

Definition updateMood (tz : Z) (uid id : ObjectId) (b : UpdateBody)
    (store : list t) : Response t * list t :=
  match validate_update b with
  | [] =>
      match findById id store with
      | None => (Failure 404 "Mood log not found" [], store)
      | Some moodLog =>
          if negb (String.eqb (user moodLog) uid) then
            (Failure 403
               "Access denied. You can only update your own mood logs" [],
             store)
          else
            match save false tz (apply_updates b moodLog) store with
            | Some (moodLog', store') =>
                (Success 200 (Some "Mood log updated successfully") moodLog',
                 store')
            | None => (Failure 500 "Server error updating mood log" [], store)
            end
      end
  | errors => (Failure 400 "Validation failed" errors, store)
  end.

(** *** GET /api/moods/frequency *)

Record Frequency := mkFrequency {
  f_id : string;        (* _id: the mood *)
  count : Z;
  avgIntensity : Q
}.

Definition sumZ (l : list Z) : Z := foldr Z.add 0 l.

(** [$group: { _id: "$mood", count: { $sum: 1 }, avgIntensity: { $avg:
    "$intensity" } }]: one group per mood, in order of first occurrence. *)
Fixpoint distinct (l : list string) : list string :=
  match l with
  | [] => []
  | x :: l' => x :: List.filter (fun y => negb (String.eqb y x)) (distinct l')
  end.

Definition group_of (docs : list t) (m : string) : Frequency :=
  let members := List.filter (fun d => String.eqb (mood d) m) docs in
  mkFrequency m (Z.of_nat (length members))
    (inject_Z (sumZ (map intensity members))
     / inject_Z (Z.of_nat (length members)))%Q.

Definition more_frequent_first (a b : Frequency) : bool := count b <=? count a.

Definition msPerDay : Z := 24 * 60 * 60 * 1000.

(** The pipeline [$match], [$group] by mood, [$sort] by count; [startDate]
    is [days] days before [now]. *)
Definition frequencyPipeline (now : Date) (userId : ObjectId) (days : Z)
    (store : list t) : list Frequency :=
  let startDate := now - days * msPerDay in
  let matched :=
    List.filter (fun d => owned_by userId d && (startDate <=? createdAt d))
                store in
  sort_by more_frequent_first
    (map (group_of matched) (distinct (map mood matched))).

(** [moodLogSchema.statics.getMoodFrequency].  The [$match] stage is built
    with [mongoose.Types.ObjectId(userId)], called without [new]: where the
    release throws on that, so does the static ([None]). *)
Definition getMoodFrequency {mongoose : Mongoose} (now : Date) (userId : ObjectId)
    (days : Z) (store : list t) : option (list Frequency) :=
  if objectIdCallable then Some (frequencyPipeline now userId days store)
  else None.

Definition frequencyRoute {mongoose : Mongoose} (now : Date) (uid : ObjectId)
    (days : option Z) (store : list t) : Response (list Frequency) :=
  match check (match days with
               | Some n => (1 <=? n) && (n <=? 365)
               | None => true
               end) "Invalid value" with
  | [] =>
      match getMoodFrequency now uid (default 30 days) store with
      | Some frequency => Success 200 None frequency
      | None => Failure 500 "Server error fetching mood frequency" []
      end
  | errors => Failure 400 "Validation failed" errors
  end.

(** The JSON of one entry of the [frequency] array. *)
Definition frequency_json (f : Frequency) : list (string * Json) :=
  [("_id", JStr (f_id f)); ("count", JNum (inject_Z (count f)));
   ("avgIntensity", JNum (avgIntensity f))].

End MoodLog.

(** ** Songs (models/Song.js, routes/songs.js) *)

Module Song.

Definition genres : list string :=
  ["pop"; "rock"; "jazz"; "classical"; "electronic"; "hip-hop"; "country";
   "folk"; "blues"; "reggae"; "ambient"; "indie"; "alternative"; "metal";
   "punk"; "r&b"; "soul"; "funk"; "disco"; "house"; "techno"; "trance";
   "dubstep"; "other"].
Definition moodTagKinds : list string :=
  ["happy"; "sad"; "energetic"; "calm"; "anxious"; "excited"; "melancholic";
   "focused"; "romantic"; "angry"; "peaceful"; "uplifting"; "nostalgic";
   "mysterious"; "dramatic"].
Definition languages : list string :=
  ["en"; "es"; "fr"; "de"; "it"; "pt"; "ru"; "ja"; "ko"; "zh"; "instrumental"].
Definition tempos : list string := ["slow"; "medium"; "fast"].

Record t := mk {
  _id : ObjectId;
  title : string;
  artist : string;
  album : option string;
  genre : string;
  moodTags : list string;
  language : string;
  duration : Z;
  filePath : string;
  coverImage : option string;
  uploadedBy : ObjectId;
  isPublic : bool;
  playCount : Z;
  likes : Z;
  tempo : string;
  energy : Q;
  valence : Q;
  createdAt : Date;
  updatedAt : Date
}.

(** [Song.findById(id)]. *)
Definition findById (id : ObjectId) (store : list t) : option t :=
  find_by_id _id id store.

(** [songSchema.pre('save', ...)]: [updatedAt] is set to the clock. *)
Definition pre_save (now : Date) (s : t) : t :=
  mk (_id s) (title s) (artist s) (album s) (genre s) (moodTags s) (language s)
     (duration s) (filePath s) (coverImage s) (uploadedBy s) (isPublic s)
     (playCount s) (likes s) (tempo s) (energy s) (valence s) (createdAt s) now.

(** The validators of the paths the update route may write. *)
Definition schema_valid (s : t) : bool :=
  (1 <=? Z.of_nat (String.length (title s)))
  && (Z.of_nat (String.length (title s)) <=? 100)
  && (1 <=? Z.of_nat (String.length (artist s)))
  && (Z.of_nat (String.length (artist s)) <=? 100)
  && match album s with
     | Some a => Z.of_nat (String.length a) <=? 100
     | None => true
     end
  && isIn genres (genre s)
  && forallb (isIn moodTagKinds) (moodTags s)
  && isIn languages (language s)
  && isIn tempos (tempo s)
  && Qle_bool 1 (energy s) && Qle_bool (energy s) 10
  && Qle_bool 1 (valence s) && Qle_bool (valence s) 10.

(** [save()] of a stored song; the validators run when [validated] paths were
    written. *)
Definition save (now : Date) (validated : bool) (s : t) (store : list t)
    : option (t * list t) :=
  let s' := pre_save now s in
  if negb validated || schema_valid s' then
    option_map (pair s') (replace_doc _id s' store)
  else None.

(** [songSchema.methods.incrementPlayCount]: [playCount], the one path
    written, has no validator. *)
Definition incrementPlayCount (now : Date) (s : t) (store : list t)
    : option (t * list t) :=
  let s' :=
    mk (_id s) (title s) (artist s) (album s) (genre s) (moodTags s)
       (language s) (duration s) (filePath s) (coverImage s) (uploadedBy s)
       (isPublic s) (playCount s + 1) (likes s) (tempo s) (energy s)
       (valence s) (createdAt s) (updatedAt s) in
  save now false s' store.

(** [{ $or: [{ isPublic: true }, { uploadedBy: req.user._id }] }]. *)
Definition visible_to (uid : ObjectId) (s : t) : bool :=
  isPublic s || String.eqb (uploadedBy s) uid.

(** *** GET /api/songs/recommendations *)

Record RecommendQuery := mkRecommendQuery {
  q_mood : option string;
  q_energy : option Z;
  q_valence : option Z;
  q_limit : option Z
}.

Definition check (ok : bool) (msg : string) : list string :=
  if ok then [] else [msg].

Definition optional_in (values : list string) (o : option string) : bool :=
  match o with Some v => isIn values v | None => true end.

Definition optional_int (lo hi : Z) (o : option Z) : bool :=
  match o with Some n => (lo <=? n) && (n <=? hi) | None => true end.

Definition validate_recommend (q : RecommendQuery) : list string :=
  (check (optional_in moodTagKinds (q_mood q)) "Invalid value"
   ++ check (optional_int 1 10 (q_energy q)) "Invalid value"
   ++ check (optional_int 1 10 (q_valence q)) "Invalid value"
   ++ check (optional_int 1 50 (q_limit q)) "Invalid value")%list.

(** [{ $gte: Math.max(1, v - 2), $lte: Math.min(10, v + 2) }]. *)
Definition band (v : Z) : Z * Z := (Z.max 1 (v - 2), Z.min 10 (v + 2)).

Definition in_band (v : option Z) (x : Q) : bool :=
  match v with
  | Some v =>
      Qle_bool (inject_Z (fst (band v))) x && Qle_bool x (inject_Z (snd (band v)))
  | None => true
  end.

Definition has_mood (mood : option string) (s : t) : bool :=
  match mood with
  | Some m => existsb (String.eqb m) (moodTags s)
  | None => true
  end.

Definition recommend_filter (uid : ObjectId) (q : RecommendQuery) (s : t) : bool :=
  visible_to uid s && has_mood (q_mood q) s
  && in_band (q_energy q) (energy s) && in_band (q_valence q) (valence s).

(** [{ playCount: -1, likes: -1, createdAt: -1 }]. *)
Definition by_popularity (a b : t) : bool :=
  if playCount a =? playCount b then
    if likes a =? likes b then createdAt b <=? createdAt a
    else likes b <? likes a
  else playCount b <? playCount a.

Definition recommendSongs (uid : ObjectId) (q : RecommendQuery)
    (store : list t) : Response (list t) :=
  match validate_recommend q with
  | [] =>
      Success 200 None
        (firstn (Z.to_nat (default 20 (q_limit q)))
           (sort_by by_popularity (List.filter (recommend_filter uid q) store)))
  | errors => Failure 400 "Validation failed" errors
  end.

(** *** GET /api/songs/:id *)

Definition getSong (uid id : ObjectId) (store : list t) : Response t :=
  match findById id store with
  | None => Failure 404 "Song not found" []
  | Some song =>
      if negb (isPublic song) && negb (String.eqb (uploadedBy song) uid) then
        Failure 403 "Access denied to this song" []
      else Success 200 None song
  end.

(** *** PUT /api/songs/:id *)

Record UpdateBody := mkUpdateBody {
  u_title : option string;
  u_artist : option string;
  u_album : option string;
  u_genre : option string;
  u_moodTags : option (list string);
  u_language : option string;
  u_tempo : option string;
  u_energy : option Q;
  u_valence : option Q;
  u_isPublic : option bool
}.

Definition optional_length (lo hi : Z) (o : option string) : bool :=
  match o with
  | Some v =>
      (lo <=? Z.of_nat (String.length (trim v)))
      && (Z.of_nat (String.length (trim v)) <=? hi)
  | None => true
  end.

Definition validate_update (b : UpdateBody) : list string :=
  (check (optional_length 1 100 (u_title b))
         "Title must be between 1 and 100 characters"
   ++ check (optional_length 1 100 (u_artist b))
            "Artist must be between 1 and 100 characters"
   ++ check (optional_in genres (u_genre b)) "Invalid genre")%list.

Definition apply_updates (b : UpdateBody) (s : t) : t :=
  mk (_id s)
     (default (title s) (trim <$> u_title b))
     (default (artist s) (trim <$> u_artist b))
     (match u_album b with Some a => Some (trim a) | None => album s end)
     (default (genre s) (u_genre b))
     (default (moodTags s) (u_moodTags b))
     (default (language s) (u_language b))
     (duration s) (filePath s) (coverImage s) (uploadedBy s)
     (default (isPublic s) (u_isPublic b))
     (playCount s) (likes s)
     (default (tempo s) (u_tempo b))
     (default (energy s) (u_energy b))
     (default (valence s) (u_valence b))
     (createdAt s) (updatedAt s).

Definition updateSong (now : Date) (uid id : ObjectId) (b : UpdateBody)
    (store : list t) : Response t * list t :=
  match validate_update b with
  | [] =>
      match findById id store with
      | None => (Failure 404 "Song not found" [], store)
      | Some song =>
          if negb (String.eqb (uploadedBy song) uid) then
            (Failure 403 "Access denied. You can only update your own songs" [],
             store)
          else
            match save now true (apply_updates b song) store with
            | Some (song', store') =>
                (Success 200 (Some "Song updated successfully") song', store')
            | None => (Failure 500 "Server error updating song" [], store)
            end
      end
  | errors => (Failure 400 "Validation failed" errors, store)
  end.

(** *** DELETE /api/songs/:id; [files] are the paths present on disk. *)

Definition deleteSong (uid id : ObjectId) (store : list t) (files : list string)
    : Response unit * list t * list string :=
  match findById id store with
  | None => (Failure 404 "Song not found" [], store, files)
  | Some song =>
      if negb (String.eqb (uploadedBy song) uid) then
        (Failure 403 "Access denied. You can only delete your own songs" [],
         store, files)
      else
        (Success 200 (Some "Song deleted successfully") tt,
         delete_doc _id id store,
         List.filter (fun f => negb (String.eqb f (filePath song))) files)
  end.

(** *** POST /api/songs/:id/play *)

Definition playSong (now : Date) (uid id : ObjectId) (store : list t)
    : Response Z * list t :=
  match findById id store with
  | None => (Failure 404 "Song not found" [], store)
  | Some song =>
      match incrementPlayCount now song store with
      | Some (song', store') =>
          (Success 200 (Some "Play count updated") (playCount song'), store')
      | None => (Failure 500 "Server error updating play count" [], store)
      end
  end.

End Song.

(** ** Playlists (the playlist router) *)

Module Playlist.

Record GeneratedFor := mkGeneratedFor {
  gf_mood : option string;
  gf_tempo : option string;
  gf_genre : option string
}.

(** Modelled from the spec: the Playlist schema is not part of the sources at
    hand.  The record holds what the specification lists for a playlist
    (name, description, ordered song references, owner, isPublic,
    isAutoGenerated with its generatedFor record, playCount, followers) and
    the two further paths the update route names (tags, coverImage). *)
Record t := mk {
  _id : ObjectId;
  name : string;
  description : option string;
  owner : ObjectId;
  songs : list ObjectId;          (* [{ song: <id> }], in order *)
  isAutoGenerated : bool;
  generatedFor : option GeneratedFor;
  isPublic : bool;
  playCount : Z;
  followers : list ObjectId;
  tags : list string;
  coverImage : option string
}.

(** [Playlist.findById(id)]. *)
Definition findById (id : ObjectId) (store : list t) : option t :=
  find_by_id _id id store.

(** Modelled from the spec: [playlistSchema.methods.incrementPlayCount] is not
    part of the sources at hand; the specification lists "increment play
    count" among the playlist operations, and the method is taken to do what
    its namesakes of Song and Game do: add one to [playCount] and save. *)
Definition incrementPlayCount (p : t) (store : list t) : option (t * list t) :=
  let p' :=
    mk (_id p) (name p) (description p) (owner p) (songs p) (isAutoGenerated p)
       (generatedFor p) (isPublic p) (playCount p + 1) (followers p) (tags p)
       (coverImage p) in
  option_map (pair p') (replace_doc _id p' store).

(** *** GET /api/playlists/auto-generate *)

Definition generateMoods : list string :=
  ["happy"; "sad"; "energetic"; "calm"; "anxious"; "excited"; "melancholic";
   "focused"].

Record GenerateQuery := mkGenerateQuery {
  g_mood : option string;
  g_tempo : option string;
  g_genre : option string;
  g_limit : option Z
}.

Definition validate_generate (q : GenerateQuery) : list string :=
  (Song.check (Song.optional_in generateMoods (g_mood q)) "Invalid value"
   ++ Song.check (Song.optional_in Song.tempos (g_tempo q)) "Invalid value"
   ++ Song.check (Song.optional_in Song.genres (g_genre q)) "Invalid value"
   ++ Song.check (Song.optional_int 5 50 (g_limit q)) "Invalid value")%list.

Definition optional_eq (o : option string) (v : string) : bool :=
  match o with Some x => String.eqb v x | None => true end.

(** [songFilter]: public or owned, and the supplied mood, tempo and genre. *)
Definition songFilter (uid : ObjectId) (q : GenerateQuery) (s : Song.t) : bool :=
  Song.visible_to uid s && Song.has_mood (g_mood q) s
  && optional_eq (g_tempo q) (Song.tempo s)
  && optional_eq (g_genre q) (Song.genre s).

(** [{ playCount: -1, likes: -1 }]. *)
Definition by_plays_likes (a b : Song.t) : bool :=
  if Song.playCount a =? Song.playCount b then Song.likes b <=? Song.likes a
  else Song.playCount b <? Song.playCount a.

Definition toUpperCase (c : ascii) : ascii :=
  let n := nat_of_ascii c in
  if (97 <=? n)%nat && (n <=? 122)%nat then ascii_of_nat (n - 32) else c.

(** [s.charAt(0).toUpperCase() + s.slice(1)]. *)
Definition capitalize (s : string) : string :=
  match s with
  | String c s' => String (toUpperCase c) s'
  | EmptyString => EmptyString
  end.

Definition playlistName (q : GenerateQuery) : string :=
  let n0 := "Auto-Generated Playlist" in
  let n1 :=
    match g_mood q with
    | Some mood => String.append (capitalize mood) " Mix"
    | None => n0
    end in
  let n2 :=
    match g_tempo q with
    | Some tempo =>
        String.append n1
          (String.append " (" (String.append (capitalize tempo) " Tempo)"))
    | None => n1
    end in
  match g_genre q with
  | Some genre => String.append n2 (String.append " - " (capitalize genre))
  | None => n2
  end.

(** The answer of the route: the saved playlist with [songs.song]
    populated ([null] for a reference no song answers to). *)
Record Generated := mkGenerated {
  playlist : t;
  populated : list (option Song.t)
}.

Definition autoGenerate (newId uid : ObjectId) (q : GenerateQuery)
    (songStore : list Song.t) (store : list t) : Response Generated * list t :=
  match validate_generate q with
  | [] =>
      let found :=
        firstn (Z.to_nat (default 20 (g_limit q)))
          (sort_by by_plays_likes (List.filter (songFilter uid q) songStore)) in
      match found with
      | [] => (Failure 404 "No songs found matching the criteria" [], store)
      | _ =>
          let pl :=
            mk newId (playlistName q)
               (Some "Automatically generated playlist based on your preferences")
               uid (map Song._id found) true
               (Some (mkGeneratedFor (g_mood q) (g_tempo q) (g_genre q)))
               false 0 [] [] None in
          match insert_doc _id pl store with
          | Some store' =>
              (Success 200 (Some "Playlist auto-generated successfully")
                 (mkGenerated pl
                    (map (fun id => Song.findById id songStore) (songs pl))),
               store')
          | None =>
              (Failure 500 "Server error auto-generating playlist" [], store)
          end
      end
  | errors => (Failure 400 "Validation failed" errors, store)
  end.

(** *** GET, PUT, DELETE /api/playlists/:id *)

Definition getPlaylist (uid id : ObjectId) (store : list t) : Response t :=
  match findById id store with
  | None => Failure 404 "Playlist not found" []
  | Some pl =>
      if negb (isPublic pl) && negb (String.eqb (owner pl) uid) then
        Failure 403 "Access denied to this playlist" []
      else Success 200 None pl
  end.

Record UpdateBody := mkUpdateBody {
  u_name : option string;
  u_description : option string;
  u_isPublic : option bool;
  u_tags : option (list string);
  u_coverImage : option string
}.

Definition validate_update (b : UpdateBody) : list string :=
  (Song.check (Song.optional_length 1 100 (u_name b))
     "Playlist name must be between 1 and 100 characters"
   ++ Song.check (Song.optional_length 0 500 (u_description b))
        "Description cannot exceed 500 characters")%list.

Definition apply_updates (b : UpdateBody) (p : t) : t :=
  mk (_id p)
     (default (name p) (trim <$> u_name b))
     (match u_description b with Some d => Some (trim d) | None => description p end)
     (owner p) (songs p) (isAutoGenerated p) (generatedFor p)
     (default (isPublic p) (u_isPublic b))
     (playCount p) (followers p)
     (default (tags p) (u_tags b))
     (match u_coverImage b with Some c => Some c | None => coverImage p end).

Definition updatePlaylist (uid id : ObjectId) (b : UpdateBody) (store : list t)
    : Response t * list t :=
  match validate_update b with
  | [] =>
      match findById id store with
      | None => (Failure 404 "Playlist not found" [], store)
      | Some pl =>
          if negb (String.eqb (owner pl) uid) then
            (Failure 403
               "Access denied. You can only update your own playlists" [],
             store)
          else
            match replace_doc _id (apply_updates b pl) store with
            | Some store' =>
                (Success 200 (Some "Playlist updated successfully")
                   (apply_updates b pl), store')
            | None => (Failure 500 "Server error updating playlist" [], store)
            end
      end
  | errors => (Failure 400 "Validation failed" errors, store)
  end.

Definition deletePlaylist (uid id : ObjectId) (store : list t)
    : Response unit * list t :=
  match findById id store with
  | None => (Failure 404 "Playlist not found" [], store)
  | Some pl =>
      if negb (String.eqb (owner pl) uid) then
        (Failure 403 "Access denied. You can only delete your own playlists" [],
         store)
      else (Success 200 (Some "Playlist deleted successfully") tt,
            delete_doc _id id store)
  end.

(** *** POST /api/playlists/:id/play *)

Definition playPlaylist (uid id : ObjectId) (store : list t)
    : Response Z * list t :=
  match findById id store with
  | None => (Failure 404 "Playlist not found" [], store)
  | Some pl =>
      match incrementPlayCount pl store with
      | Some (pl', store') =>
          (Success 200 (Some "Play count updated") (playCount pl'), store')
      | None => (Failure 500 "Server error updating play count" [], store)
      end
  end.

End Playlist.

(** ** Games (models/Game.js) *)

Module Game.

(** The paths of a game the handlers read or write. *)
Record t := mk {
  _id : ObjectId;
  name : string;
  type : string;
  instructions : list (Z * string);
  difficulty : string;
  estimatedDuration : Q;        (* in minutes *)
  isActive : bool;
  playCount : Z;
  averageRating : Q;
  ratingCount : Z;
  updatedAt : Date
}.

Definition findById (id : ObjectId) (store : list t) : option t :=
  find_by_id _id id store.

(** [gameSchema.pre('save', ...)]. *)
Definition pre_save (now : Date) (g : t) : t :=
  mk (_id g) (name g) (type g) (instructions g) (difficulty g)
     (estimatedDuration g) (isActive g) (playCount g) (averageRating g)
     (ratingCount g) now.

(** [gameSchema.methods.incrementPlayCount]. *)
Definition incrementPlayCount (now : Date) (g : t) (store : list t)
    : option (t * list t) :=
  let g' :=
    pre_save now
      (mk (_id g) (name g) (type g) (instructions g) (difficulty g)
          (estimatedDuration g) (isActive g) (playCount g + 1)
          (averageRating g) (ratingCount g) (updatedAt g)) in
  option_map (pair g') (replace_doc _id g' store).

(** [gameSchema.methods.updateRating].  [newRating] is what the body held:
    [+] adds a number and appends a string, and the division reads the
    appended text as a number again.  A [NaN] is no [Number] and
    [averageRating] is validated to lie in 0..5: the save is rejected
    otherwise ([None]). *)
Definition updateRating {numbers : NumberText} (now : Date) (newRating : Scalar) (g : t)
    (store : list t) : option (t * list t) :=
  let totalRating : option Q :=
    match newRating with
    | Num r => Some (averageRating g * inject_Z (ratingCount g) + r)%Q
    | Text s => numberText (averageRating g * inject_Z (ratingCount g))%Q s
    end in
  let ratingCount' := ratingCount g + 1 in
  match totalRating with
  | Some totalRating =>
      let g' :=
        pre_save now
          (mk (_id g) (name g) (type g) (instructions g) (difficulty g)
              (estimatedDuration g) (isActive g) (playCount g)
              (totalRating / inject_Z ratingCount')%Q ratingCount'
              (updatedAt g)) in
      if Qle_bool 0 (averageRating g') && Qle_bool (averageRating g') 5 then
        option_map (pair g') (replace_doc _id g' store)
      else None
  | None => None
  end.

End Game.

(** ** Game sessions (the GameSession model, the game router) *)

Module GameSession.

Definition moods : list string :=
  ["happy"; "sad"; "energetic"; "calm"; "anxious"; "excited"; "melancholic";
   "focused"; "angry"; "peaceful"; "stressed"; "bored"; "lonely";
   "overwhelmed"].
Definition difficulties : list string := ["easy"; "medium"; "hard"].
Definition deviceTypes : list string :=
  ["mobile"; "desktop"; "tablet"; "unknown"].

Record Mood := mkMood {
  mood : string;
  intensity : Z
}.

(** [moodAfter]: both paths default to [null]. *)
Record MoodAfter := mkMoodAfter {
  a_mood : option string;
  a_intensity : option Z
}.

Record t := mk {
  _id : ObjectId;
  user : ObjectId;
  game : ObjectId;
  sessionId : string;
  moodBefore : Mood;
  moodAfter : MoodAfter;
  score : Z;
  maxScore : Z;
  duration : Z;                 (* in seconds *)
  completed : bool;
  completionPercentage : Z;
  difficulty : string;
  gameData : gmap string Json;
  achievements : list string;
  rating : option Z;
  feedback : option string;
  deviceType : string;
  startedAt : Date;
  completedAt : option Date;
  createdAt : Date
}.

(** [gameSessionSchema.virtual('moodImprovement')]. *)
Definition moodImprovement (s : t) : option Z :=
  match a_intensity (moodAfter s) with
  | Some after =>
      if (after =? 0) || (intensity (moodBefore s) =? 0) then None
      else Some (after - intensity (moodBefore s))
  | None => None
  end.

(** JavaScript truthiness of [obj[k]] ([None] is [undefined]). *)
Definition truthy (v : option Json) : bool :=
  match v with
  | None | Some JNull => false
  | Some (JBool b) => b
  | Some (JNum q) => negb (Qeq_bool q 0)
  | Some (JStr s) => negb (String.eqb s "")
  | Some (JArr _) | Some (JObj _) => true
  end.

(** The number JavaScript reads a string, an array or an object as ([None]
    for [NaN]); the conversion belongs to the language, not to these
    sources, and is left open. *)
Class TextToNumber := text_to_number : Json -> option Q.

Section Achievements.
Context `{TextToNumber}.

(** [ToNumber]. *)
Definition toNumber (v : Json) : option Q :=
  match v with
  | JNull => Some 0%Q
  | JBool b => Some (if b then 1%Q else 0%Q)
  | JNum q => Some q
  | other => text_to_number other
  end.

(** [obj[k] || d], read as a number. *)
Definition or_number (v : option Json) (d : Q) : option Q :=
  match v with
  | Some x => if truthy v then toNumber x else Some d
  | None => Some d
  end.

(** [a < b] and [a > b] of a number and a number that may be [NaN]. *)
Definition lessThan (a : Q) (b : option Q) : bool :=
  match b with
  | Some b => negb (Qle_bool b a)
  | None => false
  end.
Definition greaterThan (a : Q) (b : option Q) : bool :=
  match b with
  | Some b => negb (Qle_bool a b)
  | None => false
  end.

Definition award (ok : bool) (name : string) : list string :=
  if ok then [name] else [].

(** [gameSessionSchema.methods.calculateAchievements]: the list assigned to
    [this.achievements]. *)
Definition calculateAchievements (s : t) : list string :=
  (award (truthy (gameData s !! "isFirstPlay")) "first-play"
   ++ award ((score s =? maxScore s) && (0 <? maxScore s)) "perfect-score"
   ++ award (lessThan (inject_Z (duration s))
               (or_number (gameData s !! "expectedDuration") 300))
        "quick-finish"
   ++ award (match moodImprovement s with
             | Some m => negb (m =? 0) && (2 <=? m)
             | None => false
             end)
        "mood-improver"
   ++ award (greaterThan (inject_Z (score s))
               (option_map (fun a => (a * (3 # 2))%Q)
                  (or_number (gameData s !! "averageScore") 0)))
        "high-scorer")%list.

(** [gameSessionSchema.methods.completeSession], up to the [save]. *)
Definition completeSession (now : Date) (moodAfter' : Mood) (score' : Z)
    (gameData' : gmap string Json) (s : t) : t :=
  let s1 :=
    mk (_id s) (user s) (game s) (sessionId s) (moodBefore s)
       (mkMoodAfter (Some (mood moodAfter')) (Some (intensity moodAfter')))
       score' (maxScore s)
       ((now - startedAt s) / 1000)
       true 100 (difficulty s)
       (gameData' ∪ gameData s)
       (achievements s) (rating s) (feedback s) (deviceType s) (startedAt s)
       (Some now) (createdAt s) in
  mk (_id s1) (user s1) (game s1) (sessionId s1) (moodBefore s1) (moodAfter s1)
     (score s1) (maxScore s1) (duration s1) (completed s1)
     (completionPercentage s1) (difficulty s1) (gameData s1)
     (calculateAchievements s1)
     (rating s1) (feedback s1) (deviceType s1) (startedAt s1) (completedAt s1)
     (createdAt s1).

End Achievements.

Definition set_maxScore (m : Z) (s : t) : t :=
  mk (_id s) (user s) (game s) (sessionId s) (moodBefore s) (moodAfter s)
     (score s) m (duration s) (completed s) (completionPercentage s)
     (difficulty s) (gameData s) (achievements s) (rating s) (feedback s)
     (deviceType s) (startedAt s) (completedAt s) (createdAt s).

Definition set_rating (r : option Z) (f : option string) (s : t) : t :=
  mk (_id s) (user s) (game s) (sessionId s) (moodBefore s) (moodAfter s)
     (score s) (maxScore s) (duration s) (completed s) (completionPercentage s)
     (difficulty s) (gameData s) (achievements s) r f
     (deviceType s) (startedAt s) (completedAt s) (createdAt s).

Definition check (ok : bool) (msg : string) : list string :=
  if ok then [] else [msg].

(** *** POST /api/games/:id/start *)

Record StartBody := mkStartBody {
  sb_mood : option string;          (* moodBefore.mood *)
  sb_intensity : option Z;          (* moodBefore.intensity *)
  sb_difficulty : option string;
  sb_deviceType : option string
}.

Definition validate_start (b : StartBody) : list string :=
  (check (match sb_mood b with Some m => isIn moods m | None => false end)
     "Invalid mood"
   ++ check (match sb_intensity b with
             | Some i => (1 <=? i) && (i <=? 10)
             | None => false
             end)
        "Mood intensity must be between 1 and 10"
   ++ check (match sb_difficulty b with
             | Some d => isIn difficulties d
             | None => true
             end)
        "Invalid difficulty level")%list.

(** The answer of the start route. *)
Record Started := mkStarted {
  st_sessionId : string;
  st_game : ObjectId;
  st_name : string;
  st_type : string;
  st_difficulty : string;
  st_instructions : list (Z * string);
  st_estimatedDuration : Q
}.

(** [`${req.user._id}_${game._id}_${Date.now()}`]. *)
Definition newSessionId (uid gid : ObjectId) (now : Date) : string :=
  String.append uid
    (String.append "_" (String.append gid (String.append "_" (pretty now)))).

(** [GameSession.countDocuments({ user, game })]. *)
Definition countSessions (uid gid : ObjectId) (store : list t) : Z :=
  Z.of_nat
    (length (List.filter
               (fun s => String.eqb (user s) uid && String.eqb (game s) gid)
               store)).

(** The [enum] validator of [moodAfter.mood], a path that defaults to
    [null]. *)
Definition moodAfter_ok {mongoose : Mongoose} (s : t) : bool :=
  match a_mood (moodAfter s) with
  | Some m => isIn moods m
  | None => enumAcceptsNull
  end.

(** The write of a new session: its enumerated paths are validated, and
    [sessionId] is unique. *)
Definition insert_session {mongoose : Mongoose} (s : t) (store : list t)
    : option (list t) :=
  if moodAfter_ok s && isIn moods (mood (moodBefore s))
     && isIn difficulties (difficulty s) && isIn deviceTypes (deviceType s)
     && negb (existsb (fun x => String.eqb (sessionId x) (sessionId s)) store)
  then insert_doc _id s store
  else None.

Definition startSession {mongoose : Mongoose} (now : Date) (newId uid gid : ObjectId)
    (b : StartBody) (games : list Game.t) (store : list t)
    : Response Started * (list Game.t * list t) :=
  match validate_start b with
  | [] =>
      match Game.findById gid games with
      | None => (Failure 404 "Game not found or not available" [], (games, store))
      | Some game =>
          if negb (Game.isActive game) then
            (Failure 404 "Game not found or not available" [], (games, store))
          else
            let difficulty := default (Game.difficulty game) (sb_difficulty b) in
            let deviceType := default "unknown" (sb_deviceType b) in
            let sessionId := newSessionId uid (Game._id game) now in
            let previousSessions := countSessions uid (Game._id game) store in
            let gameSession :=
              mk newId uid (Game._id game) sessionId
                 (mkMood (default "" (sb_mood b)) (default 0 (sb_intensity b)))
                 (mkMoodAfter None None) 0 0 0 false 0 difficulty
                 (<["isFirstPlay" := JBool (previousSessions =? 0)]>
                    (<["expectedDuration" :=
                         JNum (Game.estimatedDuration game * 60)%Q]> ∅))
                 [] None None deviceType now None now in
            match insert_session gameSession store with
            | None =>
                (Failure 500 "Server error starting game session" [],
                 (games, store))
            | Some store' =>
                match Game.incrementPlayCount now game games with
                | None =>
                    (Failure 500 "Server error starting game session" [],
                     (games, store'))
                | Some (_, games') =>
                    (Success 201 (Some "Game session started successfully")
                       (mkStarted sessionId (Game._id game) (Game.name game)
                          (Game.type game) difficulty (Game.instructions game)
                          (Game.estimatedDuration game)),
                     (games', store'))
                end
            end
      end
  | errors => (Failure 400 "Validation failed" errors, (games, store))
  end.

(** *** PUT /api/games/sessions/:sessionId/complete *)

Record CompleteBody := mkCompleteBody {
  cb_moodAfter : option Mood;
  cb_score : option Z;
  cb_maxScore : option Z;
  cb_gameData : option (gmap string Json)
}.

Definition validate_complete (b : CompleteBody) : list string :=
  (check (match cb_moodAfter b with
          | Some m => isIn moods (mood m)
          | None => false
          end)
     "Invalid mood"
   ++ check (match cb_moodAfter b with
             | Some m => (1 <=? intensity m) && (intensity m <=? 10)
             | None => false
             end)
        "Mood intensity must be between 1 and 10"
   ++ check (match cb_score b with Some n => 0 <=? n | None => false end)
        "Score must be a non-negative integer"
   ++ check (match cb_maxScore b with Some n => 0 <=? n | None => true end)
        "Max score must be a non-negative integer")%list.

(** The answer of the complete route. *)
Record Completed := mkCompleted {
  c_sessionId : string;
  c_score : Z;
  c_maxScore : Z;
  c_moodImprovement : Z;
  c_achievements : list string;
  c_duration : Z
}.

(** [GameSession.findOne({ sessionId, user })]. *)
Definition findSession (sid : string) (uid : ObjectId) (store : list t)
    : option t :=
  List.find (fun s => String.eqb (sessionId s) sid && String.eqb (user s) uid)
            store.

Section Routes.
Context `{TextToNumber}.

Definition completeRoute (now : Date) (uid : ObjectId) (sid : string)
    (b : CompleteBody) (store : list t) : Response Completed * list t :=
  match validate_complete b with
  | [] =>
      match findSession sid uid store with
      | None => (Failure 404 "Game session not found" [], store)
      | Some gameSession =>
          if completed gameSession then
            (Failure 400 "Game session already completed" [], store)
          else
            let moodAfter := default (mkMood "" 0) (cb_moodAfter b) in
            let score := default 0 (cb_score b) in
            let maxScore := default score (cb_maxScore b) in
            let gameData := default ∅ (cb_gameData b) in
            let gameSession' :=
              completeSession now moodAfter score gameData
                (set_maxScore maxScore gameSession) in
            match replace_doc _id gameSession' store with
            | None =>
                (Failure 500 "Server error completing game session" [], store)
            | Some store' =>
                (Success 200 (Some "Game session completed successfully")
                   (mkCompleted (sessionId gameSession') score maxScore
                      (intensity moodAfter
                       - intensity (moodBefore gameSession'))
                      (achievements gameSession') (duration gameSession')),
                 store')
            end
      end
  | errors => (Failure 400 "Validation failed" errors, store)
  end.

End Routes.

(** *** POST /api/games/:id/rate *)

(** [rating] is validated by [isInt] and not converted: the handler gets
    the number or the string the body held. *)
Record RateBody := mkRateBody {
  rb_rating : option Scalar;
  rb_feedback : option string
}.

Definition validate_rate (b : RateBody) : list string :=
  (check (match rb_rating b ≫= intOfScalar with
          | Some r => (1 <=? r) && (r <=? 5)
          | None => false
          end)
     "Rating must be between 1 and 5"
   ++ check (match rb_feedback b with
             | Some f => Z.of_nat (String.length (trim f)) <=? 500
             | None => true
             end)
        "Feedback cannot exceed 500 characters")%list.

Definition played (uid gid : ObjectId) (s : t) : bool :=
  String.eqb (user s) uid && String.eqb (game s) gid && completed s.

(** [{ sort: { completedAt: -1 } }]. *)
Definition latest_completed_first (a b : t) : bool :=
  default 0 (completedAt b) <=? default 0 (completedAt a).

Record Rated := mkRated {
  r_averageRating : Q;
  r_ratingCount : Z
}.

(** The rating and feedback [findOneAndUpdate] writes: the rating cast to
    the [Number] of the schema; a feedback the body does not hold is no part
    of the update, and the stored one stays. *)
Definition rate (b : RateBody) (s : t) : t :=
  set_rating (rb_rating b ≫= intOfScalar)
    (match rb_feedback b with
     | Some f => Some (trim f)
     | None => feedback s
     end) s.

Definition rateGame {numbers : NumberText} (now : Date) (uid gid : ObjectId)
    (b : RateBody) (games : list Game.t) (store : list t)
    : Response Rated * (list Game.t * list t) :=
  match validate_rate b with
  | [] =>
      match Game.findById gid games with
      | None => (Failure 404 "Game not found" [], (games, store))
      | Some game =>
          match List.find (played uid (Game._id game)) store with
          | None =>
              (Failure 400 "You must complete a game session before rating" [],
               (games, store))
          | Some _ =>
              match Game.updateRating now (default (Num 0) (rb_rating b)) game
                      games
              with
              | None => (Failure 500 "Server error rating game" [], (games, store))
              | Some (game', games') =>
                  let store' :=
                    match head (sort_by latest_completed_first
                                  (List.filter (played uid (Game._id game))
                                     store)) with
                    | Some s => default store (replace_doc _id (rate b s) store)
                    | None => store
                    end in
                  (Success 200 (Some "Game rated successfully")
                     (mkRated (Game.averageRating game') (Game.ratingCount game')),
                   (games', store'))
              end
          end
      end
  | errors => (Failure 400 "Validation failed" errors, (games, store))
  end.

(** *** The service as a transition system over its two collections *)

Section Steps.
Context `{TextToNumber} {numbers : NumberText} {mongoose : Mongoose}.

Inductive step : list Game.t * list t -> list Game.t * list t -> Prop :=
| step_start now newId uid gid b games store :
    step (games, store) (snd (startSession now newId uid gid b games store))
| step_complete now uid sid b games store :
    step (games, store) (games, snd (completeRoute now uid sid b store))
| step_rate now uid gid b games store :
    step (games, store) (snd (rateGame now uid gid b games store)).

(** The states the service reaches from a catalogue of games and no
    session. *)
Definition reachable (st : list Game.t * list t) : Prop :=
  exists games, rtc step (games, []) st.

End Steps.

End GameSession.

(** ** Notions used to state the properties *)

(** The fields of a mood log that no update may touch. *)
Definition write_once_equal (d d' : MoodLog.t) : Prop :=
  MoodLog._id d' = MoodLog._id d /\ MoodLog.user d' = MoodLog.user d /\
  MoodLog.mood d' = MoodLog.mood d /\
  MoodLog.intensity d' = MoodLog.intensity d /\
  MoodLog.detectionMethod d' = MoodLog.detectionMethod d /\
  MoodLog.confidence d' = MoodLog.confidence d /\
  MoodLog.previousMood d' = MoodLog.previousMood d /\
  MoodLog.sessionId d' = MoodLog.sessionId d /\
  MoodLog.createdAt d' = MoodLog.createdAt d.

(** The logs of a user in the trailing window of [days] days. *)
Definition in_window (now : Date) (uid : ObjectId) (days : Z)
    (store : list MoodLog.t) : list MoodLog.t :=
  List.filter
    (fun d => MoodLog.owned_by uid d
              && (now - days * MoodLog.msPerDay <=? MoodLog.createdAt d))
    store.

Definition sumQ (l : list Q) : Q := foldr Qplus 0%Q l.

(** [count / totalMoodsInWindow * 100]. *)
Definition share (total : Z) (f : MoodLog.Frequency) : Q :=
  (inject_Z (MoodLog.count f) / inject_Z total * 100)%Q.

(** An entry of a response reports a percentage share. *)
Definition reports_percentage (entry : list (string * Json)) : Prop :=
  exists p, lookup_key "percentage" entry = Some (JNum p).

(** What holds of every stored game session. *)
Definition session_ok `{GameSession.TextToNumber} (s : GameSession.t) : Prop :=
  1 <= GameSession.intensity (GameSession.moodBefore s) <= 10 /\
  (GameSession.completed s = false ->
     GameSession.moodAfter s = GameSession.mkMoodAfter None None /\
     GameSession.achievements s = [] /\ GameSession.completedAt s = None) /\
  (GameSession.completed s = true ->
     (exists after,
        GameSession.a_intensity (GameSession.moodAfter s) = Some after /\
        1 <= after <= 10) /\
     GameSession.achievements s = GameSession.calculateAchievements s).

Definition sessions_ok `{GameSession.TextToNumber}
    (store : list GameSession.t) : Prop :=
  Forall session_ok store /\ List.NoDup (map GameSession._id store).

(** The user's average score over the completed sessions of a game, as the
    specification's "historical average" reads; the sources compute no such
    value for the achievements, this is the yardstick they are held to. *)
Definition historicalAverage (uid gid : ObjectId)
    (store : list GameSession.t) : Q :=
  let played := List.filter (GameSession.played uid gid) store in
  (inject_Z (MoodLog.sumZ (map GameSession.score played))
   / inject_Z (Z.of_nat (length played)))%Q.

(** ** Sample data *)

Module Examples.

Definition moodLog1 : MoodLog.t :=
  MoodLog.mk "m1" "u1" "happy" 8 "text" 1 None
    (MoodLog.mkContext None None (Some "unknown") (Some "morning"))
    [] None None 1000.

Definition moodLog2 : MoodLog.t :=
  MoodLog.mk "m2" "u1" "calm" 4 "manual" 1 (Some "quiet")
    (MoodLog.mkContext None None (Some "sunny") (Some "evening"))
    ["nature"]
    (Some (MoodLog.mkPreviousMood "happy" 8 1000)) None 2000.

Definition moodLog3 : MoodLog.t :=
  MoodLog.mk "m9" "u2" "sad" 3 "voice" 1 None
    (MoodLog.mkContext None None (Some "rainy") (Some "night"))
    [] None None 3000.

Definition moodLogs : list MoodLog.t := [moodLog1; moodLog2; moodLog3].

(** [{ mood: "happy", intensity: 8, detectionMethod: "text" }]. *)
Definition logBody : MoodLog.LogBody :=
  MoodLog.mkLogBody (Some "happy") (Some 8) (Some "text") None None None None
    None.

(** The same with [context: { timeOfDay: "afternoon" }]. *)
Definition afternoonBody : MoodLog.LogBody :=
  MoodLog.mkLogBody (Some "happy") (Some 8) (Some "text") None None
    (Some (MoodLog.mkContextBody None None None (Some "afternoon"))) None None.

(** 14:00 UTC of the first day of the epoch. *)
Definition twoPM : Date := 14 * 3600000.

Definition created : MoodLog.t :=
  Eval vm_compute in
    MoodLog.pre_save 0
      (MoodLog.new_mood_log twoPM "m3" "u1" afternoonBody moodLogs).

(** An update that rewrites the notes and also sends a new mood, intensity
    and owner. *)
Definition updateBody : MoodLog.UpdateBody :=
  MoodLog.mkUpdateBody (Some " rewritten ") None None
    (Some "sad") (Some 1) (Some "camera") None None None (Some "u2") (Some 0).

Definition song (id owner : ObjectId) (public : bool) (plays : Z)
    (energy valence : Q) : Song.t :=
  Song.mk id "Title" "Artist" None "pop" ["happy"] "en" 180 "uploads/a.mp3"
    None owner public plays 0 "medium" energy valence 100 100.

Definition songs : list Song.t :=
  [song "s1" "u2" true 10 7 5; song "s2" "u2" false 50 8 5;
   song "s3" "u1" false 3 10 5; song "s4" "u2" true 40 5 5;
   song "s5" "u2" true 7 6 9].

(** [?energy=8]. *)
Definition energy8 : Song.RecommendQuery :=
  Song.mkRecommendQuery None (Some 8) None None.

(** [?mood=happy&limit=5]. *)
Definition happy5 : Playlist.GenerateQuery :=
  Playlist.mkGenerateQuery (Some "happy") None None (Some 5).

Definition privatePlaylist : Playlist.t :=
  Playlist.mk "p1" "Mine" None "u2" ["s1"; "s2"] false None false 4 [] [] None.

(** No string, array or object is read as a number. *)
Definition nan_text : GameSession.TextToNumber := fun _ => None.

(** [Number(String(x) + s)] for a whole number [x] that is not negative and
    a run of digits [s]: the digits of [x] followed by [s].  Every other
    pair is left at [NaN]; the examples use none. *)
Definition appendDigits : NumberText :=
  fun x s =>
    match intOfScalar (Num x), unsigned s with
    | Some n, Some _ =>
        if 0 <=? n then inject_Z <$> unsigned (String.append (pretty n) s)
        else None
    | _, _ => None
    end.

Definition mongoose6 : Mongoose := upTo6.
Definition mongoose8 : Mongoose := from8.

Definition games : list Game.t :=
  [Game.mk "g1" "Breathe" "breathing" [(1, "Inhale")] "easy" 5 true 0 0 0 0].

Definition startBody : GameSession.StartBody :=
  GameSession.mkStartBody (Some "sad") (Some 4) None None.

(** [{ moodAfter: { mood, intensity }, score, maxScore: 100 }]. *)
Definition completeBody (mood : string) (intensity score : Z)
    : GameSession.CompleteBody :=
  GameSession.mkCompleteBody (Some (GameSession.mkMood mood intensity))
    (Some score) (Some 100) None.

(** A user plays the game three times: started at second 1, 100 and 200,
    each completed a minute later, with scores 100, 100 and 1; the release
    is one on which a session can start. *)
Definition run0 : list Game.t * list GameSession.t := (games, []).
Definition run1 : list Game.t * list GameSession.t :=
  Eval vm_compute in
    snd (GameSession.startSession (mongoose := mongoose8) 1000 "gs1" "u1" "g1"
           startBody
           (fst run0) (snd run0)).
Definition run2 : list Game.t * list GameSession.t :=
  Eval vm_compute in
    (fst run1,
     snd (GameSession.completeRoute (H := nan_text) 61000 "u1" "u1_g1_1000"
            (completeBody "happy" 7 100) (snd run1))).
Definition run3 : list Game.t * list GameSession.t :=
  Eval vm_compute in
    snd (GameSession.startSession (mongoose := mongoose8) 100000 "gs2" "u1" "g1"
           startBody
           (fst run2) (snd run2)).
Definition run4 : list Game.t * list GameSession.t :=
  Eval vm_compute in
    (fst run3,
     snd (GameSession.completeRoute (H := nan_text) 160000 "u1" "u1_g1_100000"
            (completeBody "calm" 6 100) (snd run3))).
Definition run5 : list Game.t * list GameSession.t :=
  Eval vm_compute in
    snd (GameSession.startSession (mongoose := mongoose8) 200000 "gs3" "u1" "g1"
           startBody
           (fst run4) (snd run4)).
Definition run6 : list Game.t * list GameSession.t :=
  Eval vm_compute in
    (fst run5,
     snd (GameSession.completeRoute (H := nan_text) 260000 "u1" "u1_g1_200000"
            (completeBody "sad" 4 1) (snd run5))).

End Examples.

(** ** Paging of list routes *)

Module Paging.

(** [pagination: { current, pages, total, limit }]. *)
Record Pagination := mkPagination {
  current : Z;
  pages : Z;
  total : Z;
  limit : Z
}.

(** [Math.ceil(a / b)] for a positive [b]. *)
Definition ceil_div (a b : Z) : Z := - ((- a) / b).

(** [.skip((page - 1) * limit).limit(limit)]. *)
Definition page_of {A} (page limit : Z) (l : list A) : list A :=
  firstn (Z.to_nat limit) (skipn (Z.to_nat ((page - 1) * limit)) l).

Definition pagination {A} (page limit : Z) (matched : list A) : Pagination :=
  mkPagination page (ceil_div (Z.of_nat (length matched)) limit)
    (Z.of_nat (length matched)) limit.

Definition optional_int (lo : Z) (hi : option Z) (o : option Z) : bool :=
  match o with
  | Some n => (lo <=? n) && match hi with Some h => n <=? h | None => true end
  | None => true
  end.

End Paging.

(** ** Further mood routes (routes/moods.js) *)

Module MoodRoutes.

(** *** GET /api/moods/:id *)

Definition getMood (uid id : ObjectId) (store : list MoodLog.t)
    : Response MoodLog.t :=
  match MoodLog.findById id store with
  | None => Failure 404 "Mood log not found" []
  | Some moodLog =>
      if negb (String.eqb (MoodLog.user moodLog) uid) then
        Failure 403 "Access denied to this mood log" []
      else Success 200 None moodLog
  end.

(** *** DELETE /api/moods/:id *)

Definition deleteMood (uid id : ObjectId) (store : list MoodLog.t)
    : Response unit * list MoodLog.t :=
  match MoodLog.findById id store with
  | None => (Failure 404 "Mood log not found" [], store)
  | Some moodLog =>
      if negb (String.eqb (MoodLog.user moodLog) uid) then
        (Failure 403 "Access denied. You can only delete your own mood logs" [],
         store)
      else (Success 200 (Some "Mood log deleted successfully") tt,
            delete_doc MoodLog._id id store)
  end.

(** *** GET /api/moods *)

(** The query of the history route; [startDate] and [endDate] are the dates
    their ISO 8601 strings denote. *)
Record ListQuery := mkListQuery {
  l_page : option Z;
  l_limit : option Z;
  l_mood : option string;
  l_detectionMethod : option string;
  l_startDate : option Date;
  l_endDate : option Date;
  l_sortBy : option string;
  l_sortOrder : option string
}.

Definition validate_list (q : ListQuery) : list string :=
  (MoodLog.check (Paging.optional_int 1 None (l_page q)) "Invalid value"
   ++ MoodLog.check (Paging.optional_int 1 (Some 100) (l_limit q)) "Invalid value"
   ++ MoodLog.check (MoodLog.enum_ok MoodLog.moods (l_mood q)) "Invalid value"
   ++ MoodLog.check (MoodLog.enum_ok MoodLog.detectionMethods
                       (l_detectionMethod q)) "Invalid value")%list.

(** The order of two documents on a path, ascending, is the database's
    comparison of the values stored there and is left open. *)
Class PathOrder := path_le : string -> MoodLog.t -> MoodLog.t -> bool.

Definition list_filter (uid : ObjectId) (q : ListQuery) (d : MoodLog.t) : bool :=
  MoodLog.owned_by uid d
  && match l_mood q with Some m => String.eqb (MoodLog.mood d) m | None => true end
  && match l_detectionMethod q with
     | Some m => String.eqb (MoodLog.detectionMethod d) m
     | None => true
     end
  && match l_startDate q with
     | Some s => s <=? MoodLog.createdAt d
     | None => true
     end
  && match l_endDate q with
     | Some e => MoodLog.createdAt d <=? e
     | None => true
     end.

Record Listing := mkListing {
  moodLogs : list MoodLog.t;
  pagination : Paging.Pagination
}.

Section Listing.
Context `{PathOrder}.

(** [sort[sortBy] = sortOrder === 'desc' ? -1 : 1]. *)
Definition list_order (q : ListQuery) (a b : MoodLog.t) : bool :=
  let sortBy := default "createdAt" (l_sortBy q) in
  if String.eqb (default "desc" (l_sortOrder q)) "desc"
  then path_le sortBy b a
  else path_le sortBy a b.

Definition listMoods (uid : ObjectId) (q : ListQuery) (store : list MoodLog.t)
    : Response Listing :=
  match validate_list q with
  | [] =>
      let page := default 1 (l_page q) in
      let limit := default 20 (l_limit q) in
      let matched := List.filter (list_filter uid q) store in
      Success 200 None
        (mkListing
           (Paging.page_of page limit (sort_by (list_order q) matched))
           (Paging.pagination page limit matched))
  | errors => Failure 400 "Validation failed" errors
  end.

End Listing.

(** The same query for another page. *)
Definition with_page (page : Z) (q : ListQuery) : ListQuery :=
  mkListQuery (Some page) (l_limit q) (l_mood q) (l_detectionMethod q)
    (l_startDate q) (l_endDate q) (l_sortBy q) (l_sortOrder q).

(** The logs a response lists. *)
Definition listed (r : Response Listing) : list MoodLog.t :=
  match r with
  | Success _ _ data => moodLogs data
  | Failure _ _ _ => []
  end.

(** *** GET /api/moods/stats *)

Record Overview := mkOverview {
  totalEntries : Z;
  avgIntensity : Q;
  mostCommonMood : option string;
  highestIntensity : Z;
  lowestIntensity : Z;
  detectionMethods : list string;
  uniqueMoods : list string;
  avgConfidence : Q
}.

Record MethodStat := mkMethodStat {
  ms_id : string;
  ms_count : Z;
  ms_avgConfidence : Q
}.

Record TimePattern := mkTimePattern {
  tp_id : option string;
  tp_count : Z;
  tp_avgIntensity : Q;
  tp_commonMoods : list string
}.

Record Stats := mkStats {
  overview : Overview;
  moodDistribution : list MoodLog.Frequency;
  detectionMethodStats : list MethodStat;
  timePatterns : list TimePattern;
  period_days : Z;
  period_startDate : Date;
  period_endDate : Date
}.

Definition sumQ (l : list Q) : Q := foldr Qplus 0%Q l.

(** [$avg] of the integers of a non-empty group. *)
Definition avgZ (l : list Z) : Q :=
  (inject_Z (MoodLog.sumZ l) / inject_Z (Z.of_nat (length l)))%Q.

Definition avgQ (l : list Q) : Q :=
  (sumQ l / inject_Z (Z.of_nat (length l)))%Q.

(** [$max] and [$min] of the integers of a group that starts with [x]. *)
Definition maxZ (x : Z) (l : list Z) : Z := foldr Z.max x l.
Definition minZ (x : Z) (l : list Z) : Z := foldr Z.min x l.

(** The keys of a [$group], in order of first occurrence. *)
Fixpoint distinct_keys {K} `{EqDecision K} (l : list K) : list K :=
  match l with
  | [] => []
  | x :: l' => x :: List.filter (fun y => negb (bool_decide (y = x)))
                      (distinct_keys l')
  end.

Definition members {A K} `{EqDecision K} (key : A -> K) (k : K) (docs : list A)
    : list A :=
  List.filter (fun d => bool_decide (key d = k)) docs.

(** The first aggregation: one group, absent when nothing matches. *)
Definition overview_of (docs : list MoodLog.t) : option Overview :=
  match docs with
  | [] => None
  | first :: _ =>
      Some (mkOverview
              (Z.of_nat (length docs))
              (avgZ (map MoodLog.intensity docs))
              (Some (MoodLog.mood first))
              (maxZ (MoodLog.intensity first) (map MoodLog.intensity docs))
              (minZ (MoodLog.intensity first) (map MoodLog.intensity docs))
              (distinct_keys (map MoodLog.detectionMethod docs))
              (distinct_keys (map MoodLog.mood docs))
              (avgQ (map MoodLog.confidence docs)))
  end.

Definition method_stat (docs : list MoodLog.t) (m : string) : MethodStat :=
  let g := members MoodLog.detectionMethod m docs in
  mkMethodStat m (Z.of_nat (length g)) (avgQ (map MoodLog.confidence g)).

Definition time_of (d : MoodLog.t) : option string :=
  MoodLog.timeOfDay (MoodLog.context d).

Definition time_pattern (docs : list MoodLog.t) (k : option string)
    : TimePattern :=
  let g := members time_of k docs in
  mkTimePattern k (Z.of_nat (length g)) (avgZ (map MoodLog.intensity g))
    (map MoodLog.mood g).

Definition by_method_count (a b : MethodStat) : bool := ms_count b <=? ms_count a.

Definition statsRoute (now : Date) (uid : ObjectId) (days : option Z)
    (store : list MoodLog.t) : Response Stats :=
  match MoodLog.check (Paging.optional_int 1 (Some 365) days) "Invalid value" with
  | [] =>
      let days := default 30 days in
      let startDate := now - days * MoodLog.msPerDay in
      let matched :=
        List.filter
          (fun d => MoodLog.owned_by uid d && (startDate <=? MoodLog.createdAt d))
          store in
      Success 200 None
        (mkStats
           (default (mkOverview 0 0 None 0 0 [] [] 0) (overview_of matched))
           (sort_by MoodLog.more_frequent_first
              (map (MoodLog.group_of matched)
                 (MoodLog.distinct (map MoodLog.mood matched))))
           (sort_by by_method_count
              (map (method_stat matched)
                 (distinct_keys (map MoodLog.detectionMethod matched))))
           (map (time_pattern matched) (distinct_keys (map time_of matched)))
           days startDate now)
  | errors => Failure 400 "Validation failed" errors
  end.

End MoodRoutes.

(** ** Mood trends (the analytics router) *)

Module Analytics.

(** [$dateToString: { format, date }]: the text of a date in a format; the
    conversion belongs to MongoDB, not to these sources, and is left open. *)
Class DateToString := dateToString : string -> Date -> string.

(** [days] is kept as the integer its text denotes. *)
Record TrendsQuery := mkTrendsQuery {
  q_days : option Z;
  q_groupBy : option string
}.

Definition groupings : list string := ["day"; "week"; "month"].

Definition validate_trends (q : TrendsQuery) : list string :=
  (MoodLog.check (Paging.optional_int 7 (Some 365) (q_days q)) "Invalid value"
   ++ MoodLog.check (MoodLog.enum_ok groupings (q_groupBy q))
        "Invalid value")%list.

Definition dateFormat (groupBy : string) : string :=
  if String.eqb groupBy "week" then "%Y-W%U"
  else if String.eqb groupBy "month" then "%Y-%m"
  else "%Y-%m-%d".

(** A group of [trends]: [_id: { date, mood }] and its figures. *)
Record Trend := mkTrend {
  t_date : string;
  t_mood : string;
  t_count : Z;
  t_avgIntensity : Q;
  t_maxIntensity : Z;
  t_minIntensity : Z
}.

(** An entry of [moodDistribution]. *)
Record Share := mkShare {
  s_id : string;        (* _id: the mood *)
  s_count : Z;
  s_avgIntensity : Q;
  s_percentage : Q
}.

Record Summary := mkSummary {
  totalEntries : Z;
  period : Z;           (* [`${days} days`] *)
  groupBy : string;
  startDate : Date;
  endDate : Date
}.

Record MoodTrends := mkMoodTrends {
  trends : list Trend;
  moodDistribution : list Share;
  summary : Summary
}.

Definition trend_of (key : MoodLog.t -> string * string)
    (docs : list MoodLog.t) (k : string * string) : Trend :=
  let g := map MoodLog.intensity (MoodRoutes.members key k docs) in
  mkTrend (fst k) (snd k) (Z.of_nat (length g)) (MoodRoutes.avgZ g)
    (MoodRoutes.maxZ (hd 0 g) g) (MoodRoutes.minZ (hd 0 g) g).

(** [$sort: { '_id.date': 1, '_id.mood': 1 }]. *)
Definition earlier_first (a b : Trend) : bool :=
  String.ltb (t_date a) (t_date b)
  || (String.eqb (t_date a) (t_date b) && String.leb (t_mood a) (t_mood b)).

(** [mood.percentage = totalMoods > 0 ? (mood.count / totalMoods) * 100 : 0]. *)
Definition share_of (totalMoods : Z) (f : MoodLog.Frequency) : Share :=
  mkShare (MoodLog.f_id f) (MoodLog.count f) (MoodLog.avgIntensity f)
    (if 0 <? totalMoods
     then (inject_Z (MoodLog.count f) / inject_Z totalMoods * 100)%Q
     else 0%Q).

(** GET /api/analytics/mood-trends.  The second aggregation is the pipeline
    of [getMoodFrequency] (its [$match] takes [req.user._id] as it is); the
    [percentage] it sums is overwritten by the handler. *)
Definition moodTrends `{DateToString} (now : Date) (uid : ObjectId)
    (q : TrendsQuery) (store : list MoodLog.t) : Response MoodTrends :=
  match validate_trends q with
  | [] =>
      let days := default 30 (q_days q) in
      let groupBy := default "day" (q_groupBy q) in
      let startDate := now - days * MoodLog.msPerDay in
      let matched :=
        List.filter
          (fun d => MoodLog.owned_by uid d && (startDate <=? MoodLog.createdAt d))
          store in
      let key d :=
        (dateToString (dateFormat groupBy) (MoodLog.createdAt d),
         MoodLog.mood d) in
      let trends :=
        sort_by earlier_first
          (map (trend_of key matched)
             (MoodRoutes.distinct_keys (map key matched))) in
      let moodDistribution := MoodLog.frequencyPipeline now uid days store in
      let totalMoods :=
        MoodLog.sumZ (map MoodLog.count moodDistribution) in
      Success 200 None
        (mkMoodTrends trends (map (share_of totalMoods) moodDistribution)
           (mkSummary totalMoods days groupBy startDate now))
  | errors => Failure 400 "Validation failed" errors
  end.

End Analytics.

(** ** Following a playlist (the playlist router) *)

Module PlaylistRoutes.

(** The answer of the follow route. *)
Record Followed := mkFollowed {
  isFollowing : bool;
  followerCount : Z
}.

Definition set_followers (f : list ObjectId) (p : Playlist.t) : Playlist.t :=
  Playlist.mk (Playlist._id p) (Playlist.name p) (Playlist.description p)
    (Playlist.owner p) (Playlist.songs p) (Playlist.isAutoGenerated p)
    (Playlist.generatedFor p) (Playlist.isPublic p) (Playlist.playCount p)
    f (Playlist.tags p) (Playlist.coverImage p).

(** POST /api/playlists/:id/follow.  [followers] is the array of ObjectIds
    of the record above, on which [includes] compares the ids; [save] stores
    the playlist under its [_id]. *)
Definition followPlaylist (uid id : ObjectId) (store : list Playlist.t)
    : Response Followed * list Playlist.t :=
  match Playlist.findById id store with
  | None => (Failure 404 "Playlist not found" [], store)
  | Some playlist =>
      if negb (Playlist.isPublic playlist) then
        (Failure 403 "Cannot follow private playlists" [], store)
      else
        let isFollowing := existsb (String.eqb uid) (Playlist.followers playlist) in
        let followers :=
          if isFollowing then
            List.filter (fun followerId => negb (String.eqb followerId uid))
              (Playlist.followers playlist)
          else (Playlist.followers playlist ++ [uid])%list in
        match replace_doc Playlist._id (set_followers followers playlist) store
        with
        | Some store' =>
            (Success 200
               (Some (if isFollowing then "Playlist unfollowed"
                      else "Playlist followed"))
               (mkFollowed (negb isFollowing) (Z.of_nat (length followers))),
             store')
        | None => (Failure 500 "Server error following playlist" [], store)
        end
  end.

End PlaylistRoutes.

(** ** Further game routes (the game router, the GameSession statics) *)

Module GameRoutes.

(** *** GET /api/games/:id *)

Definition getGame (id : ObjectId) (games : list Game.t) : Response Game.t :=
  match Game.findById id games with
  | None => Failure 404 "Game not found" []
  | Some game =>
      if negb (Game.isActive game) then Failure 404 "Game is not available" []
      else Success 200 None game
  end.

(** *** GET /api/games/sessions/:sessionId *)

Definition getSession (uid : ObjectId) (sid : string)
    (store : list GameSession.t) : Response GameSession.t :=
  match GameSession.findSession sid uid store with
  | None => Failure 404 "Game session not found" []
  | Some gameSession => Success 200 None gameSession
  end.

(** *** GET /api/games/sessions/history *)

Record HistoryQuery := mkHistoryQuery {
  h_page : option Z;
  h_limit : option Z;
  h_gameId : option string;
  h_completed : option string
}.

Definition isHexDigit (c : ascii) : bool :=
  let n := nat_of_ascii c in
  ((48 <=? n) && (n <=? 57) || (65 <=? n) && (n <=? 70)
   || (97 <=? n) && (n <=? 102))%nat.

(** [isMongoId()]: 24 hexadecimal digits. *)
Definition isMongoId (s : string) : bool :=
  (String.length s =? 24)%nat && forallb isHexDigit (list_ascii_of_string s).

(** [isBoolean()]. *)
Definition isBoolean (s : string) : bool := isIn ["true"; "false"; "1"; "0"] s.

Definition validate_history (q : HistoryQuery) : list string :=
  (GameSession.check (Paging.optional_int 1 None (h_page q)) "Invalid value"
   ++ GameSession.check (Paging.optional_int 1 (Some 50) (h_limit q))
        "Invalid value"
   ++ GameSession.check (match h_gameId q with
                         | Some g => isMongoId g
                         | None => true
                         end) "Invalid value"
   ++ GameSession.check (match h_completed q with
                         | Some c => isBoolean c
                         | None => true
                         end) "Invalid value")%list.

Definition toLowerCase (c : ascii) : ascii :=
  let n := nat_of_ascii c in
  if ((65 <=? n) && (n <=? 90))%nat then ascii_of_nat (n + 32) else c.

(** The cast of a query value to an ObjectId: the 24 digits, in lower case
    as [toString()] gives them. *)
Definition castObjectId (s : string) : ObjectId :=
  string_of_list_ascii (map toLowerCase (list_ascii_of_string s)).

Definition history_filter (uid : ObjectId) (q : HistoryQuery)
    (s : GameSession.t) : bool :=
  String.eqb (GameSession.user s) uid
  && match h_gameId q with
     | Some g => String.eqb (GameSession.game s) (castObjectId g)
     | None => true
     end
  && match h_completed q with
     | Some c => Bool.eqb (GameSession.completed s) (String.eqb c "true")
     | None => true
     end.

(** [{ createdAt: -1 }]. *)
Definition newest_first (a b : GameSession.t) : bool :=
  GameSession.createdAt b <=? GameSession.createdAt a.

(** The answer of the history route: the page of sessions, the game each
    refers to ([populate('game', ...)], [null] when there is none), and the
    paging record. *)
Record History := mkHistory {
  sessions : list GameSession.t;
  sessionGames : list (option Game.t);
  pagination : Paging.Pagination
}.

Definition sessionHistory (uid : ObjectId) (q : HistoryQuery)
    (games : list Game.t) (store : list GameSession.t) : Response History :=
  match validate_history q with
  | [] =>
      let page := default 1 (h_page q) in
      let limit := default 20 (h_limit q) in
      let matched := List.filter (history_filter uid q) store in
      let sessions :=
        Paging.page_of page limit (sort_by newest_first matched) in
      Success 200 None
        (mkHistory sessions
           (map (fun s => Game.findById (GameSession.game s) games) sessions)
           (Paging.pagination page limit matched))
  | errors => Failure 400 "Validation failed" errors
  end.

(** The same query for another page. *)
Definition with_page (page : Z) (q : HistoryQuery) : HistoryQuery :=
  mkHistoryQuery (Some page) (h_limit q) (h_gameId q) (h_completed q).

(** The sessions a response lists. *)
Definition listed (r : Response History) : list GameSession.t :=
  match r with
  | Success _ _ data => sessions data
  | Failure _ _ _ => []
  end.

(** *** GET /api/games/stats/user *)

(** [gameSessionSchema.statics.getUserGameHistory]. *)
Definition getUserGameHistory (uid : ObjectId) (limit : Z)
    (store : list GameSession.t) : list GameSession.t :=
  firstn (Z.to_nat limit)
    (sort_by newest_first
       (List.filter (fun s => String.eqb (GameSession.user s) uid) store)).

Record ImprovementStats := mkImprovementStats {
  i_totalSessions : Z;
  i_avgMoodImprovement : option Q;
  i_positiveImprovements : Z;
  i_maxImprovement : option Z;
  i_minImprovement : option Z
}.

(** [$subtract: ['$moodAfter.intensity', '$moodBefore.intensity']], [null]
    when [moodAfter.intensity] is. *)
Definition improvement (s : GameSession.t) : option Z :=
  match GameSession.a_intensity (GameSession.moodAfter s) with
  | Some after =>
      Some (after - GameSession.intensity (GameSession.moodBefore s))
  | None => None
  end.

Definition somes {A} (l : list (option A)) : list A :=
  flat_map (fun o => match o with Some x => [x] | None => [] end) l.

(** [$avg], [$max], [$min]: over the numbers of the group, [null] when it
    holds none. *)
Definition avg_opt (l : list Z) : option Q :=
  match l with
  | [] => None
  | _ => Some (MoodRoutes.avgZ l)
  end.
Definition max_opt (l : list Z) : option Z :=
  match l with
  | [] => None
  | x :: l' => Some (MoodRoutes.maxZ x l')
  end.
Definition min_opt (l : list Z) : option Z :=
  match l with
  | [] => None
  | x :: l' => Some (MoodRoutes.minZ x l')
  end.

(** The pipeline of [getMoodImprovementStats]: the result of the
    aggregation, one group or none.  Every stored session has the path
    [moodAfter.intensity] (it defaults to [null]), so [$exists: true] holds
    of all. *)
Definition improvementPipeline (now : Date) (uid : ObjectId) (days : Z)
    (store : list GameSession.t) : list ImprovementStats :=
  let startDate := now - days * MoodLog.msPerDay in
  let matched :=
    List.filter
      (fun s => String.eqb (GameSession.user s) uid && GameSession.completed s
                && (startDate <=? GameSession.createdAt s))
      store in
  match matched with
  | [] => []
  | _ =>
      let improvements := somes (map improvement matched) in
      [mkImprovementStats
         (Z.of_nat (length matched))
         (avg_opt improvements)
         (Z.of_nat (length (List.filter (fun m => 0 <? m) improvements)))
         (max_opt improvements)
         (min_opt improvements)]
  end.

(** [gameSessionSchema.statics.getMoodImprovementStats].  The [$match] stage
    is built with [mongoose.Types.ObjectId(userId)], called without [new]:
    where the release throws on that, so does the static ([None]). *)
Definition getMoodImprovementStats {mongoose : Mongoose} (now : Date) (uid : ObjectId)
    (days : Z) (store : list GameSession.t) : option (list ImprovementStats) :=
  if objectIdCallable then Some (improvementPipeline now uid days store)
  else None.

Record StatsOverview := mkStatsOverview {
  totalSessions : Z;
  completedSessions : Z;
  completionRate : Q;
  averageScore : Z;
  totalGameTime : Z          (* in minutes *)
}.

(** [Math.round]. *)
Definition round (q : Q) : Z := Qfloor (q + (1 # 2)).

(** [achievements[achievement] = (achievements[achievement] || 0) + 1]. *)
Definition count_achievement (a : string) (counts : gmap string Z)
    : gmap string Z :=
  <[a := default 0 (counts !! a) + 1]> counts.

Definition achievementCounts (history : list GameSession.t) : gmap string Z :=
  foldl (fun counts s =>
           foldl (fun counts a => count_achievement a counts) counts
                 (GameSession.achievements s))
        ∅ history.

Record UserStats := mkUserStats {
  u_overview : StatsOverview;
  u_moodImprovement : ImprovementStats;
  u_achievements : gmap string Z;
  u_recentSessions : list GameSession.t;
  u_recentGames : list (option Game.t);     (* the populated [game] of each *)
  u_days : Z;
  u_startDate : Date;
  u_endDate : Date
}.

Definition userStats {mongoose : Mongoose} (now : Date) (uid : ObjectId)
    (days : option Z) (games : list Game.t) (store : list GameSession.t)
    : Response UserStats :=
  match GameSession.check (Paging.optional_int 1 (Some 365) days) "Invalid value"
  with
  | [] =>
      let days := default 30 days in
      match getMoodImprovementStats now uid days store with
      | None => Failure 500 "Server error fetching user game statistics" []
      | Some moodImprovementStats =>
          let gameHistory := getUserGameHistory uid 100 store in
          let totalSessions := Z.of_nat (length gameHistory) in
          let completedSessions :=
            Z.of_nat (length (List.filter GameSession.completed gameHistory)) in
          let averageScore :=
            if totalSessions =? 0 then 0%Q
            else (inject_Z (MoodLog.sumZ (map GameSession.score gameHistory))
                  / inject_Z totalSessions)%Q in
          let totalGameTime :=
            MoodLog.sumZ (map GameSession.duration gameHistory) in
          Success 200 None
            (mkUserStats
               (mkStatsOverview totalSessions completedSessions
                  (if 0 <? totalSessions
                   then (inject_Z completedSessions / inject_Z totalSessions
                         * 100)%Q
                   else 0%Q)
                  (round averageScore)
                  (round (inject_Z totalGameTime / 60)))
               (default (mkImprovementStats 0 (Some 0%Q) 0 (Some 0) (Some 0))
                  (head moodImprovementStats))
               (achievementCounts gameHistory)
               (firstn 10 gameHistory)
               (map (fun s => Game.findById (GameSession.game s) games)
                  (firstn 10 gameHistory))
               days (now - days * MoodLog.msPerDay) now)
      end
  | errors => Failure 400 "Validation failed" errors
  end.

End GameRoutes.

(** ** More sample data *)

Module MoreExamples.

(** Documents are compared on [createdAt], whatever the path. *)
Definition by_createdAt : MoodRoutes.PathOrder :=
  fun _ a b => MoodLog.createdAt a <=? MoodLog.createdAt b.

(** [?limit=1]. *)
Definition onePerPage : MoodRoutes.ListQuery :=
  MoodRoutes.mkListQuery None (Some 1) None None None None None None.

(** [?completed=1&limit=2]. *)
Definition completedOne : GameRoutes.HistoryQuery :=
  GameRoutes.mkHistoryQuery None (Some 2) None (Some "1").

Definition publicPlaylist : Playlist.t :=
  Playlist.mk "p2" "Shared" None "u2" ["s1"] false None true 0 ["u3"] [] None.

Definition rateBody : GameSession.RateBody :=
  GameSession.mkRateBody (Some (Num 4)) (Some " calming ").

(** [{ rating: "5" }], the rating as a form sends it. *)
Definition textRateBody : GameSession.RateBody :=
  GameSession.mkRateBody (Some (Text "5")) None.

(** A game rated once, with a 5. *)
Definition ratedGames : list Game.t :=
  [Game.mk "g1" "Breathe" "breathing" [(1, "Inhale")] "easy" 5 true 3 5 1 0].

(** A date is named by the number of its day. *)
Definition dayNumber : Analytics.DateToString :=
  fun _ t => pretty (t / MoodLog.msPerDay).

(** [?days=30&groupBy=week]. *)
Definition weekly : Analytics.TrendsQuery :=
  Analytics.mkTrendsQuery (Some 30) (Some "week").

Definition retitle : Song.UpdateBody :=
  Song.mkUpdateBody (Some " New title ") None None None None None None None
    None (Some false).

End MoreExamples.

(** ** Further notions used to state the properties *)

(** The paths of a song that its update route does not write. *)
Definition song_kept (s s' : Song.t) : Prop :=
  Song._id s' = Song._id s /\ Song.uploadedBy s' = Song.uploadedBy s /\
  Song.filePath s' = Song.filePath s /\ Song.duration s' = Song.duration s /\
  Song.coverImage s' = Song.coverImage s /\
  Song.playCount s' = Song.playCount s /\ Song.likes s' = Song.likes s /\
  Song.createdAt s' = Song.createdAt s.

(** [a] is ranked no lower than [b]: more plays, or as many and more likes,
    or as many of both and not older. *)
Definition ranked_before (a b : Song.t) : Prop :=
  Song.playCount b < Song.playCount a \/
  (Song.playCount b = Song.playCount a /\
   (Song.likes b < Song.likes a \/
    (Song.likes b = Song.likes a /\ Song.createdAt b <= Song.createdAt a))).

(** The ranking of the auto-generate route: plays, then likes. *)
Definition popular_before (a b : Song.t) : Prop :=
  Song.playCount b < Song.playCount a \/
  (Song.playCount b = Song.playCount a /\ Song.likes b <= Song.likes a).

(** The paths of a playlist other than [followers]. *)
Definition playlist_kept (p p' : Playlist.t) : Prop :=
  Playlist._id p' = Playlist._id p /\ Playlist.name p' = Playlist.name p /\
  Playlist.description p' = Playlist.description p /\
  Playlist.owner p' = Playlist.owner p /\ Playlist.songs p' = Playlist.songs p /\
  Playlist.isAutoGenerated p' = Playlist.isAutoGenerated p /\
  Playlist.generatedFor p' = Playlist.generatedFor p /\
  Playlist.isPublic p' = Playlist.isPublic p /\
  Playlist.playCount p' = Playlist.playCount p /\
  Playlist.tags p' = Playlist.tags p /\
  Playlist.coverImage p' = Playlist.coverImage p.

(** The names [calculateAchievements] can award, in its order. *)
Definition awardable : list string :=
  ["first-play"; "perfect-score"; "quick-finish"; "mood-improver";
   "high-scorer"].

(** The [totalRating] of [updateRating]: the sum for a number, the reading
    of the appended text for a string. *)
Definition totalRating {numbers : NumberText} (given : Scalar) (g : Game.t)
    : option Q :=
  match given with
  | Num r => Some (Game.averageRating g * inject_Z (Game.ratingCount g) + r)%Q
  | Text t =>
      numberText (Game.averageRating g * inject_Z (Game.ratingCount g))%Q t
  end.

(** The intensities of a session are in 1..10, the one after the game once
    the session is completed. *)
Definition intensities_ok (s : GameSession.t) : Prop :=
  1 <= GameSession.intensity (GameSession.moodBefore s) <= 10 /\
  (GameSession.completed s = true ->
   exists after,
     GameSession.a_intensity (GameSession.moodAfter s) = Some after /\
     1 <= after <= 10).

(** No two stored sessions share an [_id] or a [sessionId]. *)
Definition sessions_distinct (store : list GameSession.t) : Prop :=
  List.NoDup (map GameSession._id store) /\
  List.NoDup (map GameSession.sessionId store).

(** * Properties *)

(** ** The time-of-day bands *)

Lemma getHours_range tz t : 0 <= MoodLog.getHours tz t < 24.
Proof. unfold MoodLog.getHours. apply Z.mod_pos_bound. lia. Qed.

Lemma band_spec h :
  (MoodLog.band h = "morning" <-> 5 <= h < 12) /\
  (MoodLog.band h = "afternoon" <-> 12 <= h < 17) /\
  (MoodLog.band h = "evening" <-> 17 <= h < 21) /\
  (MoodLog.band h = "night" <-> ~ (5 <= h < 21)).
Proof.
  unfold MoodLog.band.
  destruct (5 <=? h) eqn:E5; destruct (h <? 12) eqn:E12;
  destruct (12 <=? h) eqn:E12'; destruct (h <? 17) eqn:E17;
  destruct (17 <=? h) eqn:E17'; destruct (h <? 21) eqn:E21; simpl;
  try apply Z.leb_le in E5; try apply Z.leb_gt in E5;
  try apply Z.ltb_lt in E12; try apply Z.ltb_ge in E12;
  try apply Z.leb_le in E12'; try apply Z.leb_gt in E12';
  try apply Z.ltb_lt in E17; try apply Z.ltb_ge in E17;
  try apply Z.leb_le in E17'; try apply Z.leb_gt in E17';
  try apply Z.ltb_lt in E21; try apply Z.ltb_ge in E21;
  repeat split; intros; try lia; try discriminate; try reflexivity.
Qed.

(** ** Sorting *)

Section Sorting.
Context {A : Type} (before : A -> A -> bool).

Lemma insert_sorted_perm x l : insert_sorted before x l ≡ₚ x :: l.
Proof.
  induction l as [|y l IH]; simpl; [done|].
  destruct (before x y); [done|].
  rewrite IH. apply Permutation_swap.
Qed.

Lemma sort_by_perm l : sort_by before l ≡ₚ l.
Proof.
  induction l as [|x l IH]; simpl; [done|].
  change (insert_sorted before x (sort_by before l) ≡ₚ x :: l).
  by rewrite insert_sorted_perm, IH.
Qed.

Lemma sort_by_In x l : In x (sort_by before l) <-> In x l.
Proof.
  rewrite <- !list_elem_of_In. by rewrite sort_by_perm.
Qed.

Lemma sort_by_nil l : sort_by before l = [] -> l = [].
Proof.
  intros H. apply Permutation_nil_r. rewrite <- H. by rewrite sort_by_perm.
Qed.
(** For a total and transitive order the result is sorted. *)
Lemma sort_by_sorted l :
  (forall a b, before a b = false -> before b a = true) ->
  (forall a b c, before a b = true -> before b c = true -> before a c = true) ->
  StronglySorted (fun a b => before a b = true) (sort_by before l).
Proof.
  intros Htotal Htrans.
  assert (forall x l0, StronglySorted (fun a b => before a b = true) l0 ->
            StronglySorted (fun a b => before a b = true)
              (insert_sorted before x l0)) as Hins.
  { intros x l0. induction l0 as [|y l0 IH]; simpl; intros Hs.
    - constructor; constructor.
    - inversion Hs as [|? ? Hs' Hall]. subst.
      destruct (before x y) eqn:E.
      + constructor; [done|]. constructor; [done|].
        eapply List.Forall_impl; [|exact Hall]. intros z Hz. by eapply Htrans.
      + constructor; [by apply IH|].
        apply List.Forall_forall. intros z Hz.
        apply list_elem_of_In in Hz. rewrite insert_sorted_perm in Hz.
        apply list_elem_of_In in Hz. destruct Hz as [<-|Hz]; [by apply Htotal|].
        rewrite List.Forall_forall in Hall. by apply Hall. }
  induction l as [|x l IH]; [constructor|]. by apply Hins.
Qed.

End Sorting.

(** ** Collections *)

Section CollectionFacts.
Context {A : Type} (key : A -> ObjectId).

Lemma has_id_spec id (d : A) : has_id key id d = true <-> key d = id.
Proof. unfold has_id. apply String.eqb_eq. Qed.

Lemma find_by_id_Some id store (d : A) :
  find_by_id key id store = Some d -> In d store /\ key d = id.
Proof.
  intros H. apply find_some in H as [Hin Hid]. split; [done|].
  by apply has_id_spec.
Qed.

(** A write replaces the first document of the [_id], which is the one
    [findById] answers with, and no other. *)
Lemma replace_doc_first (d m : A) store store' :
  find_by_id key (key d) store = Some m ->
  replace_doc key d store = Some store' ->
  Forall2 (fun x x' => x' = x \/ (x = m /\ x' = d)) store store'.
Proof.
  unfold find_by_id.
  revert store'. induction store as [|x rest IH]; intros store'; simpl;
    [discriminate|].
  destruct (has_id key (key d) x) eqn:E.
  - intros [= <-] [= <-]. constructor; [by right|].
    apply Forall2_same_length_lookup_2; [done|].
    intros i a c Ha Hc. left. congruence.
  - intros Hf Hr.
    destruct (replace_doc key d rest) as [rest'|]; [|discriminate].
    injection Hr as <-. constructor; [by left|]. by apply IH.
Qed.

Lemma replace_doc_In (d : A) store store' :
  replace_doc key d store = Some store' -> In d store'.
Proof.
  revert store'. induction store as [|x rest IH]; intros store'; simpl;
    [discriminate|].
  destruct (has_id key (key d) x).
  - intros [= <-]. by left.
  - destruct (replace_doc key d rest) as [rest'|]; [|discriminate].
    intros [= <-]. right. by apply IH.
Qed.

(** A stored document can always be written back. *)
Lemma replace_doc_found (d m : A) store :
  find_by_id key (key d) store = Some m ->
  exists store', replace_doc key d store = Some store'.
Proof.
  unfold find_by_id. induction store as [|x rest IH]; simpl; [discriminate|].
  destruct (has_id key (key d) x); [eauto|].
  intros Hf. destruct (IH Hf) as [rest' ->]. simpl. eauto.
Qed.

(** After the write, [findById] answers with the written document. *)
Lemma find_by_id_replace_doc (d : A) store store' :
  replace_doc key d store = Some store' ->
  find_by_id key (key d) store' = Some d.
Proof.
  unfold find_by_id.
  revert store'. induction store as [|x rest IH]; intros store'; simpl;
    [discriminate|].
  destruct (has_id key (key d) x) eqn:E.
  - intros [= <-]. simpl. unfold has_id at 1. by rewrite String.eqb_refl.
  - destruct (replace_doc key d rest) as [rest'|]; [|discriminate].
    intros [= <-]. simpl. rewrite E. by apply IH.
Qed.

(** With pairwise distinct [_id]s, [findById] finds every stored document. *)
Lemma find_by_id_NoDup (d : A) store :
  List.NoDup (map key store) -> In d store ->
  find_by_id key (key d) store = Some d.
Proof.
  unfold find_by_id. induction store as [|x rest IH]; simpl; [done|].
  intros Hnd [->|Hin].
  - unfold has_id. by rewrite String.eqb_refl.
  - inversion Hnd as [|? ? Hnin Hnd']. subst.
    destruct (has_id key (key d) x) eqn:E; [|by apply IH].
    apply has_id_spec in E. destruct Hnin. rewrite E. by apply in_map.
Qed.

(** With pairwise distinct [_id]s, a query that found a document finds what
    was written in its place. *)
Lemma find_replace_doc (P : A -> bool) (d m : A) store store' :
  List.NoDup (map key store) ->
  List.find P store = Some m ->
  key d = key m ->
  replace_doc key d store = Some store' ->
  P d = true ->
  List.find P store' = Some d.
Proof.
  revert store'. induction store as [|x rest IH]; intros store' Hnd; simpl;
    [discriminate|].
  inversion Hnd as [|? ? Hnin Hnd']. subst.
  destruct (P x) eqn:Px.
  - intros [= <-] Hk. rewrite (proj2 (has_id_spec (key d) x)) by done.
    intros [= <-] Pd. simpl. by rewrite Pd.
  - intros Hf Hk. destruct (has_id key (key d) x) eqn:E.
    + apply has_id_spec in E. destruct Hnin. rewrite E, Hk.
      apply in_map. by apply find_some in Hf as [? _].
    + destruct (replace_doc key d rest) as [rest'|] eqn:Hr; [|discriminate].
      intros [= <-] Pd. simpl. rewrite Px. by apply (IH rest').
Qed.

End CollectionFacts.

(** The head of a list sorted in descending order of a key is a maximum. *)
Lemma head_sort_by_max {A} (key : A -> Z) (l : list A) p :
  head (sort_by (fun a b => key b <=? key a) l) = Some p ->
  In p l /\ forall d, In d l -> key d <= key p.
Proof.
  revert p. induction l as [|x l IH]; intros p; [discriminate|].
  change (sort_by _ (x :: l))
    with (insert_sorted (fun a b => key b <=? key a) x
            (sort_by (fun a b => key b <=? key a) l)).
  destruct (sort_by (fun a b => key b <=? key a) l) as [|y r] eqn:E.
  - apply sort_by_nil in E. subst l. simpl. intros [= <-].
    split; [by left|]. intros d [<-|[]]. lia.
  - destruct (IH y eq_refl) as [Hy Hmax]. simpl.
    destruct (key y <=? key x) eqn:Hle; simpl; intros [= <-].
    + apply Z.leb_le in Hle. split; [by left|].
      intros d [<-|Hd]; [lia|]. specialize (Hmax d Hd). lia.
    + apply Z.leb_gt in Hle. split; [by right|].
      intros d [<-|Hd]; [lia|]. by apply Hmax.
Qed.

(** ** Logging a mood *)

Lemma owned_by_spec uid d : MoodLog.owned_by uid d = true <-> MoodLog.user d = uid.
Proof. unfold MoodLog.owned_by. apply String.eqb_eq. Qed.

Lemma pre_save_frame tz d :
  let d' := MoodLog.pre_save tz d in
  MoodLog._id d' = MoodLog._id d /\ MoodLog.user d' = MoodLog.user d /\
  MoodLog.mood d' = MoodLog.mood d /\
  MoodLog.intensity d' = MoodLog.intensity d /\
  MoodLog.detectionMethod d' = MoodLog.detectionMethod d /\
  MoodLog.confidence d' = MoodLog.confidence d /\
  MoodLog.notes d' = MoodLog.notes d /\
  MoodLog.triggers d' = MoodLog.triggers d /\
  MoodLog.previousMood d' = MoodLog.previousMood d /\
  MoodLog.sessionId d' = MoodLog.sessionId d /\
  MoodLog.createdAt d' = MoodLog.createdAt d.
Proof.
  unfold MoodLog.pre_save.
  destruct (negb (truthy_str (MoodLog.timeOfDay (MoodLog.context d))));
    simpl; repeat split.
Qed.

(** The hook fills [timeOfDay] when it is falsy and leaves it otherwise. *)
Lemma pre_save_timeOfDay tz d :
  MoodLog.timeOfDay (MoodLog.context (MoodLog.pre_save tz d)) =
  if truthy_str (MoodLog.timeOfDay (MoodLog.context d))
  then MoodLog.timeOfDay (MoodLog.context d)
  else Some (MoodLog.band (MoodLog.getHours tz (MoodLog.createdAt d))).
Proof.
  unfold MoodLog.pre_save.
  by destruct (truthy_str (MoodLog.timeOfDay (MoodLog.context d))).
Qed.

(** The validators pass no document without a [timeOfDay] of the schema. *)
Lemma schema_valid_timeOfDay d :
  MoodLog.schema_valid d = true ->
  truthy_str (MoodLog.timeOfDay (MoodLog.context d)) = true /\
  MoodLog.enum_ok MoodLog.timesOfDay (MoodLog.timeOfDay (MoodLog.context d))
  = true.
Proof.
  unfold MoodLog.schema_valid. intros Hv.
  apply andb_true_iff in Hv as [Hv _]. apply andb_true_iff in Hv as [Hv He].
  by apply andb_true_iff in Hv as [_ Ht].
Qed.

(** The hook changes no document that the validators pass. *)
Lemma pre_save_valid tz d :
  MoodLog.schema_valid d = true -> MoodLog.pre_save tz d = d.
Proof.
  intros Hv. apply schema_valid_timeOfDay in Hv as [Ht _].
  unfold MoodLog.pre_save. by rewrite Ht.
Qed.

(** What a 201 of the handler means. *)
Lemma logMood_created now tz newId uid b store msg moodLog store' :
  MoodLog.logMood now tz newId uid b store = (Success 201 msg moodLog, store') ->
  MoodLog.validate_log b = [] /\
  moodLog = MoodLog.pre_save tz (MoodLog.new_mood_log now newId uid b store) /\
  MoodLog.schema_valid moodLog = true /\
  store' = (store ++ [moodLog])%list.
Proof.
  unfold MoodLog.logMood, MoodLog.save, insert_doc.
  destruct (MoodLog.validate_log b); [|discriminate].
  destruct (MoodLog.schema_valid _) eqn:Hv; [|discriminate].
  destruct (existsb _ store); simpl; [discriminate|].
  intros [= _ <- <-]. by rewrite (pre_save_valid _ _ Hv).
Qed.

Lemma logMood_valid now tz newId uid b store msg moodLog store' :
  MoodLog.logMood now tz newId uid b store = (Success 201 msg moodLog, store') ->
  MoodLog.schema_valid (MoodLog.new_mood_log now newId uid b store) = true.
Proof.
  unfold MoodLog.logMood, MoodLog.save.
  destruct (MoodLog.validate_log b); [|discriminate].
  by destruct (MoodLog.schema_valid _).
Qed.

(** Every request that passes the validators of the route and of the schema,
    with a fresh [_id], is answered by a 201 and appended to the store. *)
Lemma logMood_accepts now tz newId uid b store :
  MoodLog.validate_log b = [] ->
  MoodLog.schema_valid (MoodLog.new_mood_log now newId uid b store) = true ->
  existsb (has_id MoodLog._id newId) store = false ->
  let moodLog := MoodLog.pre_save tz (MoodLog.new_mood_log now newId uid b store) in
  MoodLog.logMood now tz newId uid b store =
  (Success 201 (Some "Mood logged successfully") moodLog,
   (store ++ [moodLog])%list).
Proof.
  intros Hb Hv Hfresh. unfold MoodLog.logMood, MoodLog.save, insert_doc.
  rewrite Hb, Hv.
  destruct (pre_save_frame tz (MoodLog.new_mood_log now newId uid b store))
    as [Hid _].
  rewrite Hid. simpl MoodLog._id. by rewrite Hfresh.
Qed.

(** C1: the document created by POST /api/moods carries as [previousMood] the
    (mood, intensity, createdAt) of the head of the user's logs sorted by
    [createdAt] descending: a log of that user that no other log of the user
    is later than; it is absent exactly when the user has no log yet. *)
Theorem logMood_previousMood now tz newId uid b store msg moodLog store' :
  MoodLog.logMood now tz newId uid b store = (Success 201 msg moodLog, store') ->
  store' = (store ++ [moodLog])%list /\
  MoodLog.previousMood moodLog =
    MoodLog.snapshot <$>
      head (sort_by MoodLog.newer_first
              (List.filter (MoodLog.owned_by uid) store)) /\
  ((forall d, In d store -> MoodLog.user d <> uid) <->
   MoodLog.previousMood moodLog = None) /\
  (forall pm, MoodLog.previousMood moodLog = Some pm ->
     exists p, In p store /\ MoodLog.user p = uid /\
       pm = MoodLog.mkPreviousMood (MoodLog.mood p) (MoodLog.intensity p)
              (MoodLog.createdAt p) /\
       forall d, In d store -> MoodLog.user d = uid ->
                 MoodLog.createdAt d <= MoodLog.createdAt p).
Proof.
  intros H. apply logMood_created in H as (_ & -> & _ & ->).
  destruct (pre_save_frame tz (MoodLog.new_mood_log now newId uid b store))
    as (_ & _ & _ & _ & _ & _ & _ & _ & -> & _).
  simpl MoodLog.previousMood. unfold MoodLog.findLatest.
  split; [done|]. split; [done|].
  destruct (head _) as [p|] eqn:Hh; simpl.
  - apply (head_sort_by_max MoodLog.createdAt) in Hh as [Hin Hmax].
    apply filter_In in Hin as [Hin Hu]. apply owned_by_spec in Hu.
    split.
    + split; [|discriminate]. intros Hnone. by destruct (Hnone p Hin).
    + intros pm [= <-]. exists p. repeat split; try done.
      intros d Hd Hdu. apply Hmax. apply filter_In. split; [done|].
      by apply owned_by_spec.
  - split; [|discriminate].
    split; [done|]. intros _ d Hd Hu.
    destruct (sort_by MoodLog.newer_first _) eqn:E; [|discriminate].
    apply sort_by_nil in E.
    assert (In d (List.filter (MoodLog.owned_by uid) store)) as Hin.
    { apply filter_In. split; [done|]. by apply owned_by_spec. }
    rewrite E in Hin. destruct Hin.
Qed.

Lemma logMood_previousMood_witness :
  MoodLog.logMood Examples.twoPM 0 "m3" "u1" Examples.afternoonBody
    Examples.moodLogs =
    (Success 201 (Some "Mood logged successfully") Examples.created,
     (Examples.moodLogs ++ [Examples.created])%list) /\
  MoodLog.previousMood Examples.created =
    Some (MoodLog.mkPreviousMood "calm" 4 2000).
Proof.
  assert (MoodLog.logMood Examples.twoPM 0 "m3" "u1" Examples.afternoonBody
            Examples.moodLogs =
          (Success 201 (Some "Mood logged successfully") Examples.created,
           (Examples.moodLogs ++ [Examples.created])%list)) as H
    by (vm_compute; reflexivity).
  split; [exact H|].
  destruct (logMood_previousMood _ _ _ _ _ _ _ _ _ H) as (_ & Hp & _).
  rewrite Hp. vm_compute. reflexivity.
Defined.

(** C2, where the code departs from it: on a document without a (truthy)
    [context.timeOfDay] the hook computes the band of the creation hour [h]
    (morning iff 5 <= h < 12, afternoon iff 12 <= h < 17, evening iff
    17 <= h < 21, night otherwise), but [save] validates before it runs the
    hook and [context.timeOfDay] is required: the request is answered 500
    and nothing is stored, so no stored log ever carries a derived
    [timeOfDay].  A log that is stored carries the supplied one. *)
Theorem logMood_requires_timeOfDay now tz newId uid b store :
  let supplied :=
    MoodLog.b_timeOfDay
      (default (MoodLog.mkContextBody None None None None)
         (MoodLog.b_context b)) in
  let built := MoodLog.new_mood_log now newId uid b store in
  let h := MoodLog.getHours tz now in
  (truthy_str supplied = false ->
     MoodLog.timeOfDay (MoodLog.context (MoodLog.pre_save tz built))
       = Some (MoodLog.band h) /\
     (MoodLog.band h = "morning" <-> 5 <= h < 12) /\
     (MoodLog.band h = "afternoon" <-> 12 <= h < 17) /\
     (MoodLog.band h = "evening" <-> 17 <= h < 21) /\
     (MoodLog.band h = "night" <-> h < 5 \/ 21 <= h)) /\
  (truthy_str supplied = false ->
     snd (MoodLog.logMood now tz newId uid b store) = store /\
     (MoodLog.validate_log b = [] ->
      MoodLog.logMood now tz newId uid b store
        = (Failure 500 "Server error logging mood" [], store))) /\
  (forall msg moodLog store',
     MoodLog.logMood now tz newId uid b store
       = (Success 201 msg moodLog, store') ->
     truthy_str supplied = true /\
     MoodLog.timeOfDay (MoodLog.context moodLog) = supplied /\
     In moodLog store' /\ MoodLog.createdAt moodLog = now).
Proof.
  intros supplied built h.
  assert (MoodLog.timeOfDay (MoodLog.context built) = supplied) as Hbuilt
    by reflexivity.
  assert (truthy_str supplied = false -> MoodLog.schema_valid built = false)
    as Hinvalid.
  { intros Hs. destruct (MoodLog.schema_valid built) eqn:Hv; [|done].
    apply schema_valid_timeOfDay in Hv as [Ht _]. congruence. }
  split; [|split].
  - intros Hs. split.
    + rewrite pre_save_timeOfDay, Hbuilt, Hs. reflexivity.
    + destruct (getHours_range tz now) as [Hlo Hhi].
      destruct (band_spec h) as (Hm & Ha & He & Hn). fold h in Hlo, Hhi.
      rewrite Hm, Ha, He, Hn. repeat split; lia.
  - intros Hs. unfold MoodLog.logMood, MoodLog.save. fold built.
    rewrite (Hinvalid Hs). split; [by destruct (MoodLog.validate_log b)|].
    by intros ->.
  - intros msg moodLog store' H.
    pose proof (logMood_valid _ _ _ _ _ _ _ _ _ H) as Hv. fold built in Hv.
    apply logMood_created in H as (_ & Hdoc & _ & ->). fold built in Hdoc.
    rewrite (pre_save_valid _ _ Hv) in Hdoc. subst moodLog.
    destruct (truthy_str supplied) eqn:Hs;
      [|by rewrite (Hinvalid eq_refl) in Hv].
    split; [done|]. split; [done|].
    split; [apply in_or_app; right; by left|done].
Qed.

Lemma logMood_requires_timeOfDay_witness :
  MoodLog.logMood Examples.twoPM 0 "m3" "u1" Examples.logBody Examples.moodLogs
    = (Failure 500 "Server error logging mood" [], Examples.moodLogs) /\
  MoodLog.timeOfDay
    (MoodLog.context
       (MoodLog.pre_save 0
          (MoodLog.new_mood_log Examples.twoPM "m3" "u1" Examples.logBody
             Examples.moodLogs)))
    = Some "afternoon".
Proof.
  destruct (logMood_requires_timeOfDay Examples.twoPM 0 "m3" "u1"
              Examples.logBody Examples.moodLogs) as (Hhook & Hsave & _).
  split.
  - apply Hsave; reflexivity.
  - rewrite (proj1 (Hhook eq_refl)). reflexivity.
Defined.

(** ** Updating a mood log *)

Lemma write_once_equal_refl d : write_once_equal d d.
Proof. repeat split. Qed.

Lemma apply_updates_frame b d : write_once_equal d (MoodLog.apply_updates b d).
Proof. repeat split. Qed.

(** C9: whatever the body of PUT /api/moods/:id carries, the store after the
    call holds the same documents in the same places, each with its [_id],
    [user], [mood], [intensity], [detectionMethod], [confidence],
    [previousMood], [sessionId] and [createdAt] as before, and every document
    other than the addressed one wholly as before; an accepted update returns
    the addressed document of the caller. *)
Theorem updateMood_frame tz uid id b store :
  let r := MoodLog.updateMood tz uid id b store in
  Forall2 (fun d d' => write_once_equal d d' /\ (MoodLog._id d <> id -> d' = d))
          store (snd r) /\
  (forall st msg d', fst r = Success st msg d' ->
     In d' (snd r) /\ MoodLog._id d' = id /\ MoodLog.user d' = uid).
Proof.
  assert (Forall2 (fun d d' => write_once_equal d d' /\
                               (MoodLog._id d <> id -> d' = d)) store store)
    as Hrefl.
  { apply Forall2_same_length_lookup_2; [done|]. intros i a c Ha Hc.
    assert (a = c) as -> by congruence. split; [apply write_once_equal_refl|done]. }
  unfold MoodLog.updateMood.
  destruct (MoodLog.validate_update b); simpl; [|split; [done|discriminate]].
  unfold MoodLog.findById.
  destruct (find_by_id MoodLog._id id store) as [m|] eqn:Hf; simpl;
    [|split; [done|discriminate]].
  destruct (String.eqb (MoodLog.user m) uid) eqn:Hu; simpl;
    [|split; [done|discriminate]].
  apply String.eqb_eq in Hu.
  pose proof (find_by_id_Some _ _ _ _ Hf) as [Hin Hid].
  unfold MoodLog.save.
  set (d := MoodLog.pre_save tz (MoodLog.apply_updates b m)).
  assert (write_once_equal m d) as Hw.
  { destruct (pre_save_frame tz (MoodLog.apply_updates b m))
      as (? & ? & ? & ? & ? & ? & ? & ? & ? & ? & ?).
    unfold d. repeat split; simpl in *; congruence. }
  assert (MoodLog._id d = id) as Hdid by (destruct Hw as [-> _]; done).
  destruct (MoodLog.schema_valid (MoodLog.apply_updates b m)); simpl;
    [|split; [done|discriminate]].
  fold d.
  destruct (replace_doc MoodLog._id d store) as [store'|] eqn:Hr; simpl;
    [|split; [done|discriminate]].
  rewrite <- Hdid in Hf.
  pose proof (replace_doc_first _ _ _ _ _ Hf Hr) as HF.
  split.
  - eapply Forall2_impl; [exact HF|]. intros x x' [->|[-> ->]].
    + split; [apply write_once_equal_refl|done].
    + split; [done|]. intros Hne. by destruct Hne.
  - intros st msg d' [= _ _ <-]. split; [|split; [done|]].
    + eapply replace_doc_In; eauto.
    + destruct Hw as (_ & -> & _). done.
Qed.

(** ** Mood frequency *)

Lemma sumZ_app l1 l2 : MoodLog.sumZ (l1 ++ l2) = MoodLog.sumZ l1 + MoodLog.sumZ l2.
Proof. induction l1 as [|x l1 IH]; simpl; [done|]. rewrite IH. lia. Qed.

Lemma sumZ_perm l1 l2 : l1 ≡ₚ l2 -> MoodLog.sumZ l1 = MoodLog.sumZ l2.
Proof. induction 1; simpl; lia. Qed.

Lemma sumZ_map_add {A} (f g : A -> Z) l :
  MoodLog.sumZ (map (fun x => f x + g x) l) =
  MoodLog.sumZ (map f l) + MoodLog.sumZ (map g l).
Proof. induction l as [|x l IH]; simpl; [done|]. rewrite IH. lia. Qed.

Lemma distinct_In x l : In x (MoodLog.distinct l) <-> In x l.
Proof.
  induction l as [|y l IH]; simpl; [done|].
  rewrite filter_In, IH, negb_true_iff, String.eqb_neq.
  destruct (String.eqb_spec x y); intuition.
Qed.

Lemma distinct_NoDup l : List.NoDup (MoodLog.distinct l).
Proof.
  induction l as [|y l IH]; simpl; [constructor|].
  constructor; [|by apply List.NoDup_filter].
  rewrite filter_In, negb_true_iff, String.eqb_neq. intros [_ Hne]. by apply Hne.
Qed.

(** Among pairwise distinct keys, exactly one equals a key of the list. *)
Lemma indicator_sum x ms :
  List.NoDup ms ->
  MoodLog.sumZ (map (fun m => if String.eqb x m then 1 else 0) ms) =
  if existsb (String.eqb x) ms then 1 else 0.
Proof.
  induction 1 as [|m ms Hnin Hnd IH]; simpl; [done|].
  rewrite IH. destruct (String.eqb_spec x m) as [->|Hne]; simpl; [|done].
  destruct (existsb (String.eqb m) ms) eqn:E; [|done].
  apply existsb_exists in E as (y & Hy & Heq).
  apply String.eqb_eq in Heq. subst y. by destruct Hnin.
Qed.

(** The groups of a [$group] by mood partition the matched documents. *)
Lemma group_count_sum (docs : list MoodLog.t) ms :
  List.NoDup ms ->
  (forall d, In d docs -> In (MoodLog.mood d) ms) ->
  MoodLog.sumZ
    (map (fun m => Z.of_nat (length
            (List.filter (fun d => String.eqb (MoodLog.mood d) m) docs))) ms)
  = Z.of_nat (length docs).
Proof.
  intros Hnd. induction docs as [|d ds IH]; intros Hall.
  - clear. induction ms as [|m ms IHm]; simpl in *; [done|]. by rewrite IHm.
  - rewrite (map_ext _
      (fun m => Z.of_nat (length
           (List.filter (fun d0 => String.eqb (MoodLog.mood d0) m) ds))
         + (if String.eqb (MoodLog.mood d) m then 1 else 0))).
    2:{ intros m. simpl. destruct (String.eqb (MoodLog.mood d) m); simpl; lia. }
    rewrite sumZ_map_add, indicator_sum by done.
    rewrite IH by (intros; apply Hall; by right).
    assert (existsb (String.eqb (MoodLog.mood d)) ms = true) as ->.
    { apply existsb_exists. exists (MoodLog.mood d).
      split; [apply Hall; by left|apply String.eqb_refl]. }
    simpl length. lia.
Qed.

Lemma frequencyPipeline_counts now uid days store :
  MoodLog.sumZ (map MoodLog.count (MoodLog.frequencyPipeline now uid days store)) =
  Z.of_nat (length (in_window now uid days store)).
Proof.
  unfold MoodLog.frequencyPipeline. fold (in_window now uid days store).
  set (w := in_window now uid days store).
  rewrite (sumZ_perm _ (map MoodLog.count
             (map (MoodLog.group_of w) (MoodLog.distinct (map MoodLog.mood w))))).
  2:{ apply Permutation_map. apply sort_by_perm. }
  rewrite map_map. simpl.
  apply group_count_sum; [apply distinct_NoDup|].
  intros d Hd. apply distinct_In. by apply in_map.
Qed.

Lemma frequencyPipeline_entry now uid days store f :
  In f (MoodLog.frequencyPipeline now uid days store) ->
  let members :=
    List.filter (fun d => String.eqb (MoodLog.mood d) (MoodLog.f_id f))
      (in_window now uid days store) in
  MoodLog.count f = Z.of_nat (length members) /\ 0 < MoodLog.count f /\
  (MoodLog.avgIntensity f ==
   inject_Z (MoodLog.sumZ (map MoodLog.intensity members))
   / inject_Z (MoodLog.count f))%Q.
Proof.
  unfold MoodLog.frequencyPipeline. fold (in_window now uid days store).
  set (w := in_window now uid days store).
  rewrite sort_by_In, in_map_iff. intros (m & <- & Hm). simpl.
  split; [done|]. split; [|reflexivity].
  apply distinct_In, in_map_iff in Hm as (d & <- & Hd).
  assert (In d (List.filter
                  (fun d0 => String.eqb (MoodLog.mood d0) (MoodLog.mood d)) w))
    as Hin by (apply filter_In; split; [done|apply String.eqb_refl]).
  destruct (List.filter _ w); [destruct Hin|simpl; lia].
Qed.

Lemma StronglySorted_weaken {A} (R R' : A -> A -> Prop) l :
  (forall a b, R a b -> R' a b) -> StronglySorted R l -> StronglySorted R' l.
Proof.
  intros HR. induction 1 as [|a l Hs IH Hall]; constructor; [done|].
  eapply List.Forall_impl; [|exact Hall]. intros b. apply HR.
Qed.

Lemma frequencyPipeline_sorted now uid days store :
  StronglySorted (fun a b => MoodLog.count b <= MoodLog.count a)
    (MoodLog.frequencyPipeline now uid days store).
Proof.
  unfold MoodLog.frequencyPipeline.
  eapply StronglySorted_weaken;
    [|apply (sort_by_sorted MoodLog.more_frequent_first)].
  - intros a b Hab. by apply Z.leb_le.
  - unfold MoodLog.more_frequent_first. intros a b Hab.
    apply Z.leb_gt in Hab. apply Z.leb_le. lia.
  - unfold MoodLog.more_frequent_first. intros a b c Hab Hbc.
    apply Z.leb_le in Hab, Hbc. apply Z.leb_le. lia.
Qed.

Lemma frequencyPipeline_NoDup now uid days store :
  List.NoDup (map MoodLog.f_id (MoodLog.frequencyPipeline now uid days store)).
Proof.
  unfold MoodLog.frequencyPipeline. fold (in_window now uid days store).
  set (w := in_window now uid days store).
  eapply Permutation_NoDup.
  { apply Permutation_map. symmetry. apply sort_by_perm. }
  rewrite map_map. simpl. rewrite map_id. apply distinct_NoDup.
Qed.

Lemma frequencyPipeline_complete now uid days store d :
  In d (in_window now uid days store) ->
  exists f, In f (MoodLog.frequencyPipeline now uid days store) /\
            MoodLog.f_id f = MoodLog.mood d.
Proof.
  intros Hd. unfold MoodLog.frequencyPipeline.
  fold (in_window now uid days store).
  set (w := in_window now uid days store) in *.
  exists (MoodLog.group_of w (MoodLog.mood d)). split; [|done].
  apply sort_by_In, in_map, distinct_In. by apply in_map.
Qed.

Lemma sumQ_shares total l :
  total <> 0 ->
  (sumQ (map (share total) l) ==
   inject_Z (MoodLog.sumZ (map MoodLog.count l)) / inject_Z total * 100)%Q.
Proof.
  intros Ht.
  assert (~ (inject_Z total == 0)%Q) as Hq.
  { unfold Qeq. simpl. lia. }
  induction l as [|f l IH]; simpl.
  - field. exact Hq.
  - rewrite IH. unfold share. rewrite inject_Z_plus. field. exact Hq.
Qed.

(** The frequency route answers with the groups of the window where the
    release lets the static run, and with 500 everywhere else. *)
Lemma frequencyRoute_answer {mongoose : Mongoose} now uid days store :
  match days with Some n => 1 <= n <= 365 | None => True end ->
  MoodLog.frequencyRoute now uid days store =
  if objectIdCallable
  then Success 200 None
         (MoodLog.frequencyPipeline now uid (default 30 days) store)
  else Failure 500 "Server error fetching mood frequency" [].
Proof.
  intros Hdays. unfold MoodLog.frequencyRoute, MoodLog.getMoodFrequency.
  assert (match days with
          | Some n => (1 <=? n) && (n <=? 365)
          | None => true
          end = true) as ->.
  { destruct days as [n|]; [|done]. apply andb_true_intro. split; lia. }
  simpl. by destruct objectIdCallable.
Qed.

Lemma validate_trends_ok q :
  Analytics.validate_trends q = [] ->
  7 <= default 30 (Analytics.q_days q) <= 365.
Proof.
  unfold Analytics.validate_trends. intros Hv.
  apply app_eq_nil in Hv as [Hd _].
  destruct (Analytics.q_days q) as [n|]; simpl in *; [|lia].
  destruct (7 <=? n) eqn:H7; simpl in Hd; [|discriminate].
  destruct (n <=? 365) eqn:H365; simpl in Hd; [|discriminate]. lia.
Qed.

Lemma sumQ_percentages total l :
  0 < total ->
  (sumQ (map Analytics.s_percentage (map (Analytics.share_of total) l)) ==
   inject_Z (MoodLog.sumZ (map MoodLog.count l)) / inject_Z total * 100)%Q.
Proof.
  intros Ht. rewrite <- sumQ_shares by lia. rewrite map_map.
  induction l as [|f l IH]; simpl; [reflexivity|]. rewrite IH.
  unfold share. by rewrite (proj2 (Z.ltb_lt 0 total) Ht).
Qed.

Section MoodTrends.
Context `{Analytics.DateToString}.

(** C5, as amended: the percentage shares are reported by
    GET /api/analytics/mood-trends.  For every user and every trailing
    window of 7..365 days (30 when none is given) it answers 200 with one
    [moodDistribution] entry per mood logged in the window, each holding the
    number of the user's logs of that mood (at least one) and the share
    [count / totalMoodsInWindow * 100] as its [percentage]; the shares of a
    window that is not empty add up to 100 (exactly, the numbers being
    rationals here); an empty window is answered by the summary with
    [totalEntries] zero and no entry, not by an error. *)
Theorem moodTrends_percentages now uid q store :
  Analytics.validate_trends q = [] ->
  let window := in_window now uid (default 30 (Analytics.q_days q)) store in
  let total := Z.of_nat (length window) in
  exists data,
    Analytics.moodTrends now uid q store = Success 200 None data /\
    Analytics.totalEntries (Analytics.summary data) = total /\
    (forall e, In e (Analytics.moodDistribution data) ->
       let members :=
         List.filter (fun d => String.eqb (MoodLog.mood d) (Analytics.s_id e))
           window in
       Analytics.s_count e = Z.of_nat (length members) /\
       0 < Analytics.s_count e /\
       (Analytics.s_percentage e ==
        inject_Z (Analytics.s_count e) / inject_Z total * 100)%Q) /\
    List.NoDup (map Analytics.s_id (Analytics.moodDistribution data)) /\
    (forall d, In d window ->
       exists e, In e (Analytics.moodDistribution data) /\
                 Analytics.s_id e = MoodLog.mood d) /\
    (window <> [] ->
     (sumQ (map Analytics.s_percentage (Analytics.moodDistribution data))
      == 100)%Q) /\
    (window = [] ->
     Analytics.moodDistribution data = [] /\ Analytics.trends data = [] /\
     Analytics.totalEntries (Analytics.summary data) = 0).
Proof.
  intros Hv. cbv zeta. unfold Analytics.moodTrends. rewrite Hv.
  set (days := default 30 (Analytics.q_days q)).
  fold (in_window now uid days store).
  set (window := in_window now uid days store).
  set (total := Z.of_nat (length window)).
  pose proof (frequencyPipeline_counts now uid days store) as Hsum.
  fold window in Hsum. fold total in Hsum. rewrite Hsum.
  eexists. split; [reflexivity|]. simpl.
  split; [done|]. split.
  { intros e He. apply in_map_iff in He as (f & <- & Hf).
    destruct (frequencyPipeline_entry _ _ _ _ _ Hf) as (Hc & Hp & _).
    fold window in Hc. simpl. split; [done|]. split; [done|].
    assert (0 < total) as Ht.
    { pose proof (List.filter_length_le
                    (fun d => String.eqb (MoodLog.mood d) (MoodLog.f_id f))
                    window) as Hle.
      unfold total. lia. }
    rewrite (proj2 (Z.ltb_lt 0 total) Ht). reflexivity. }
  split.
  { rewrite map_map. simpl.
    apply (frequencyPipeline_NoDup now uid days store). }
  split.
  { intros d Hd.
    destruct (frequencyPipeline_complete now uid days store d Hd)
      as (f & Hf & Hm).
    exists (Analytics.share_of total f). split; [by apply in_map|done]. }
  split.
  { intros Hw.
    assert (0 < total) as Ht by (unfold total; destruct window; [done|simpl; lia]).
    rewrite sumQ_percentages, Hsum by done.
    assert (~ (inject_Z total == 0)%Q) as Hq by (unfold Qeq; simpl; lia).
    field. exact Hq. }
  intros Hw. unfold total. rewrite Hw. split; [|done].
  unfold MoodLog.frequencyPipeline. fold (in_window now uid days store).
  fold window. by rewrite Hw.
Qed.

End MoodTrends.

Lemma moodTrends_percentages_witness :
  exists data,
    Analytics.moodTrends (H := MoreExamples.dayNumber) Examples.twoPM "u1"
      MoreExamples.weekly Examples.moodLogs = Success 200 None data /\
    map Analytics.s_id (Analytics.moodDistribution data) = ["happy"; "calm"] /\
    Analytics.totalEntries (Analytics.summary data) = 2 /\
    (sumQ (map Analytics.s_percentage (Analytics.moodDistribution data))
     == 100)%Q.
Proof.
  destruct (moodTrends_percentages (H := MoreExamples.dayNumber) Examples.twoPM
              "u1" MoreExamples.weekly Examples.moodLogs eq_refl)
    as (data & Hr & Ht & _ & _ & _ & Hsum & _).
  exists data. split; [exact Hr|]. split.
  { vm_compute in Hr. injection Hr as <-. reflexivity. }
  split; [exact Ht|]. apply Hsum. discriminate.
Defined.

(** C5, as stated, fails: where the release lets the static run,
    GET /api/moods/frequency answers two logs in the window with entries
    that carry [_id], [count] and [avgIntensity] and no percentage share;
    on the other releases it answers the same request with 500. *)
Lemma frequency_reports_no_percentage :
  (exists entries,
     MoodLog.frequencyRoute (mongoose := Examples.mongoose6) Examples.twoPM "u1"
       (Some 30) Examples.moodLogs = Success 200 None entries /\
     entries <> [] /\
     ~ Forall reports_percentage (map MoodLog.frequency_json entries)) /\
  MoodLog.frequencyRoute (mongoose := Examples.mongoose8) Examples.twoPM "u1"
    (Some 30) Examples.moodLogs
  = Failure 500 "Server error fetching mood frequency" [].
Proof.
  split; [|reflexivity].
  eexists. split; [vm_compute; reflexivity|]. split; [discriminate|].
  intros H. inversion H as [|e l [p Hp] _]. discriminate Hp.
Qed.

(** An empty window is answered there by [frequency: []], with no summary. *)
Example frequency_empty_window :
  MoodLog.frequencyRoute (mongoose := Examples.mongoose6) Examples.twoPM "u3" None
    Examples.moodLogs = Success 200 None [].
Proof. reflexivity. Qed.

Lemma updateMood_frame_witness :
  let r := MoodLog.updateMood 0 "u1" "m2" Examples.updateBody Examples.moodLogs in
  (exists d', fst r = Success 200 (Some "Mood log updated successfully") d' /\
     MoodLog.notes d' = Some "rewritten" /\ MoodLog.mood d' = "calm" /\
     MoodLog.user d' = "u1") /\
  Forall2 (fun d d' => write_once_equal d d' /\ (MoodLog._id d <> "m2" -> d' = d))
          Examples.moodLogs (snd r).
Proof.
  split.
  - eexists. split; [vm_compute; reflexivity|]. vm_compute. repeat split.
  - exact (proj1 (updateMood_frame 0 "u1" "m2" Examples.updateBody
                    Examples.moodLogs)).
Defined.

(** ** Song recommendations *)

Lemma In_limit {A} n (l : list A) x : In x (firstn n l) -> In x l.
Proof.
  revert n. induction l as [|y l IH]; intros [|n]; simpl; try done.
  intros [->|H]; [by left|right; eauto].
Qed.

Lemma check_nil ok msg : Song.check ok msg = [] <-> ok = true.
Proof. destruct ok; simpl; split; congruence. Qed.

Lemma validate_recommend_ok q :
  Song.validate_recommend q = [] ->
  Song.optional_in Song.moodTagKinds (Song.q_mood q) = true /\
  Song.optional_int 1 10 (Song.q_energy q) = true /\
  Song.optional_int 1 10 (Song.q_valence q) = true /\
  Song.optional_int 1 50 (Song.q_limit q) = true.
Proof.
  unfold Song.validate_recommend. intros H.
  apply app_eq_nil in H as [H1 H]. apply app_eq_nil in H as [H2 H].
  apply app_eq_nil in H as [H3 H4].
  by rewrite !check_nil in *.
Qed.

Lemma in_band_spec v x :
  Song.in_band (Some v) x = true <->
  (inject_Z (Z.max 1 (v - 2)) <= x <= inject_Z (Z.min 10 (v + 2)))%Q.
Proof.
  unfold Song.in_band, Song.band. simpl.
  by rewrite andb_true_iff, !Qle_bool_iff.
Qed.

(** C6: a recommendation request with energy [e] in 1..10 is answered by
    songs of the store that the caller may see and whose stored energy lies
    in [max(1, e-2), min(10, e+2)], which for [e = 8] is [6, 10]; a supplied
    valence is treated alike; and when no more songs match than the limit
    allows, the answer holds exactly the matching songs. *)
Theorem recommendSongs_energy_band uid q store e :
  Song.validate_recommend q = [] ->
  Song.q_energy q = Some e ->
  1 <= e <= 10 /\
  exists songs,
    Song.recommendSongs uid q store = Success 200 None songs /\
    (forall s, In s songs ->
       In s store /\ Song.visible_to uid s = true /\
       (inject_Z (Z.max 1 (e - 2)) <= Song.energy s
        <= inject_Z (Z.min 10 (e + 2)))%Q) /\
    (e = 8 -> forall s, In s songs -> (6 <= Song.energy s <= 10)%Q) /\
    (forall v, Song.q_valence q = Some v -> forall s, In s songs ->
       (inject_Z (Z.max 1 (v - 2)) <= Song.valence s
        <= inject_Z (Z.min 10 (v + 2)))%Q) /\
    ((length (List.filter (Song.recommend_filter uid q) store)
      <= Z.to_nat (default 20%Z (Song.q_limit q)))%nat ->
     forall s, In s songs <->
               In s store /\ Song.recommend_filter uid q s = true).
Proof.
  intros Hv He.
  pose proof (validate_recommend_ok q Hv) as (_ & Hen & _ & _).
  rewrite He in Hen. simpl in Hen. apply andb_true_iff in Hen as [H1 H2].
  split; [lia|].
  eexists. split; [unfold Song.recommendSongs; by rewrite Hv|].
  assert (forall s,
    In s (firstn (Z.to_nat (default 20 (Song.q_limit q)))
            (sort_by Song.by_popularity
               (List.filter (Song.recommend_filter uid q) store))) ->
    In s store /\ Song.recommend_filter uid q s = true) as Hsound.
  { intros s Hs. apply In_limit in Hs. apply sort_by_In in Hs.
    by apply filter_In in Hs. }
  assert (forall s, Song.recommend_filter uid q s = true ->
    Song.visible_to uid s = true /\
    Song.in_band (Song.q_energy q) (Song.energy s) = true /\
    Song.in_band (Song.q_valence q) (Song.valence s) = true) as Hf.
  { intros s Hs. unfold Song.recommend_filter in Hs.
    repeat (apply andb_true_iff in Hs as [Hs ?]). done. }
  split.
  { intros s Hs. apply Hsound in Hs as [Hin Hs].
    apply Hf in Hs as (Hvis & Hen & _). rewrite He in Hen.
    by apply in_band_spec in Hen. }
  split.
  { intros -> s Hs. apply Hsound in Hs as [_ Hs].
    apply Hf in Hs as (_ & Hen & _). rewrite He in Hen.
    by apply in_band_spec in Hen. }
  split.
  { intros v Hva s Hs. apply Hsound in Hs as [_ Hs].
    apply Hf in Hs as (_ & _ & Hval). rewrite Hva in Hval.
    by apply in_band_spec in Hval. }
  intros Hlen s. rewrite firstn_all2.
  - by rewrite sort_by_In, filter_In.
  - by rewrite (Permutation_length (sort_by_perm _ _)).
Qed.

Lemma recommendSongs_energy_band_witness :
  Song.recommendSongs "u1" Examples.energy8 Examples.songs =
    Success 200 None
      [Examples.song "s1" "u2" true 10 7 5; Examples.song "s5" "u2" true 7 6 9;
       Examples.song "s3" "u1" false 3 10 5] /\
  forall s,
    In s [Examples.song "s1" "u2" true 10 7 5; Examples.song "s5" "u2" true 7 6 9;
          Examples.song "s3" "u1" false 3 10 5] ->
    (6 <= Song.energy s <= 10)%Q.
Proof.
  destruct (recommendSongs_energy_band "u1" Examples.energy8 Examples.songs 8)
    as (_ & songs & Hr & _ & H8 & _); [reflexivity|reflexivity|].
  assert (songs = [Examples.song "s1" "u2" true 10 7 5;
                   Examples.song "s5" "u2" true 7 6 9;
                   Examples.song "s3" "u1" false 3 10 5]) as <-.
  { vm_compute in Hr. by injection Hr as <-. }
  split; [exact Hr|]. by apply H8.
Defined.

(** ** Auto-generated playlists *)

Lemma visible_to_spec uid s :
  Song.visible_to uid s = true <->
  Song.isPublic s = true \/ Song.uploadedBy s = uid.
Proof.
  unfold Song.visible_to. by rewrite orb_true_iff, String.eqb_eq.
Qed.

Lemma songFilter_visible uid q s :
  Playlist.songFilter uid q s = true -> Song.visible_to uid s = true.
Proof.
  unfold Playlist.songFilter. intros H.
  by repeat (apply andb_true_iff in H as [H ?]).
Qed.

(** What a success of the route means. *)
Lemma autoGenerate_success newId uid q songStore store st msg g store' :
  Playlist.autoGenerate newId uid q songStore store = (Success st msg g, store') ->
  let found :=
    firstn (Z.to_nat (default 20 (Playlist.g_limit q)))
      (sort_by Playlist.by_plays_likes
         (List.filter (Playlist.songFilter uid q) songStore)) in
  found <> [] /\
  Playlist.songs (Playlist.playlist g) = map Song._id found /\
  Playlist.owner (Playlist.playlist g) = uid /\
  Playlist.isAutoGenerated (Playlist.playlist g) = true /\
  Playlist.populated g =
    map (fun id => Song.findById id songStore)
        (Playlist.songs (Playlist.playlist g)) /\
  store' = (store ++ [Playlist.playlist g])%list.
Proof.
  unfold Playlist.autoGenerate.
  destruct (Playlist.validate_generate q); [|discriminate].
  destruct (firstn _ _) as [|s0 rest] eqn:Hfound; [discriminate|].
  unfold insert_doc.
  destruct (existsb _ store); [discriminate|].
  intros [= _ _ <- <-]. simpl. repeat split; done.
Qed.

(** C7: every song of an auto-generated playlist, as saved and as returned,
    is a song of the store that is public or was uploaded by the caller;
    no song that is private and of another user is referred to. *)
Theorem autoGenerate_visible newId uid q songStore store st msg g store' :
  List.NoDup (map Song._id songStore) ->
  Playlist.autoGenerate newId uid q songStore store = (Success st msg g, store') ->
  In (Playlist.playlist g) store' /\
  Forall (fun o => exists s, o = Some s /\ In s songStore /\
                     (Song.isPublic s = true \/ Song.uploadedBy s = uid))
         (Playlist.populated g) /\
  (forall id, In id (Playlist.songs (Playlist.playlist g)) ->
     exists s, Song.findById id songStore = Some s /\
       (Song.isPublic s = true \/ Song.uploadedBy s = uid)) /\
  (forall s, In s songStore ->
     Song.isPublic s = false -> Song.uploadedBy s <> uid ->
     ~ In (Song._id s) (Playlist.songs (Playlist.playlist g))).
Proof.
  intros Hnd H.
  apply autoGenerate_success in H as (_ & Hsongs & _ & _ & Hpop & ->).
  assert (forall id, In id (Playlist.songs (Playlist.playlist g)) ->
            exists s, Song.findById id songStore = Some s /\ In s songStore /\
              (Song.isPublic s = true \/ Song.uploadedBy s = uid)) as Hall.
  { intros id Hid. rewrite Hsongs in Hid.
    apply in_map_iff in Hid as (s & <- & Hs).
    apply In_limit, sort_by_In, filter_In in Hs as [Hin Hf].
    exists s. split; [by apply find_by_id_NoDup|]. split; [done|].
    by apply visible_to_spec, (songFilter_visible uid q). }
  split; [apply in_or_app; right; by left|].
  split.
  { rewrite Hpop. apply List.Forall_forall. intros o Ho.
    apply in_map_iff in Ho as (id & <- & Hid).
    destruct (Hall id Hid) as (s & -> & Hin & Hv). eauto. }
  split.
  { intros id Hid. destruct (Hall id Hid) as (s & Hf & _ & Hv). eauto. }
  intros s Hin Hpriv Hown Hid.
  destruct (Hall _ Hid) as (s' & Hf & _ & Hv).
  unfold Song.findById in Hf.
  rewrite (find_by_id_NoDup Song._id s songStore Hnd Hin) in Hf.
  injection Hf as <-. destruct Hv; congruence.
Qed.

Lemma autoGenerate_visible_witness :
  exists g store',
    Playlist.autoGenerate "p9" "u1" Examples.happy5 Examples.songs
      [Examples.privatePlaylist] =
    (Success 200 (Some "Playlist auto-generated successfully") g, store') /\
    Playlist.name (Playlist.playlist g) = "Happy Mix" /\
    Playlist.songs (Playlist.playlist g) = ["s4"; "s1"; "s5"; "s3"] /\
    ~ In "s2" (Playlist.songs (Playlist.playlist g)).
Proof.
  eexists _, _. split; [vm_compute; reflexivity|].
  split; [reflexivity|]. split; [reflexivity|].
  refine (proj2 (proj2 (proj2
    (autoGenerate_visible "p9" "u1" Examples.happy5 Examples.songs
       [Examples.privatePlaylist] 200 _ _ _ _ _)))
    (Examples.song "s2" "u2" false 50 8 5) _ _ _).
  - repeat constructor; simpl; intuition discriminate.
  - vm_compute. reflexivity.
  - simpl. tauto.
  - reflexivity.
  - discriminate.
Defined.

(** ** Play counts *)

Lemma eqb_neq_false a b : a <> b -> String.eqb a b = false.
Proof. intros H. by apply String.eqb_neq. Qed.

(** C10: a play request on a stored song, and on a stored playlist, is
    answered by 200 and the old [playCount] plus one whoever the caller is;
    the stored document gets that [playCount] (a song also its [updatedAt])
    and nothing else changes.  For a private document of another user the
    get, update and delete routes answer 403, the play route still counts. *)
Theorem play_count_unguarded now uid sid songs song pid playlists pl :
  Song.findById sid songs = Some song ->
  Playlist.findById pid playlists = Some pl ->
  let song' :=
    Song.mk (Song._id song) (Song.title song) (Song.artist song)
      (Song.album song) (Song.genre song) (Song.moodTags song)
      (Song.language song) (Song.duration song) (Song.filePath song)
      (Song.coverImage song) (Song.uploadedBy song) (Song.isPublic song)
      (Song.playCount song + 1) (Song.likes song) (Song.tempo song)
      (Song.energy song) (Song.valence song) (Song.createdAt song) now in
  let pl' :=
    Playlist.mk (Playlist._id pl) (Playlist.name pl) (Playlist.description pl)
      (Playlist.owner pl) (Playlist.songs pl) (Playlist.isAutoGenerated pl)
      (Playlist.generatedFor pl) (Playlist.isPublic pl)
      (Playlist.playCount pl + 1) (Playlist.followers pl) (Playlist.tags pl)
      (Playlist.coverImage pl) in
  (exists songs',
     Song.playSong now uid sid songs =
       (Success 200 (Some "Play count updated") (Song.playCount song + 1),
        songs') /\
     Song.findById sid songs' = Some song' /\
     Forall2 (fun x x' => x' = x \/ (x = song /\ x' = song')) songs songs') /\
  (exists playlists',
     Playlist.playPlaylist uid pid playlists =
       (Success 200 (Some "Play count updated") (Playlist.playCount pl + 1),
        playlists') /\
     Playlist.findById pid playlists' = Some pl' /\
     Forall2 (fun x x' => x' = x \/ (x = pl /\ x' = pl')) playlists playlists') /\
  (Song.isPublic song = false -> Song.uploadedBy song <> uid ->
     Song.getSong uid sid songs = Failure 403 "Access denied to this song" [] /\
     (forall b, Song.validate_update b = [] ->
        Song.updateSong now uid sid b songs =
        (Failure 403 "Access denied. You can only update your own songs" [],
         songs)) /\
     (forall files,
        Song.deleteSong uid sid songs files =
        (Failure 403 "Access denied. You can only delete your own songs" [],
         songs, files))) /\
  (Playlist.isPublic pl = false -> Playlist.owner pl <> uid ->
     Playlist.getPlaylist uid pid playlists =
       Failure 403 "Access denied to this playlist" [] /\
     (forall b, Playlist.validate_update b = [] ->
        Playlist.updatePlaylist uid pid b playlists =
        (Failure 403 "Access denied. You can only update your own playlists" [],
         playlists)) /\
     Playlist.deletePlaylist uid pid playlists =
       (Failure 403 "Access denied. You can only delete your own playlists" [],
        playlists)).
Proof.
  intros Hs Hp song' pl'.
  pose proof (find_by_id_Some _ _ _ _ Hs) as [_ Hsid].
  pose proof (find_by_id_Some _ _ _ _ Hp) as [_ Hpid].
  split; [|split; [|split]].
  - assert (Song.incrementPlayCount now song songs =
            option_map (pair song') (replace_doc Song._id song' songs))
      as Hinc by reflexivity.
    unfold Song.playSong. rewrite Hs, Hinc.
    assert (find_by_id Song._id (Song._id song') songs = Some song) as Hf
      by (simpl; by rewrite Hsid).
    destruct (replace_doc_found _ _ _ _ Hf) as [songs' Hr].
    rewrite Hr. simpl. exists songs'. split; [done|]. split.
    + unfold Song.findById. rewrite <- Hsid.
      apply (find_by_id_replace_doc Song._id song' _ _ Hr).
    + by apply (replace_doc_first Song._id song').
  - assert (Playlist.incrementPlayCount pl playlists =
            option_map (pair pl') (replace_doc Playlist._id pl' playlists))
      as Hinc by reflexivity.
    unfold Playlist.playPlaylist. rewrite Hp, Hinc.
    assert (find_by_id Playlist._id (Playlist._id pl') playlists = Some pl)
      as Hf by (simpl; by rewrite Hpid).
    destruct (replace_doc_found _ _ _ _ Hf) as [playlists' Hr].
    rewrite Hr. simpl. exists playlists'. split; [done|]. split.
    + unfold Playlist.findById. rewrite <- Hpid.
      apply (find_by_id_replace_doc Playlist._id pl' _ _ Hr).
    + by apply (replace_doc_first Playlist._id pl').
  - intros Hpriv Hown. apply eqb_neq_false in Hown.
    unfold Song.getSong, Song.updateSong, Song.deleteSong.
    rewrite Hs, Hpriv, Hown. simpl. repeat split.
    intros b ->. done.
  - intros Hpriv Hown. apply eqb_neq_false in Hown.
    unfold Playlist.getPlaylist, Playlist.updatePlaylist,
      Playlist.deletePlaylist.
    rewrite Hp, Hpriv, Hown. simpl. repeat split.
    intros b ->. done.
Qed.

Lemma play_count_unguarded_witness :
  Song.playSong 5000 "u1" "s2" Examples.songs =
    (Success 200 (Some "Play count updated") 51,
     [Examples.song "s1" "u2" true 10 7 5;
      Song.pre_save 5000 (Examples.song "s2" "u2" false 51 8 5);
      Examples.song "s3" "u1" false 3 10 5; Examples.song "s4" "u2" true 40 5 5;
      Examples.song "s5" "u2" true 7 6 9]) /\
  Song.getSong "u1" "s2" Examples.songs =
    Failure 403 "Access denied to this song" [] /\
  Playlist.playPlaylist "u1" "p1" [Examples.privatePlaylist] =
    (Success 200 (Some "Play count updated") 5,
     [Playlist.mk "p1" "Mine" None "u2" ["s1"; "s2"] false None false 5 [] []
        None]) /\
  Playlist.getPlaylist "u1" "p1" [Examples.privatePlaylist] =
    Failure 403 "Access denied to this playlist" [].
Proof.
  destruct (play_count_unguarded 5000 "u1" "s2" Examples.songs
              (Examples.song "s2" "u2" false 50 8 5)
              "p1" [Examples.privatePlaylist] Examples.privatePlaylist
              eq_refl eq_refl)
    as ((songs' & Hplay & _) & (pls' & Hpl & _) & Hsong & Hlist).
  split; [vm_compute; reflexivity|].
  split; [apply Hsong; [reflexivity|discriminate]|].
  split; [vm_compute; reflexivity|].
  apply Hlist; [reflexivity|discriminate].
Defined.

(** ** Game sessions *)

Section GameFacts.
Context `{GameSession.TextToNumber} {numbers : NumberText} {mongoose : Mongoose}.

Lemma game_check_nil ok msg : GameSession.check ok msg = [] <-> ok = true.
Proof. destruct ok; simpl; split; congruence. Qed.

Lemma validate_start_ok b :
  GameSession.validate_start b = [] ->
  exists m i, GameSession.sb_mood b = Some m /\
    GameSession.sb_intensity b = Some i /\ 1 <= i <= 10.
Proof.
  unfold GameSession.validate_start. intros Hv.
  apply app_eq_nil in Hv as [H1 Hv]. apply app_eq_nil in Hv as [H2 _].
  rewrite game_check_nil in H1, H2.
  destruct (GameSession.sb_mood b) as [m|]; [|discriminate].
  destruct (GameSession.sb_intensity b) as [i|]; [|discriminate].
  exists m, i. repeat split; lia.
Qed.

Lemma validate_complete_ok b :
  GameSession.validate_complete b = [] ->
  exists m sc, GameSession.cb_moodAfter b = Some m /\
    1 <= GameSession.intensity m <= 10 /\
    GameSession.cb_score b = Some sc /\ 0 <= sc.
Proof.
  unfold GameSession.validate_complete. intros Hv.
  apply app_eq_nil in Hv as [_ Hv]. apply app_eq_nil in Hv as [H2 Hv].
  apply app_eq_nil in Hv as [H3 _].
  rewrite game_check_nil in H2, H3.
  destruct (GameSession.cb_moodAfter b) as [m|]; [|discriminate].
  destruct (GameSession.cb_score b) as [sc|]; [|discriminate].
  exists m, sc. repeat split; lia.
Qed.

Lemma findSession_Some sid uid store s :
  GameSession.findSession sid uid store = Some s ->
  In s store /\ GameSession.sessionId s = sid /\ GameSession.user s = uid.
Proof.
  intros Hf. apply find_some in Hf as [Hin Hm].
  apply andb_true_iff in Hm as [H1 H2].
  by rewrite !String.eqb_eq in *.
Qed.

(** The achievements do not depend on the fields a completion or a rating
    writes last. *)
Lemma completeSession_ok now m sc gd s :
  1 <= GameSession.intensity (GameSession.moodBefore s) <= 10 ->
  1 <= GameSession.intensity m <= 10 ->
  session_ok (GameSession.completeSession now m sc gd s).
Proof.
  intros Hb Ha. split; [done|]. split; [discriminate|].
  intros _. split; [|reflexivity]. exists (GameSession.intensity m). done.
Qed.

Lemma set_rating_ok r f s :
  session_ok s -> session_ok (GameSession.set_rating r f s).
Proof. intros (Hb & Hn & Hc). split; [done|]. split; done. Qed.

Lemma replace_doc_Forall {A} (key : A -> ObjectId) (P : A -> Prop) d store store' :
  replace_doc key d store = Some store' ->
  Forall P store -> P d -> Forall P store'.
Proof.
  revert store'. induction store as [|x rest IH]; intros store'; simpl;
    [discriminate|].
  destruct (has_id key (key d) x).
  - intros [= <-] HF Hd. inversion HF; subst. by constructor.
  - destruct (replace_doc key d rest) as [rest'|]; [|discriminate].
    intros [= <-] HF Hd. inversion HF; subst. constructor; [done|].
    by apply IH.
Qed.

Lemma replace_doc_keys {A} (key : A -> ObjectId) d store store' :
  replace_doc key d store = Some store' -> map key store' = map key store.
Proof.
  revert store'. induction store as [|x rest IH]; intros store'; simpl;
    [discriminate|].
  destruct (has_id key (key d) x) eqn:E.
  - intros [= <-]. simpl. apply has_id_spec in E. by rewrite E.
  - destruct (replace_doc key d rest) as [rest'|]; [|discriminate].
    intros [= <-]. simpl. by rewrite (IH rest').
Qed.

Lemma insert_doc_fresh {A} (key : A -> ObjectId) d store store' :
  insert_doc key d store = Some store' ->
  store' = (store ++ [d])%list /\ ~ In (key d) (map key store).
Proof.
  unfold insert_doc. destruct (existsb _ store) eqn:E; [discriminate|].
  intros [= <-]. split; [done|]. intros Hin.
  apply in_map_iff in Hin as (x & Hx & Hin).
  assert (existsb (has_id key (key d)) store = true) as E'.
  { apply existsb_exists. exists x. split; [done|]. by apply has_id_spec. }
  congruence.
Qed.

Lemma sessions_ok_replace d store store' :
  replace_doc GameSession._id d store = Some store' ->
  sessions_ok store -> session_ok d -> sessions_ok store'.
Proof.
  intros Hr [HF Hnd] Hd. split.
  - by apply (replace_doc_Forall GameSession._id session_ok d store).
  - by rewrite (replace_doc_keys _ _ _ _ Hr).
Qed.

(** Every handler keeps the stored sessions well formed. *)
Lemma startSession_ok now newId uid gid b games store :
  sessions_ok store ->
  sessions_ok (snd (snd (GameSession.startSession now newId uid gid b games store))).
Proof.
  intros Hok. unfold GameSession.startSession.
  destruct (GameSession.validate_start b) eqn:Hv; [|done].
  destruct (validate_start_ok b Hv) as (m & i & Hm & Hi & Hr).
  destruct (Game.findById gid games) as [game|]; [|done].
  destruct (Game.isActive game); simpl; [|done].
  destruct (GameSession.insert_session _ store) as [store'|] eqn:Hins; [|done].
  assert (sessions_ok store') as Hok'.
  { unfold GameSession.insert_session in Hins.
    destruct (_ && _) in Hins; [|discriminate].
    apply insert_doc_fresh in Hins as [-> Hfresh].
    destruct Hok as [HF Hnd]. split.
    - apply Forall_app. split; [done|]. constructor; [|constructor].
      rewrite Hi. split; [simpl; lia|]. split; [done|discriminate].
    - rewrite map_app. simpl. apply List.NoDup_app; [done| |].
      + constructor; [intros []|constructor].
      + intros x Hx [<-|[]]. by apply Hfresh. }
  by destruct (Game.incrementPlayCount now game games) as [[? ?]|].
Qed.

Lemma completeRoute_ok now uid sid b store :
  sessions_ok store ->
  sessions_ok (snd (GameSession.completeRoute now uid sid b store)).
Proof.
  intros Hok. unfold GameSession.completeRoute.
  destruct (GameSession.validate_complete b) eqn:Hv; [|done].
  destruct (validate_complete_ok b Hv) as (m & sc & Hm & Hi & Hs & _).
  destruct (GameSession.findSession sid uid store) as [s|] eqn:Hf; [|done].
  destruct (GameSession.completed s); [done|].
  destruct (replace_doc _ _ store) as [store'|] eqn:Hr; [|done].
  simpl. eapply sessions_ok_replace; [exact Hr|done|].
  apply findSession_Some in Hf as (Hin & _).
  destruct Hok as [HF _]. rewrite List.Forall_forall in HF.
  destruct (HF s Hin) as (Hb & _).
  rewrite Hm. by apply completeSession_ok.
Qed.

Lemma rateGame_ok now uid gid b games store :
  sessions_ok store ->
  sessions_ok (snd (snd (GameSession.rateGame now uid gid b games store))).
Proof.
  intros Hok. unfold GameSession.rateGame.
  destruct (GameSession.validate_rate b); [|done].
  destruct (Game.findById gid games) as [game|]; [|done].
  destruct (List.find _ store); [|done].
  destruct (Game.updateRating _ _ _ _) as [[game' games']|]; [|done].
  simpl. destruct (head _) as [s|] eqn:Hh; [|done].
  destruct (replace_doc _ _ store) as [store'|] eqn:Hr; [|done].
  simpl. eapply sessions_ok_replace; [exact Hr|done|].
  apply set_rating_ok.
  assert (In s (sort_by GameSession.latest_completed_first
                  (List.filter (GameSession.played uid (Game._id game)) store)))
    as Hin by (destruct (sort_by _ _); [discriminate|injection Hh as ->; by left]).
  apply sort_by_In, filter_In in Hin as [Hin _].
  destruct Hok as [HF _]. rewrite List.Forall_forall in HF. by apply HF.
Qed.

Lemma step_ok st st' :
  GameSession.step st st' -> sessions_ok (snd st) -> sessions_ok (snd st').
Proof.
  destruct 1; simpl; intros Hok.
  - by apply startSession_ok.
  - by apply completeRoute_ok.
  - by apply rateGame_ok.
Qed.

Lemma steps_ok st st' :
  rtc GameSession.step st st' -> sessions_ok (snd st) -> sessions_ok (snd st').
Proof.
  induction 1 as [|x y z Hstep _ IH]; [done|].
  intros Hx. apply IH. by apply (step_ok x).
Qed.

Lemma reachable_ok st : GameSession.reachable st -> sessions_ok (snd st).
Proof.
  intros [games Hrtc]. apply (steps_ok _ _ Hrtc). split; constructor.
Qed.

(** What a success of the complete route means. *)
Lemma completeRoute_success now uid sid b store st msg data store' :
  sessions_ok store ->
  GameSession.completeRoute now uid sid b store = (Success st msg data, store') ->
  exists s m sc,
    GameSession.cb_moodAfter b = Some m /\
    1 <= GameSession.intensity m <= 10 /\
    GameSession.cb_score b = Some sc /\
    GameSession.findSession sid uid store = Some s /\
    GameSession.completed s = false /\
    let d :=
      GameSession.completeSession now m sc
        (default ∅ (GameSession.cb_gameData b))
        (GameSession.set_maxScore (default sc (GameSession.cb_maxScore b)) s) in
    GameSession.findSession sid uid store' = Some d /\
    data =
      GameSession.mkCompleted (GameSession.sessionId s) sc
        (default sc (GameSession.cb_maxScore b))
        (GameSession.intensity m
         - GameSession.intensity (GameSession.moodBefore s))
        (GameSession.achievements d) (GameSession.duration d).
Proof.
  intros [HF Hnd]. unfold GameSession.completeRoute.
  destruct (GameSession.validate_complete b) eqn:Hv; [|discriminate].
  destruct (validate_complete_ok b Hv) as (m & sc & Hm & Hi & Hs & _).
  destruct (GameSession.findSession sid uid store) as [s|] eqn:Hf;
    [|discriminate].
  destruct (GameSession.completed s) eqn:Hc; [discriminate|].
  destruct (replace_doc _ _ store) as [store1|] eqn:Hr; [|discriminate].
  rewrite Hm, Hs in *. simpl in Hr |- *. intros [= _ _ <- <-].
  exists s, m, sc. do 5 (split; [done|]). split; [|done].
  pose proof (findSession_Some _ _ _ _ Hf) as (_ & Hsid & Hu).
  unfold GameSession.findSession in *.
  eapply (find_replace_doc GameSession._id); eauto.
  simpl. by rewrite Hsid, Hu, !String.eqb_refl.
Qed.

(** A complete call on a completed session changes nothing. *)
Lemma completeRoute_conflict now uid sid b store s :
  GameSession.findSession sid uid store = Some s ->
  GameSession.completed s = true ->
  snd (GameSession.completeRoute now uid sid b store) = store /\
  (GameSession.validate_complete b = [] ->
   fst (GameSession.completeRoute now uid sid b store) =
   Failure 400 "Game session already completed" []) /\
  (exists msg errors,
     fst (GameSession.completeRoute now uid sid b store) =
     Failure 400 msg errors).
Proof.
  intros Hf Hc. unfold GameSession.completeRoute. rewrite Hf, Hc.
  destruct (GameSession.validate_complete b); simpl; eauto.
  split; [done|]. split; [discriminate|eauto].
Qed.

(** C3: once a complete call on a session has succeeded, the session is
    stored as completed with the [moodAfter], [score], [maxScore],
    [completedAt], [duration], [completionPercentage], [achievements] and
    [gameData] of that call; every later complete call on it is answered by
    400, "Game session already completed" when the body is well formed, and
    leaves the store, so each of these fields, as it was. *)
Theorem complete_twice games store now1 uid sid b1 st msg data store1 now2 b2 :
  GameSession.reachable (games, store) ->
  GameSession.completeRoute now1 uid sid b1 store = (Success st msg data, store1) ->
  exists s s1 m,
    GameSession.findSession sid uid store = Some s /\
    GameSession.cb_moodAfter b1 = Some m /\
    GameSession.findSession sid uid store1 = Some s1 /\
    GameSession.completed s1 = true /\
    GameSession.moodAfter s1 =
      GameSession.mkMoodAfter (Some (GameSession.mood m))
        (Some (GameSession.intensity m)) /\
    Some (GameSession.score s1) = GameSession.cb_score b1 /\
    GameSession.maxScore s1 =
      default (GameSession.score s1) (GameSession.cb_maxScore b1) /\
    GameSession.completedAt s1 = Some now1 /\
    GameSession.duration s1 = (now1 - GameSession.startedAt s) / 1000 /\
    GameSession.completionPercentage s1 = 100 /\
    GameSession.achievements s1 = GameSession.calculateAchievements s1 /\
    GameSession.gameData s1 =
      default ∅ (GameSession.cb_gameData b1) ∪ GameSession.gameData s /\
    let r2 := GameSession.completeRoute now2 uid sid b2 store1 in
    snd r2 = store1 /\
    GameSession.findSession sid uid (snd r2) = Some s1 /\
    (GameSession.validate_complete b2 = [] ->
     fst r2 = Failure 400 "Game session already completed" []) /\
    (exists msg2 errors, fst r2 = Failure 400 msg2 errors).
Proof.
  intros Hreach H1. apply reachable_ok in Hreach. simpl in Hreach.
  destruct (completeRoute_success _ _ _ _ _ _ _ _ _ Hreach H1)
    as (s & m & sc & Hm & Hi & Hs & Hf & Hc & Hf1 & _).
  eexists s, _, m. split; [exact Hf|]. split; [exact Hm|].
  split; [exact Hf1|]. simpl.
  split; [done|]. split; [done|]. split; [by rewrite Hs|].
  split; [done|]. split; [done|]. split; [done|]. split; [done|].
  split; [done|]. split; [done|].
  destruct (completeRoute_conflict now2 uid sid b2 store1 _ Hf1 eq_refl)
    as (Hsame & Hconf & Hfail).
  rewrite Hsame. done.
Qed.

(** C8: in every state the service reaches, a session that is not completed
    has no [moodImprovement], and a completed one has
    [moodAfter.intensity - moodBefore.intensity]; the complete route answers
    with that same difference. *)
Theorem moodImprovement_defined games store :
  GameSession.reachable (games, store) ->
  (forall s, In s store ->
     (GameSession.completed s = false -> GameSession.moodImprovement s = None) /\
     (GameSession.completed s = true ->
      exists after,
        GameSession.a_intensity (GameSession.moodAfter s) = Some after /\
        GameSession.moodImprovement s =
          Some (after - GameSession.intensity (GameSession.moodBefore s)))) /\
  (forall now uid sid b st msg data store',
     GameSession.completeRoute now uid sid b store = (Success st msg data, store') ->
     exists s s',
       GameSession.findSession sid uid store = Some s /\
       GameSession.moodImprovement s = None /\
       GameSession.findSession sid uid store' = Some s' /\
       GameSession.completed s' = true /\
       GameSession.moodImprovement s' =
         Some (GameSession.c_moodImprovement data)).
Proof.
  intros Hreach. apply reachable_ok in Hreach. simpl in Hreach.
  assert (forall s, In s store ->
     (GameSession.completed s = false -> GameSession.moodImprovement s = None) /\
     (GameSession.completed s = true ->
      exists after,
        GameSession.a_intensity (GameSession.moodAfter s) = Some after /\
        GameSession.moodImprovement s =
          Some (after - GameSession.intensity (GameSession.moodBefore s))))
    as Hall.
  { intros s Hin. destruct Hreach as [HF _]. rewrite List.Forall_forall in HF.
    destruct (HF s Hin) as (Hb & Hn & Hc). split.
    - intros Hf. destruct (Hn Hf) as (Ha & _).
      unfold GameSession.moodImprovement. by rewrite Ha.
    - intros Ht. destruct (Hc Ht) as ((after & Ha & Hr) & _).
      exists after. split; [done|]. unfold GameSession.moodImprovement.
      rewrite Ha.
      destruct (after =? 0) eqn:E1; [lia|].
      destruct (GameSession.intensity (GameSession.moodBefore s) =? 0) eqn:E2;
        [lia|done]. }
  split; [exact Hall|].
  intros now uid sid b st msg data store' Hsucc.
  destruct (completeRoute_success _ _ _ _ _ _ _ _ _ Hreach Hsucc)
    as (s & m & sc & Hm & Hi & Hs & Hf & Hc & Hf1 & ->).
  pose proof (findSession_Some _ _ _ _ Hf) as (Hin & _).
  destruct (Hall s Hin) as [Hnone _].
  eexists s, _. split; [exact Hf|]. split; [by apply Hnone|].
  split; [exact Hf1|]. split; [done|].
  destruct Hreach as [HF _]. rewrite List.Forall_forall in HF.
  destruct (HF s Hin) as (Hb & _).
  unfold GameSession.moodImprovement. simpl.
  destruct (GameSession.intensity m =? 0) eqn:E1; [lia|].
  destruct (GameSession.intensity (GameSession.moodBefore s) =? 0) eqn:E2;
    [lia|done].
Qed.

(** *** The achievement rules *)

Lemma In_award name ok n :
  In name (GameSession.award ok n) <-> ok = true /\ name = n.
Proof.
  destruct ok; simpl; split; try tauto; try (intros [? ?]; auto; discriminate).
  intros [<-|[]]. done.
Qed.

Lemma calculateAchievements_In name s :
  In name (GameSession.calculateAchievements s) <->
  (GameSession.truthy (GameSession.gameData s !! "isFirstPlay") = true /\
   name = "first-play") \/
  ((GameSession.score s =? GameSession.maxScore s)
   && (0 <? GameSession.maxScore s) = true /\ name = "perfect-score") \/
  (GameSession.lessThan (inject_Z (GameSession.duration s))
     (GameSession.or_number (GameSession.gameData s !! "expectedDuration") 300)
   = true /\ name = "quick-finish") \/
  (match GameSession.moodImprovement s with
   | Some m => negb (m =? 0) && (2 <=? m)
   | None => false
   end = true /\ name = "mood-improver") \/
  (GameSession.greaterThan (inject_Z (GameSession.score s))
     (option_map (fun a => (a * (3 # 2))%Q)
        (GameSession.or_number (GameSession.gameData s !! "averageScore") 0))
   = true /\ name = "high-scorer").
Proof.
  unfold GameSession.calculateAchievements.
  rewrite !in_app_iff, !In_award. tauto.
Qed.

Ltac own_rule :=
  rewrite calculateAchievements_In; split;
  [ intros Hrule; decompose [or and] Hrule; clear Hrule;
    try discriminate; try assumption
  | intros Hrule ].

(** Each achievement is awarded by its own rule. *)
Lemma calculateAchievements_rules s :
  (In "first-play" (GameSession.calculateAchievements s) <->
   GameSession.truthy (GameSession.gameData s !! "isFirstPlay") = true) /\
  (In "perfect-score" (GameSession.calculateAchievements s) <->
   GameSession.score s = GameSession.maxScore s /\ 0 < GameSession.maxScore s) /\
  (In "quick-finish" (GameSession.calculateAchievements s) <->
   GameSession.lessThan (inject_Z (GameSession.duration s))
     (GameSession.or_number (GameSession.gameData s !! "expectedDuration") 300)
   = true) /\
  (In "mood-improver" (GameSession.calculateAchievements s) <->
   exists m, GameSession.moodImprovement s = Some m /\ 2 <= m) /\
  (In "high-scorer" (GameSession.calculateAchievements s) <->
   GameSession.greaterThan (inject_Z (GameSession.score s))
     (option_map (fun a => (a * (3 # 2))%Q)
        (GameSession.or_number (GameSession.gameData s !! "averageScore") 0))
   = true).
Proof.
  split; [|split; [|split; [|split]]].
  - own_rule. by left.
  - own_rule.
    + match goal with Hc : (_ && _) = true |- _ =>
        apply andb_true_iff in Hc as [? ?] end. lia.
    + right. left. split; [|done]. apply andb_true_iff. lia.
  - own_rule. right. right. by left.
  - own_rule.
    + destruct (GameSession.moodImprovement s) as [m|]; [|discriminate].
      match goal with Hc : (_ && _) = true |- _ =>
        apply andb_true_iff in Hc as [_ ?] end.
      exists m. split; [done|lia].
    + destruct Hrule as (m & -> & Hm). do 3 right. left. split; [|done].
      apply andb_true_iff. split; [|lia]. apply negb_true_iff. lia.
  - own_rule. do 4 right. done.
Qed.

(** The start route puts [isFirstPlay] and [expectedDuration] into
    [gameData], and no [averageScore]. *)
Lemma startSession_gameData now newId uid gid b games store game s :
  Game.findById gid games = Some game ->
  In s (snd (snd (GameSession.startSession now newId uid gid b games store))) ->
  In s store \/
  (GameSession.gameData s !! "isFirstPlay" =
     Some (JBool (GameSession.countSessions uid gid store =? 0)) /\
   GameSession.gameData s !! "expectedDuration" =
     Some (JNum (Game.estimatedDuration game * 60)%Q) /\
   GameSession.gameData s !! "averageScore" = None).
Proof.
  intros Hg. unfold GameSession.startSession.
  destruct (GameSession.validate_start b); [|by left].
  rewrite Hg. pose proof (find_by_id_Some _ _ _ _ Hg) as [_ Hid].
  destruct (Game.isActive game); simpl; [|by left].
  destruct (GameSession.insert_session _ store) as [store'|] eqn:Hins;
    [|by left].
  unfold GameSession.insert_session in Hins.
  destruct (_ && _) in Hins; [|discriminate].
  apply insert_doc_fresh in Hins as [-> _].
  intros Hin.
  assert (In s (store ++ [_])%list) as Hin'
    by (destruct (Game.incrementPlayCount now game games) as [[? ?]|]; exact Hin).
  apply in_app_or in Hin' as [?|[<-|[]]]; [by left|right].
  simpl. rewrite Hid. repeat split.
Qed.

(** Without an [averageScore] in [gameData], which is how the start route
    leaves it, any positive score is a high score. *)
Lemma high_scorer_default s :
  GameSession.gameData s !! "averageScore" = None ->
  (In "high-scorer" (GameSession.calculateAchievements s) <->
   0 < GameSession.score s).
Proof.
  intros Hnone.
  destruct (calculateAchievements_rules s) as (_ & _ & _ & _ & ->).
  rewrite Hnone. simpl. unfold Qle_bool. simpl.
  rewrite negb_true_iff, Z.leb_gt. lia.
Qed.

End GameFacts.

(** *** The sample run *)

Lemma run1_reachable : GameSession.reachable (H := Examples.nan_text) (numbers := Examples.appendDigits)
    (mongoose := Examples.mongoose8) Examples.run1.
Proof.
  exists Examples.games. apply rtc_once.
  exact (GameSession.step_start 1000 "gs1" "u1" "g1" Examples.startBody
           Examples.games []).
Qed.

Lemma run5_steps :
  rtc (GameSession.step (H := Examples.nan_text) (numbers := Examples.appendDigits)
         (mongoose := Examples.mongoose8)) Examples.run1 Examples.run5.
Proof.
  eapply rtc_l.
  { exact (GameSession.step_complete 61000 "u1" "u1_g1_1000"
             (Examples.completeBody "happy" 7 100)
             (fst Examples.run1) (snd Examples.run1)). }
  eapply rtc_l.
  { exact (GameSession.step_start 100000 "gs2" "u1" "g1" Examples.startBody
             (fst Examples.run2) (snd Examples.run2)). }
  eapply rtc_l.
  { exact (GameSession.step_complete 160000 "u1" "u1_g1_100000"
             (Examples.completeBody "calm" 6 100)
             (fst Examples.run3) (snd Examples.run3)). }
  apply rtc_once.
  exact (GameSession.step_start 200000 "gs3" "u1" "g1" Examples.startBody
           (fst Examples.run4) (snd Examples.run4)).
Qed.

Lemma run5_reachable : GameSession.reachable (H := Examples.nan_text) (numbers := Examples.appendDigits)
    (mongoose := Examples.mongoose8) Examples.run5.
Proof.
  destruct run1_reachable as [games Hrtc]. exists games.
  by etrans; [exact Hrtc|exact run5_steps].
Qed.

Lemma complete_twice_witness :
  GameSession.completeRoute (H := Examples.nan_text) 99000 "u1" "u1_g1_1000"
    (Examples.completeBody "sad" 1 0) (snd Examples.run2) =
  (Failure 400 "Game session already completed" [], snd Examples.run2).
Proof.
  assert (GameSession.completeRoute (H := Examples.nan_text) 61000 "u1"
            "u1_g1_1000" (Examples.completeBody "happy" 7 100)
            (snd Examples.run1) =
          (Success 200 (Some "Game session completed successfully")
             (GameSession.mkCompleted "u1_g1_1000" 100 100 3
                ["first-play"; "perfect-score"; "quick-finish";
                 "mood-improver"; "high-scorer"] 60),
           snd Examples.run2)) as H1 by (vm_compute; reflexivity).
  destruct (complete_twice (H := Examples.nan_text) (fst Examples.run1)
              (snd Examples.run1) 61000 "u1" "u1_g1_1000"
              (Examples.completeBody "happy" 7 100) _ _ _ _ 99000
              (Examples.completeBody "sad" 1 0) run1_reachable H1)
    as (s & s1 & m & _ & _ & _ & _ & _ & _ & _ & _ & _ & _ & _ & _ & Hsame
        & _ & Hconf & _).
  rewrite (surjective_pairing (GameSession.completeRoute _ _ _ _ _)).
  rewrite Hsame, Hconf; reflexivity.
Defined.

Lemma moodImprovement_defined_witness :
  Forall (fun s =>
            (GameSession.completed s = false ->
             GameSession.moodImprovement s = None) /\
            (GameSession.completed s = true ->
             exists after,
               GameSession.a_intensity (GameSession.moodAfter s) = Some after /\
               GameSession.moodImprovement s =
                 Some (after
                       - GameSession.intensity (GameSession.moodBefore s))))
         (snd Examples.run5).
Proof.
  apply List.Forall_forall.
  exact (proj1 (moodImprovement_defined (H := Examples.nan_text)
                  (fst Examples.run5) (snd Examples.run5) run5_reachable)).
Defined.

(** The two completed sessions of the run improve the mood by 3 and 2; the
    one just started has no improvement yet. *)
Example run5_moodImprovements :
  map GameSession.moodImprovement (snd Examples.run5) = [Some 3; Some 2; None].
Proof. reflexivity. Qed.

(** C4, where the code departs from it: the user's two earlier sessions of
    the game scored 100 each, the third scores 1 out of 100, and is awarded
    the high-scorer achievement all the same, because [gameData] holds no
    [averageScore] and the score is compared with 0. *)
Theorem high_scorer_ignores_history :
  exists s,
    GameSession.reachable (H := Examples.nan_text) (numbers := Examples.appendDigits)
    (mongoose := Examples.mongoose8) Examples.run6 /\
    GameSession.findSession "u1_g1_200000" "u1" (snd Examples.run6) = Some s /\
    GameSession.score s = 1 /\
    (historicalAverage "u1" "g1" (snd Examples.run5) == 100)%Q /\
    GameSession.gameData s !! "averageScore" = None /\
    GameSession.achievements s = ["quick-finish"; "high-scorer"].
Proof.
  eexists. split.
  { destruct run5_reachable as [games Hrtc]. exists games.
    eapply rtc_r; [exact Hrtc|].
    exact (GameSession.step_complete 260000 "u1" "u1_g1_200000"
             (Examples.completeBody "sad" 4 1)
             (fst Examples.run5) (snd Examples.run5)). }
  split; [vm_compute; reflexivity|].
  split; [reflexivity|]. split; [reflexivity|]. split; reflexivity.
Qed.

(** * Further properties *)

(** ** Paging *)

Lemma ceil_div_bounds t n :
  0 < n -> (Paging.ceil_div t n - 1) * n < t <= Paging.ceil_div t n * n.
Proof.
  intros Hn. unfold Paging.ceil_div.
  pose proof (Z.div_mod (- t) n ltac:(lia)) as Hdm.
  pose proof (Z.mod_pos_bound (- t) n Hn) as Hb. nia.
Qed.

Lemma ceil_div_nonneg t n : 0 <= t -> 0 < n -> 0 <= Paging.ceil_div t n.
Proof.
  intros Ht Hn. unfold Paging.ceil_div.
  pose proof (Z.div_le_upper_bound (- t) n 0 Hn ltac:(lia)). lia.
Qed.

Lemma page_of_length {A} page limit (l : list A) :
  0 <= limit -> Z.of_nat (length (Paging.page_of page limit l)) <= limit.
Proof.
  intros Hl. unfold Paging.page_of. rewrite length_take. lia.
Qed.

Lemma In_skipn {A} n (l : list A) x : In x (skipn n l) -> In x l.
Proof.
  revert n. induction l as [|y l IH]; intros [|n]; simpl; try done.
  intros Hin. right. eauto.
Qed.

Lemma page_of_In {A} page limit (l : list A) x :
  In x (Paging.page_of page limit l) -> In x l.
Proof.
  unfold Paging.page_of. intros Hin. by apply In_limit, In_skipn in Hin.
Qed.

(** Consecutive pages, laid end to end, give the list back. *)
Lemma pages_cover {A} (n m : nat) (l : list A) :
  (0 < n)%nat -> (length l <= m * n)%nat ->
  flat_map (fun k => firstn n (skipn (k * n) l)) (seq 0 m) = l.
Proof.
  intros Hn. revert l. induction m as [|m IH]; intros l Hlen.
  - destruct l; [done|simpl in Hlen; lia].
  - simpl seq. simpl flat_map. rewrite <- seq_shift, flat_map_concat_map, map_map.
    rewrite <- flat_map_concat_map.
    rewrite (flat_map_ext _ (fun k => firstn n (skipn (k * n) (skipn n l)))).
    + rewrite IH; [apply firstn_skipn|]. rewrite length_skipn. simpl in Hlen. lia.
    + intros k. rewrite skipn_skipn. f_equal. f_equal. lia.
Qed.

Lemma page_of_nat {A} (k : nat) limit (l : list A) :
  0 < limit ->
  Paging.page_of (Z.of_nat (S k)) limit l =
  firstn (Z.to_nat limit) (skipn (k * Z.to_nat limit) l).
Proof.
  intros Hl. unfold Paging.page_of. do 2 f_equal. lia.
Qed.

(** A page past the last one is empty. *)
Lemma page_of_beyond {A} page limit (l : list A) :
  0 < limit -> Paging.ceil_div (Z.of_nat (length l)) limit < page ->
  Paging.page_of page limit l = [].
Proof.
  intros Hl Hp. unfold Paging.page_of.
  pose proof (ceil_div_bounds (Z.of_nat (length l)) limit Hl) as [_ Hb].
  rewrite skipn_all2; [by destruct (Z.to_nat limit)|]. nia.
Qed.

(** ** The mood history *)

Lemma mood_check_nil ok msg : MoodLog.check ok msg = [] <-> ok = true.
Proof. destruct ok; simpl; split; congruence. Qed.

Lemma optional_int_spec lo hi o n :
  Paging.optional_int lo hi o = true -> o = Some n ->
  lo <= n /\ match hi with Some h => n <= h | None => True end.
Proof.
  intros Ho ->. simpl in Ho. apply andb_true_iff in Ho as [H1 H2].
  split; [lia|]. destruct hi; [lia|done].
Qed.

Lemma validate_list_ok q :
  MoodRoutes.validate_list q = [] <->
  Paging.optional_int 1 None (MoodRoutes.l_page q) = true /\
  Paging.optional_int 1 (Some 100) (MoodRoutes.l_limit q) = true /\
  MoodLog.enum_ok MoodLog.moods (MoodRoutes.l_mood q) = true /\
  MoodLog.enum_ok MoodLog.detectionMethods (MoodRoutes.l_detectionMethod q)
  = true.
Proof.
  unfold MoodRoutes.validate_list. rewrite !app_nil, !mood_check_nil. tauto.
Qed.

Lemma limit_range lo hi (o : option Z) d :
  Paging.optional_int lo (Some hi) o = true -> lo <= d <= hi ->
  lo <= default d o <= hi.
Proof.
  destruct o as [n|]; simpl; [|done].
  intros Ho _. apply andb_true_iff in Ho. lia.
Qed.

Section MoodHistory.
Context `{MoodRoutes.PathOrder}.


End MoodHistory.


(** ** Reading and deleting documents *)

Section MoreCollectionFacts.
Context {A : Type} (key : A -> ObjectId).

Lemma find_by_id_app_fresh id (d : A) store :
  existsb (has_id key id) store = false -> key d = id ->
  find_by_id key id (store ++ [d])%list = Some d.
Proof.
  intros Hfresh Hk. unfold find_by_id.
  induction store as [|x rest IH]; simpl in *.
  - unfold has_id. by rewrite Hk, String.eqb_refl.
  - apply orb_false_iff in Hfresh as [-> Hrest]. by apply IH.
Qed.

Lemma find_by_id_app_old id (d : A) store :
  key d <> id ->
  find_by_id key id (store ++ [d])%list = find_by_id key id store.
Proof.
  intros Hk. unfold find_by_id.
  induction store as [|x rest IH]; simpl.
  - unfold has_id. by rewrite (eqb_neq_false _ _ Hk).
  - by destruct (has_id key id x).
Qed.

Lemma find_by_id_None id store :
  find_by_id key id store = None <-> ~ In id (map key store).
Proof.
  unfold find_by_id. induction store as [|x rest IH]; simpl; [tauto|].
  destruct (has_id key id x) eqn:E.
  - apply has_id_spec in E. split; [discriminate|]. intros Hn. destruct Hn. by left.
  - rewrite IH. split; [|tauto]. intros Hn [Hx|Hin]; [|done].
    apply (proj2 (has_id_spec key id x)) in Hx. congruence.
Qed.

(** With pairwise distinct [_id]s, a delete removes the document of the
    [_id] and nothing else. *)
Lemma delete_doc_In id (d : A) store :
  List.NoDup (map key store) ->
  In d (delete_doc key id store) <-> In d store /\ key d <> id.
Proof.
  induction store as [|x rest IH]; simpl; [tauto|].
  intros Hnd. inversion Hnd as [|? ? Hnin Hnd']. subst.
  destruct (has_id key id x) eqn:E.
  - apply has_id_spec in E. split.
    + intros Hin. split; [by right|]. intros Hk. apply Hnin.
      rewrite E, <- Hk. by apply in_map.
    + intros [[->|Hin] Hk]; [done|done].
  - assert (key x <> id) as Hx.
    { intros Hk. apply (proj2 (has_id_spec key id x)) in Hk. congruence. }
    simpl. rewrite IH by done. split.
    + intros [->|[Hin Hk]]; [split; [by left|done]|split; [by right|done]].
    + intros [[->|Hin] Hk]; [by left|right; done].
Qed.

Lemma delete_doc_keys id store :
  List.NoDup (map key store) ->
  List.NoDup (map key (delete_doc key id store)) /\
  ~ In id (map key (delete_doc key id store)).
Proof.
  induction store as [|x rest IH]; simpl; [split; [constructor|tauto]|].
  intros Hnd. inversion Hnd as [|? ? Hnin Hnd']. subst.
  destruct (has_id key id x) eqn:E.
  - apply has_id_spec in E. split; [done|]. by rewrite <- E.
  - destruct (IH Hnd') as [IH1 IH2]. simpl. split.
    + constructor; [|done]. intros Hin. apply Hnin.
      apply in_map_iff in Hin as (y & Hy & Hin).
      apply in_map_iff. exists y. split; [done|].
      revert Hin. clear. induction rest as [|z rest IHr]; simpl; [done|].
      destruct (has_id key id z); [by right|]. intros [->|Hin]; [by left|].
      right. by apply IHr.
    + intros [Hx|Hin]; [|done].
      apply (proj2 (has_id_spec key id x)) in Hx. congruence.
Qed.

(** Writing a document back over its replacement restores the store. *)
Lemma replace_doc_undo (d m : A) store store' :
  find_by_id key (key d) store = Some m ->
  replace_doc key d store = Some store' ->
  replace_doc key m store' = Some store.
Proof.
  unfold find_by_id.
  revert store'. induction store as [|x rest IH]; intros store'; simpl;
    [discriminate|].
  destruct (has_id key (key d) x) eqn:E.
  - intros [= <-] [= <-]. simpl.
    apply has_id_spec in E. unfold has_id. by rewrite E, String.eqb_refl.
  - intros Hf Hr.
    destruct (replace_doc key d rest) as [rest'|] eqn:Hr'; [|discriminate].
    injection Hr as <-. simpl.
    apply find_some in Hf as Hm. destruct Hm as [_ Hm].
    apply has_id_spec in Hm. rewrite Hm, E.
    by rewrite (IH rest' Hf eq_refl).
Qed.

End MoreCollectionFacts.

(** X2: a mood that was just logged can be read back by its [_id] by the user
    who logged it, and by no one else; the reads of the older logs are as
    before. *)
Theorem logMood_then_getMood now tz newId uid b store msg moodLog store' :
  MoodLog.logMood now tz newId uid b store = (Success 201 msg moodLog, store') ->
  MoodLog._id moodLog = newId /\
  MoodRoutes.getMood uid newId store' = Success 200 None moodLog /\
  (forall other, other <> uid ->
     MoodRoutes.getMood other newId store' =
     Failure 403 "Access denied to this mood log" []) /\
  (forall who id, id <> newId ->
     MoodRoutes.getMood who id store' = MoodRoutes.getMood who id store) /\
  (forall who, MoodRoutes.getMood who newId store =
               Failure 404 "Mood log not found" []).
Proof.
  unfold MoodLog.logMood, MoodLog.save, insert_doc.
  destruct (MoodLog.validate_log b); [|discriminate].
  destruct (MoodLog.schema_valid _); [|discriminate].
  destruct (pre_save_frame tz (MoodLog.new_mood_log now newId uid b store))
    as (Hid & Hu & _).
  simpl in Hid, Hu. rewrite Hid.
  destruct (existsb _ store) eqn:Hfresh; [discriminate|].
  simpl. intros [= _ <- <-]. split; [done|].
  assert (
    MoodLog.findById newId
      (store ++ [MoodLog.pre_save tz (MoodLog.new_mood_log now newId uid b store)])
    = Some (MoodLog.pre_save tz (MoodLog.new_mood_log now newId uid b store)))
    as Hfind by (by apply find_by_id_app_fresh).
  unfold MoodRoutes.getMood. split.
  { rewrite Hfind, Hu, String.eqb_refl. done. }
  split.
  { intros other Hne. rewrite Hfind, Hu.
    by rewrite (eqb_neq_false _ _ (not_eq_sym Hne)). }
  split.
  { intros who id Hne. unfold MoodLog.findById.
    rewrite find_by_id_app_old; [done|]. rewrite Hid. congruence. }
  intros who. unfold MoodLog.findById.
  assert (find_by_id MoodLog._id newId store = None) as ->; [|done].
  apply find_by_id_None. intros Hin. apply in_map_iff in Hin as (x & Hx & Hin).
  assert (existsb (has_id MoodLog._id newId) store = true); [|congruence].
  apply existsb_exists. exists x. split; [done|]. by apply has_id_spec.
Qed.

Lemma logMood_then_getMood_witness :
  MoodRoutes.getMood "u1" "m3"
    (Examples.moodLogs ++ [Examples.created])%list =
  Success 200 None Examples.created.
Proof.
  refine (proj1 (proj2
    (logMood_then_getMood Examples.twoPM 0 "m3" "u1" Examples.afternoonBody
       Examples.moodLogs (Some "Mood logged successfully") Examples.created
       (Examples.moodLogs ++ [Examples.created])%list _))).
  vm_compute. reflexivity.
Defined.

(** X3: the owner's delete removes the addressed mood log and no other; it
    cannot be read afterwards.  Anyone else is refused and the store is left
    as it was. *)
Theorem deleteMood_removes uid id store moodLog :
  List.NoDup (map MoodLog._id store) ->
  MoodLog.findById id store = Some moodLog ->
  (MoodLog.user moodLog = uid ->
   exists store',
     MoodRoutes.deleteMood uid id store =
       (Success 200 (Some "Mood log deleted successfully") tt, store') /\
     (forall d, In d store' <-> In d store /\ d <> moodLog) /\
     (forall who, MoodRoutes.getMood who id store' =
                  Failure 404 "Mood log not found" [])) /\
  (MoodLog.user moodLog <> uid ->
   MoodRoutes.deleteMood uid id store =
   (Failure 403 "Access denied. You can only delete your own mood logs" [],
    store)).
Proof.
  intros Hnd Hf. pose proof (find_by_id_Some _ _ _ _ Hf) as [Hin Hid].
  unfold MoodRoutes.deleteMood. rewrite Hf. split.
  - intros ->. rewrite String.eqb_refl. simpl. eexists. split; [done|]. split.
    + intros d. rewrite delete_doc_In by done. split.
      * intros [Hd Hk]. split; [done|]. congruence.
      * intros [Hd Hne]. split; [done|]. intros Hk. apply Hne.
        pose proof (find_by_id_NoDup MoodLog._id d store Hnd Hd) as Hfd.
        unfold MoodLog.findById in Hf. rewrite Hk in Hfd. congruence.
    + intros who. unfold MoodRoutes.getMood, MoodLog.findById.
      assert (find_by_id MoodLog._id id (delete_doc MoodLog._id id store) = None)
        as ->; [|done].
      apply find_by_id_None. by apply delete_doc_keys.
  - intros Hne. by rewrite (eqb_neq_false _ _ Hne).
Qed.

Lemma deleteMood_removes_witness :
  MoodRoutes.deleteMood "u1" "m2" Examples.moodLogs =
    (Success 200 (Some "Mood log deleted successfully") tt,
     [Examples.moodLog1; Examples.moodLog3]) /\
  MoodRoutes.deleteMood "u2" "m2" Examples.moodLogs =
    (Failure 403 "Access denied. You can only delete your own mood logs" [],
     Examples.moodLogs).
Proof.
  destruct (deleteMood_removes "u1" "m2" Examples.moodLogs Examples.moodLog2)
    as [Hown _].
  { repeat constructor; simpl; intuition discriminate. }
  { reflexivity. }
  destruct (deleteMood_removes "u2" "m2" Examples.moodLogs Examples.moodLog2)
    as [_ Hother].
  { repeat constructor; simpl; intuition discriminate. }
  { reflexivity. }
  destruct (Hown eq_refl) as (store' & Hr & _).
  split; [vm_compute; reflexivity|]. apply Hother. discriminate.
Defined.

(** ** Mood statistics *)

Section Grouping.
Context {A K : Type} `{EqDecision K} (key : A -> K).

Lemma distinct_keys_In (x : K) l : In x (MoodRoutes.distinct_keys l) <-> In x l.
Proof.
  induction l as [|y l IH]; simpl; [done|].
  rewrite filter_In, IH, negb_true_iff, bool_decide_eq_false.
  destruct (decide (x = y)) as [->|Hne]; [tauto|]. split.
  - intros [->|[? _]]; [done|by right].
  - intros [->|?]; [done|right; done].
Qed.

Lemma distinct_keys_NoDup (l : list K) : List.NoDup (MoodRoutes.distinct_keys l).
Proof.
  induction l as [|y l IH]; simpl; [constructor|].
  constructor; [|by apply List.NoDup_filter].
  rewrite filter_In, negb_true_iff, bool_decide_eq_false. tauto.
Qed.

Lemma key_indicator_sum (x : K) ks :
  List.NoDup ks -> In x ks ->
  MoodLog.sumZ (map (fun k => if bool_decide (x = k) then 1 else 0) ks) = 1.
Proof.
  induction 1 as [|k ks Hnin Hnd IH]; simpl; [done|].
  intros [->|Hin].
  - rewrite bool_decide_eq_true_2 by done.
    assert (MoodLog.sumZ
              (map (fun k => if bool_decide (x = k) then 1 else 0) ks) = 0)
      as ->; [|done].
    clear IH Hnd. induction ks as [|k ks IHk]; simpl; [done|].
    rewrite bool_decide_eq_false_2, IHk; [done| |].
    + intros Hin. apply Hnin. by right.
    + intros ->. apply Hnin. by left.
  - rewrite bool_decide_eq_false_2, IH; [done|done|].
    intros ->. done.
Qed.

(** The groups of a [$group] partition the documents it is given. *)
Lemma members_sizes_sum (docs : list A) :
  MoodLog.sumZ
    (map (fun k => Z.of_nat (length (MoodRoutes.members key k docs)))
         (MoodRoutes.distinct_keys (map key docs)))
  = Z.of_nat (length docs).
Proof.
  assert (forall ks, List.NoDup ks -> (forall d, In d docs -> In (key d) ks) ->
            MoodLog.sumZ
              (map (fun k => Z.of_nat (length (MoodRoutes.members key k docs))) ks)
            = Z.of_nat (length docs)) as Hgen.
  { intros ks Hnd. induction docs as [|d ds IH]; intros Hall.
    - clear. induction ks as [|k ks IHk]; simpl in *; [done|]. by rewrite IHk.
    - rewrite (map_ext _
        (fun k => Z.of_nat (length (MoodRoutes.members key k ds))
                  + (if bool_decide (key d = k) then 1 else 0))).
      2:{ intros k. unfold MoodRoutes.members. simpl.
          destruct (bool_decide (key d = k)); simpl; lia. }
      rewrite sumZ_map_add, key_indicator_sum by (try done; apply Hall; by left).
      rewrite IH by (intros; apply Hall; by right). simpl length. lia. }
  apply Hgen; [apply distinct_keys_NoDup|].
  intros d Hd. apply distinct_keys_In. by apply in_map.
Qed.

End Grouping.

Lemma maxZ_bounds x l :
  x <= MoodRoutes.maxZ x l /\ forall y, In y l -> y <= MoodRoutes.maxZ x l.
Proof.
  induction l as [|z l [IH1 IH2]]; simpl; [split; [lia|tauto]|].
  split; [lia|]. intros y [->|Hy]; [lia|]. specialize (IH2 y Hy). lia.
Qed.

Lemma minZ_bounds x l :
  MoodRoutes.minZ x l <= x /\ forall y, In y l -> MoodRoutes.minZ x l <= y.
Proof.
  induction l as [|z l [IH1 IH2]]; simpl; [split; [lia|tauto]|].
  split; [lia|]. intros y [->|Hy]; [lia|]. specialize (IH2 y Hy). lia.
Qed.

(** X4: the four aggregations of the statistics route agree: the overview's
    [totalEntries] is the number of the caller's logs in the window, and the
    counts of the mood distribution, of the detection method statistics and
    of the time-of-day patterns each add up to it; every pattern lists as
    many moods as it counts; [lowestIntensity] and [highestIntensity] bound
    the intensity of every log of the window; an empty window is answered by
    the all-zero overview and empty tables. *)
Theorem stats_consistent now uid days store :
  Paging.optional_int 1 (Some 365) days = true ->
  let window := in_window now uid (default 30 days) store in
  exists st,
    MoodRoutes.statsRoute now uid days store = Success 200 None st /\
    MoodRoutes.totalEntries (MoodRoutes.overview st) = Z.of_nat (length window) /\
    MoodLog.sumZ (map MoodLog.count (MoodRoutes.moodDistribution st))
      = Z.of_nat (length window) /\
    MoodLog.sumZ (map MoodRoutes.ms_count (MoodRoutes.detectionMethodStats st))
      = Z.of_nat (length window) /\
    MoodLog.sumZ (map MoodRoutes.tp_count (MoodRoutes.timePatterns st))
      = Z.of_nat (length window) /\
    Forall (fun tp => Z.of_nat (length (MoodRoutes.tp_commonMoods tp))
                      = MoodRoutes.tp_count tp)
           (MoodRoutes.timePatterns st) /\
    (forall d, In d window ->
       MoodRoutes.lowestIntensity (MoodRoutes.overview st) <= MoodLog.intensity d
       <= MoodRoutes.highestIntensity (MoodRoutes.overview st)) /\
    (window = [] ->
       MoodRoutes.overview st = MoodRoutes.mkOverview 0 0 None 0 0 [] [] 0 /\
       MoodRoutes.moodDistribution st = [] /\
       MoodRoutes.detectionMethodStats st = [] /\
       MoodRoutes.timePatterns st = []).
Proof.
  intros Hdays window. eexists. split.
  { unfold MoodRoutes.statsRoute. rewrite Hdays. simpl. reflexivity. }
  fold (in_window now uid (default 30 days) store). fold window. simpl.
  split.
  { destruct window; simpl; [done|]. done. }
  split.
  { apply (frequencyPipeline_counts now uid (default 30 days) store). }
  split.
  { rewrite (sumZ_perm _ (map MoodRoutes.ms_count
               (map (MoodRoutes.method_stat window)
                  (MoodRoutes.distinct_keys
                     (map MoodLog.detectionMethod window))))).
    2:{ apply Permutation_map, sort_by_perm. }
    rewrite map_map. simpl. apply members_sizes_sum. }
  split.
  { rewrite map_map. simpl. apply (members_sizes_sum MoodRoutes.time_of). }
  split.
  { apply List.Forall_forall. intros tp Htp.
    apply in_map_iff in Htp as (k & <- & _). simpl. by rewrite length_map. }
  split.
  { intros d Hd. destruct window as [|first rest] eqn:Hw; [destruct Hd|].
    simpl.
    pose proof (maxZ_bounds (MoodLog.intensity first)
                  (MoodLog.intensity first :: map MoodLog.intensity rest))
      as [_ Hmax].
    pose proof (minZ_bounds (MoodLog.intensity first)
                  (MoodLog.intensity first :: map MoodLog.intensity rest))
      as [_ Hmin].
    assert (In (MoodLog.intensity d)
              (MoodLog.intensity first :: map MoodLog.intensity rest)) as Hin.
    { destruct Hd as [->|Hd]; [by left|right; by apply in_map]. }
    split; [by apply Hmin|by apply Hmax]. }
  intros Hw. rewrite Hw. done.
Qed.

Lemma stats_consistent_witness :
  exists st,
    MoodRoutes.statsRoute Examples.twoPM "u1" (Some 30) Examples.moodLogs
      = Success 200 None st /\
    MoodRoutes.totalEntries (MoodRoutes.overview st) = 2 /\
    MoodLog.sumZ (map MoodRoutes.tp_count (MoodRoutes.timePatterns st)) = 2.
Proof.
  destruct (stats_consistent Examples.twoPM "u1" (Some 30) Examples.moodLogs
              eq_refl) as (st & Hr & Ht & _ & _ & Hp & _).
  exists st. split; [exact Hr|]. rewrite Ht, Hp. split; reflexivity.
Defined.

(** ** Songs *)

(** X5: whatever its body carries, PUT /api/songs/:id leaves every song in
    its place with its [_id], [uploadedBy], [filePath], [duration],
    [coverImage], [playCount], [likes] and [createdAt], and every song other
    than the addressed one wholly as it was; an accepted update returns the
    caller's own song, valid by the schema and stamped with the time of the
    call. *)
Theorem updateSong_frame now uid id b store :
  let r := Song.updateSong now uid id b store in
  Forall2 (fun s s' => song_kept s s' /\ (Song._id s <> id -> s' = s))
          store (snd r) /\
  (forall st msg s', fst r = Success st msg s' ->
     In s' (snd r) /\ Song._id s' = id /\ Song.uploadedBy s' = uid /\
     Song.updatedAt s' = now /\ Song.schema_valid s' = true /\
     Song.findById id (snd r) = Some s').
Proof.
  assert (Forall2 (fun s s' => song_kept s s' /\ (Song._id s <> id -> s' = s))
            store store) as Hrefl.
  { apply Forall2_same_length_lookup_2; [done|]. intros i a c Ha Hc.
    assert (a = c) as -> by congruence. split; [repeat split|done]. }
  unfold Song.updateSong.
  destruct (Song.validate_update b); simpl; [|split; [done|discriminate]].
  destruct (Song.findById id store) as [m|] eqn:Hf; simpl;
    [|split; [done|discriminate]].
  destruct (String.eqb (Song.uploadedBy m) uid) eqn:Hu; simpl;
    [|split; [done|discriminate]].
  apply String.eqb_eq in Hu.
  pose proof (find_by_id_Some _ _ _ _ Hf) as [Hin Hid].
  unfold Song.save.
  set (d := Song.pre_save now (Song.apply_updates b m)).
  assert (song_kept m d) as Hw by (repeat split).
  destruct (Song.schema_valid d) eqn:Hvalid; simpl;
    [|split; [done|discriminate]].
  destruct (replace_doc Song._id d store) as [store'|] eqn:Hr; simpl;
    [|split; [done|discriminate]].
  assert (Song._id d = id) as Hdid by done.
  unfold Song.findById in Hf. rewrite <- Hdid in Hf.
  pose proof (replace_doc_first _ _ _ _ _ Hf Hr) as HF.
  split.
  - eapply Forall2_impl; [exact HF|]. intros x x' [->|[-> ->]].
    + split; [repeat split|done].
    + split; [done|]. intros Hne. by destruct Hne.
  - intros st msg s' [= _ _ <-]. repeat split; try done.
    + eapply replace_doc_In; eauto.
    + unfold Song.findById. rewrite <- Hdid.
      by apply (find_by_id_replace_doc Song._id d store).
Qed.

Lemma updateSong_frame_witness :
  exists s' store',
    Song.updateSong 7000 "u1" "s3" MoreExamples.retitle Examples.songs =
      (Success 200 (Some "Song updated successfully") s', store') /\
    Song.title s' = "New title" /\ Song.isPublic s' = false /\
    Song.playCount s' = 3 /\ Song.updatedAt s' = 7000.
Proof.
  eexists _, _. split; [vm_compute; reflexivity|].
  split; [reflexivity|]. split; [reflexivity|]. split; [reflexivity|].
  refine (proj1 (proj2 (proj2 (proj2
    (proj2 (updateSong_frame 7000 "u1" "s3" MoreExamples.retitle Examples.songs)
       200 (Some "Song updated successfully") _ _))))).
  vm_compute. reflexivity.
Defined.

(** X6: the uploader's delete removes the song and no other, removes its
    audio file from the disk and no other file, and the song cannot be read
    afterwards. *)
Theorem deleteSong_cleans uid id store files song :
  List.NoDup (map Song._id store) ->
  Song.findById id store = Some song ->
  Song.uploadedBy song = uid ->
  exists store' files',
    Song.deleteSong uid id store files =
      (Success 200 (Some "Song deleted successfully") tt, store', files') /\
    (forall s, In s store' <-> In s store /\ s <> song) /\
    (forall f, In f files' <-> In f files /\ f <> Song.filePath song) /\
    (forall who, Song.getSong who id store' = Failure 404 "Song not found" []).
Proof.
  intros Hnd Hf Hu. pose proof (find_by_id_Some _ _ _ _ Hf) as [Hin Hid].
  unfold Song.deleteSong. rewrite Hf, Hu, String.eqb_refl. simpl.
  eexists _, _. split; [done|]. split; [|split].
  - intros s. rewrite delete_doc_In by done. split.
    + intros [Hs Hk]. split; [done|]. congruence.
    + intros [Hs Hne]. split; [done|]. intros Hk. apply Hne.
      pose proof (find_by_id_NoDup Song._id s store Hnd Hs) as Hfs.
      unfold Song.findById in Hf. rewrite Hk in Hfs. congruence.
  - intros f. rewrite filter_In, negb_true_iff, String.eqb_neq. tauto.
  - intros who. unfold Song.getSong, Song.findById.
    assert (find_by_id Song._id id (delete_doc Song._id id store) = None)
      as ->; [|done].
    apply find_by_id_None. by apply delete_doc_keys.
Qed.

Lemma deleteSong_cleans_witness :
  exists store' files',
    Song.deleteSong "u1" "s3" Examples.songs ["uploads/a.mp3"; "uploads/b.mp3"] =
      (Success 200 (Some "Song deleted successfully") tt, store', files') /\
    files' = ["uploads/b.mp3"] /\ length store' = 4%nat.
Proof.
  destruct (deleteSong_cleans "u1" "s3" Examples.songs
              ["uploads/a.mp3"; "uploads/b.mp3"]
              (Examples.song "s3" "u1" false 3 10 5))
    as (store' & files' & Hr & _).
  { repeat constructor; simpl; intuition discriminate. }
  { reflexivity. }
  { reflexivity. }
  exists store', files'. split; [exact Hr|].
  vm_compute in Hr. injection Hr as <- <-. split; reflexivity.
Defined.

Lemma by_popularity_spec a b :
  Song.by_popularity a b = true <-> ranked_before a b.
Proof.
  unfold Song.by_popularity, ranked_before.
  destruct (Song.playCount a =? Song.playCount b) eqn:E1.
  - apply Z.eqb_eq in E1.
    destruct (Song.likes a =? Song.likes b) eqn:E2.
    + apply Z.eqb_eq in E2. rewrite Z.leb_le. lia.
    + apply Z.eqb_neq in E2. rewrite Z.ltb_lt. lia.
  - apply Z.eqb_neq in E1. rewrite Z.ltb_lt. lia.
Qed.

(** X7: the songs a recommendation returns are at most [limit] (1..50, 20 by
    default), in rank order (plays, then likes, then recency), without
    repetition, and each can be fetched by the caller through
    GET /api/songs/:id. *)
Theorem recommendations_ranked_readable uid q store :
  List.NoDup (map Song._id store) ->
  Song.validate_recommend q = [] ->
  exists songs,
    Song.recommendSongs uid q store = Success 200 None songs /\
    Z.of_nat (length songs) <= default 20 (Song.q_limit q) <= 50 /\
    StronglySorted ranked_before songs /\
    List.NoDup (map Song._id songs) /\
    (forall s, In s songs -> Song.getSong uid (Song._id s) store
                             = Success 200 None s).
Proof.
  intros Hnd Hv.
  pose proof (validate_recommend_ok q Hv) as (_ & _ & _ & Hl).
  eexists. split; [unfold Song.recommendSongs; by rewrite Hv|].
  set (matched := List.filter (Song.recommend_filter uid q) store).
  assert (1 <= default 20 (Song.q_limit q) <= 50) as Hlimit.
  { destruct (Song.q_limit q) as [n|]; simpl in *; [|lia].
    apply andb_true_iff in Hl. lia. }
  assert (StronglySorted ranked_before (sort_by Song.by_popularity matched))
    as Hsorted.
  { eapply StronglySorted_weaken;
      [|apply (sort_by_sorted Song.by_popularity)].
    - intros a b Hab. by apply by_popularity_spec.
    - intros a b Hab. apply by_popularity_spec.
      assert (~ ranked_before a b) as Hn.
      { intros Hc. apply by_popularity_spec in Hc. congruence. }
      unfold ranked_before in *. lia.
    - intros a b c Hab Hbc. apply by_popularity_spec in Hab, Hbc.
      apply by_popularity_spec. unfold ranked_before in *. lia. }
  assert (List.NoDup (map Song._id (sort_by Song.by_popularity matched)))
    as Hnd'.
  { eapply Permutation_NoDup.
    { apply Permutation_map. symmetry. apply sort_by_perm. }
    unfold matched. clear -Hnd. induction store as [|x rest IH]; simpl;
      [constructor|].
    inversion Hnd as [|? ? Hnin Hnd']. subst.
    destruct (Song.recommend_filter uid q x); simpl; [|by apply IH].
    constructor; [|by apply IH]. intros Hin. apply Hnin.
    apply in_map_iff in Hin as (y & Hy & Hin). apply filter_In in Hin as [Hin _].
    rewrite <- Hy. by apply in_map. }
  split; [split; [|lia]|].
  { rewrite length_take. lia. }
  split.
  { revert Hsorted. generalize (Z.to_nat (default 20 (Song.q_limit q))).
    generalize (sort_by Song.by_popularity matched). clear.
    intros l n Hs. revert n. induction Hs as [|a l Hs IH Hall]; intros [|n];
      simpl; try constructor; [apply IH|].
    apply List.Forall_forall. intros x Hx. apply In_limit in Hx.
    rewrite List.Forall_forall in Hall. by apply Hall. }
  split.
  { revert Hnd'. generalize (Z.to_nat (default 20 (Song.q_limit q))).
    generalize (sort_by Song.by_popularity matched). clear.
    intros l n Hs. revert n. induction l as [|a l IH]; intros [|n];
      simpl; try constructor.
    - inversion Hs as [|? ? Hnin _]. subst. intros Hin. apply Hnin.
      apply in_map_iff in Hin as (y & Hy & Hin). apply In_limit in Hin.
      rewrite <- Hy. by apply in_map.
    - inversion Hs. by apply IH. }
  intros s Hs. apply In_limit, sort_by_In, filter_In in Hs as [Hin Hf].
  unfold Song.recommend_filter in Hf.
  repeat (apply andb_true_iff in Hf as [Hf ?]).
  unfold Song.getSong, Song.findById.
  rewrite (find_by_id_NoDup Song._id s store Hnd Hin).
  unfold Song.visible_to in Hf.
  destruct (Song.isPublic s); simpl in *; [done|]. by rewrite Hf.
Qed.

Lemma recommendations_ranked_readable_witness :
  exists songs,
    Song.recommendSongs "u1" Examples.energy8 Examples.songs
      = Success 200 None songs /\
    map Song._id songs = ["s1"; "s5"; "s3"] /\
    Song.getSong "u1" "s3" Examples.songs
      = Success 200 None (Examples.song "s3" "u1" false 3 10 5).
Proof.
  destruct (recommendations_ranked_readable "u1" Examples.energy8 Examples.songs)
    as (songs & Hr & _ & _ & _ & Hget).
  { repeat constructor; simpl; intuition discriminate. }
  { reflexivity. }
  exists songs. split; [exact Hr|].
  vm_compute in Hr. injection Hr as <-. split; [reflexivity|].
  apply (Hget (Examples.song "s3" "u1" false 3 10 5)). simpl. tauto.
Defined.

(** ** Playlists *)

Lemma by_plays_likes_spec a b :
  Playlist.by_plays_likes a b = true <-> popular_before a b.
Proof.
  unfold Playlist.by_plays_likes, popular_before.
  destruct (Song.playCount a =? Song.playCount b) eqn:E1.
  - apply Z.eqb_eq in E1. rewrite Z.leb_le. lia.
  - apply Z.eqb_neq in E1. rewrite Z.ltb_lt. lia.
Qed.

Lemma StronglySorted_firstn {A} (R : A -> A -> Prop) n l :
  StronglySorted R l -> StronglySorted R (firstn n l).
Proof.
  intros Hs. revert n. induction Hs as [|a l Hs IH Hall]; intros [|n];
    simpl; try constructor; [apply IH|].
  apply List.Forall_forall. intros x Hx. apply In_limit in Hx.
  rewrite List.Forall_forall in Hall. by apply Hall.
Qed.

Lemma validate_generate_ok q :
  Playlist.validate_generate q = [] ->
  5 <= default 20 (Playlist.g_limit q) <= 50.
Proof.
  unfold Playlist.validate_generate. rewrite !app_nil, !check_nil.
  intros (_ & _ & _ & Hl). destruct (Playlist.g_limit q) as [n|]; simpl in *; [|lia].
  apply andb_true_iff in Hl. lia.
Qed.

(** X8: an auto-generated playlist holds between one and [limit] (5..50, 20
    by default) songs, the best ranked by plays and then likes of those that
    match, in rank order; when no more songs match than the limit allows it
    holds them all.  It is saved as a private, auto-generated playlist of the
    caller with the filters recorded.  When no song matches the answer is 404
    and nothing is saved. *)
Theorem autoGenerate_ranked newId uid q songStore store :
  Playlist.validate_generate q = [] ->
  let matching := List.filter (Playlist.songFilter uid q) songStore in
  let limit := default 20 (Playlist.g_limit q) in
  (matching = [] ->
   Playlist.autoGenerate newId uid q songStore store =
   (Failure 404 "No songs found matching the criteria" [], store)) /\
  (forall st msg g store',
     Playlist.autoGenerate newId uid q songStore store
       = (Success st msg g, store') ->
     exists found,
       Playlist.songs (Playlist.playlist g) = map Song._id found /\
       1 <= Z.of_nat (length found) <= limit /\ limit <= 50 /\
       StronglySorted popular_before found /\
       (forall s, In s found -> In s matching) /\
       (Z.of_nat (length matching) <= limit ->
        forall s, In s matching -> In s found) /\
       (forall s s', In s found -> In s' matching -> ~ In s' found ->
                     popular_before s s') /\
       Playlist.owner (Playlist.playlist g) = uid /\
       Playlist.isPublic (Playlist.playlist g) = false /\
       Playlist.isAutoGenerated (Playlist.playlist g) = true /\
       Playlist.generatedFor (Playlist.playlist g) =
         Some (Playlist.mkGeneratedFor (Playlist.g_mood q) (Playlist.g_tempo q)
                 (Playlist.g_genre q)) /\
       Playlist.name (Playlist.playlist g) = Playlist.playlistName q /\
       store' = (store ++ [Playlist.playlist g])%list).
Proof.
  intros Hv matching limit. pose proof (validate_generate_ok q Hv) as Hlimit.
  fold limit in Hlimit.
  unfold Playlist.autoGenerate. rewrite Hv. fold matching. fold limit.
  assert (StronglySorted popular_before (sort_by Playlist.by_plays_likes matching))
    as Hsorted.
  { eapply StronglySorted_weaken;
      [|apply (sort_by_sorted Playlist.by_plays_likes)].
    - intros a b Hab. by apply by_plays_likes_spec.
    - intros a b Hab. apply by_plays_likes_spec.
      assert (~ popular_before a b) as Hn.
      { intros Hc. apply by_plays_likes_spec in Hc. congruence. }
      unfold popular_before in *. lia.
    - intros a b c Hab Hbc. apply by_plays_likes_spec in Hab, Hbc.
      apply by_plays_likes_spec. unfold popular_before in *. lia. }
  split.
  { intros ->. simpl. by destruct (Z.to_nat limit). }
  intros st msg g store'.
  destruct (firstn (Z.to_nat limit) (sort_by Playlist.by_plays_likes matching))
    as [|s0 rest] eqn:Hfound; [discriminate|].
  unfold insert_doc. destruct (existsb _ store); [discriminate|].
  intros [= _ _ <- <-]. simpl. exists (s0 :: rest).
  split; [done|]. split.
  { assert (length (s0 :: rest) <= Z.to_nat limit)%nat
      by (rewrite <- Hfound, length_take; lia).
    simpl length in *. lia. }
  split; [lia|]. split.
  { rewrite <- Hfound. by apply StronglySorted_firstn. }
  split.
  { intros s Hs. rewrite <- Hfound in Hs. by apply In_limit, sort_by_In in Hs. }
  split.
  { intros Hlen s Hs. rewrite <- Hfound, firstn_all2.
    - by apply sort_by_In.
    - rewrite (Permutation_length (sort_by_perm _ _)). lia. }
  split; [|done].
  intros s s' Hs Hs' Hnot. rewrite <- Hfound in Hs, Hnot.
  apply (sort_by_In Playlist.by_plays_likes) in Hs'.
  revert Hs Hs' Hnot Hsorted. generalize (Z.to_nat limit).
  generalize (sort_by Playlist.by_plays_likes matching). clear.
  intros l n. revert n. induction l as [|a l IH]; intros [|n]; simpl; try tauto.
  intros [->|Hs] [->|Hs'] Hnot Hsorted; inversion Hsorted as [|? ? Hs2 Hall];
    subst.
  - destruct Hnot. by left.
  - rewrite List.Forall_forall in Hall. by apply Hall.
  - destruct Hnot. by left.
  - apply (IH n); try done. intros Hin. apply Hnot. by right.
Qed.

Lemma autoGenerate_ranked_witness :
  exists g store',
    Playlist.autoGenerate "p9" "u1" Examples.happy5 Examples.songs [] =
      (Success 200 (Some "Playlist auto-generated successfully") g, store') /\
    Playlist.songs (Playlist.playlist g) = ["s4"; "s1"; "s5"; "s3"] /\
    Playlist.isPublic (Playlist.playlist g) = false.
Proof.
  eexists _, _. split; [vm_compute; reflexivity|]. split; [reflexivity|].
  destruct (proj2 (autoGenerate_ranked "p9" "u1" Examples.happy5 Examples.songs
                     [] eq_refl) 200 _ _ _ eq_refl)
    as (found & _ & _ & _ & _ & _ & _ & _ & _ & Hpriv & _).
  exact Hpriv.
Defined.

(** X9: an auto-generated playlist can be read by the user it was generated
    for and by nobody else, and nobody can follow it. *)
Theorem autoGenerate_private newId uid q songStore store st msg g store' :
  Playlist.autoGenerate newId uid q songStore store = (Success st msg g, store') ->
  Playlist.getPlaylist uid newId store' = Success 200 None (Playlist.playlist g) /\
  (forall other, other <> uid ->
     Playlist.getPlaylist other newId store' =
     Failure 403 "Access denied to this playlist" []) /\
  (forall who,
     PlaylistRoutes.followPlaylist who newId store' =
     (Failure 403 "Cannot follow private playlists" [], store')) /\
  (forall who, Playlist.getPlaylist who newId store =
               Failure 404 "Playlist not found" []).
Proof.
  unfold Playlist.autoGenerate.
  destruct (Playlist.validate_generate q); [|discriminate].
  destruct (firstn _ _) as [|s0 rest]; [discriminate|].
  unfold insert_doc. simpl Playlist._id.
  destruct (existsb (has_id Playlist._id newId) store) eqn:Hfresh; [discriminate|].
  intros [= _ _ <- <-]. simpl Playlist.playlist.
  set (pl := Playlist.mk newId _ _ uid _ true _ false 0 [] [] None).
  assert (Playlist.findById newId (store ++ [pl]) = Some pl) as Hfind
    by (by apply find_by_id_app_fresh).
  unfold Playlist.getPlaylist, PlaylistRoutes.followPlaylist. rewrite Hfind.
  simpl. rewrite String.eqb_refl. split; [done|]. split.
  { intros other Hne. by rewrite (eqb_neq_false _ _ (not_eq_sym Hne)). }
  split; [done|].
  intros who. unfold Playlist.findById.
  assert (find_by_id Playlist._id newId store = None) as ->; [|done].
  apply find_by_id_None. intros Hin. apply in_map_iff in Hin as (x & Hx & Hin).
  assert (existsb (has_id Playlist._id newId) store = true); [|congruence].
  apply existsb_exists. exists x. split; [done|]. by apply has_id_spec.
Qed.

Lemma autoGenerate_private_witness :
  exists g store',
    Playlist.autoGenerate "p9" "u1" Examples.happy5 Examples.songs
      [Examples.privatePlaylist] =
      (Success 200 (Some "Playlist auto-generated successfully") g, store') /\
    Playlist.getPlaylist "u2" "p9" store' =
      Failure 403 "Access denied to this playlist" [].
Proof.
  eexists _, _. split; [vm_compute; reflexivity|].
  refine (proj1 (proj2
    (autoGenerate_private "p9" "u1" Examples.happy5 Examples.songs
       [Examples.privatePlaylist] 200 _ _ _ _)) "u2" _).
  - vm_compute. reflexivity.
  - discriminate.
Defined.

Lemma In_eqb uid (l : list ObjectId) :
  existsb (String.eqb uid) l = true <-> In uid l.
Proof.
  rewrite existsb_exists. split.
  - intros (x & Hx & He). apply String.eqb_eq in He. by subst.
  - intros Hin. exists uid. split; [done|apply String.eqb_refl].
Qed.

(** X10: a follow request on a public playlist toggles the caller: the caller
    is among the followers afterwards exactly when not before, every other
    follower stays, the rest of the playlist and every other playlist are
    untouched, and the answer tells the new state and the new number of
    followers.  A private playlist is refused and nothing changes. *)
Theorem follow_toggles uid id store playlist :
  Playlist.findById id store = Some playlist ->
  (Playlist.isPublic playlist = true ->
   exists msg data store' playlist',
     PlaylistRoutes.followPlaylist uid id store = (Success 200 msg data, store') /\
     Playlist.findById id store' = Some playlist' /\
     (In uid (Playlist.followers playlist') <-> ~ In uid (Playlist.followers playlist)) /\
     (forall other, other <> uid ->
        (In other (Playlist.followers playlist')
         <-> In other (Playlist.followers playlist))) /\
     (PlaylistRoutes.isFollowing data = true
      <-> In uid (Playlist.followers playlist')) /\
     PlaylistRoutes.followerCount data
       = Z.of_nat (length (Playlist.followers playlist')) /\
     playlist_kept playlist playlist' /\
     Forall2 (fun p p' => p' = p \/ (p = playlist /\ p' = playlist'))
             store store') /\
  (Playlist.isPublic playlist = false ->
   PlaylistRoutes.followPlaylist uid id store =
   (Failure 403 "Cannot follow private playlists" [], store)).
Proof.
  intros Hf. pose proof (find_by_id_Some _ _ _ _ Hf) as [_ Hid].
  unfold PlaylistRoutes.followPlaylist. rewrite Hf. split; [|by intros ->].
  intros ->. simpl.
  set (following := existsb (String.eqb uid) (Playlist.followers playlist)).
  set (followers :=
         if following then
           List.filter (fun followerId => negb (String.eqb followerId uid))
             (Playlist.followers playlist)
         else (Playlist.followers playlist ++ [uid])%list).
  set (pl' := PlaylistRoutes.set_followers followers playlist).
  assert (find_by_id Playlist._id (Playlist._id pl') store = Some playlist)
    as Hf' by (simpl; by rewrite Hid).
  destruct (replace_doc_found _ _ _ _ Hf') as [store' Hr]. rewrite Hr.
  eexists _, _, store', pl'. split; [done|].
  assert (In uid followers <-> ~ In uid (Playlist.followers playlist)) as Hme.
  { unfold followers. destruct following eqn:E; unfold following in E.
    - apply In_eqb in E. rewrite filter_In, negb_true_iff, String.eqb_neq. tauto.
    - assert (~ In uid (Playlist.followers playlist)) as Hn.
      { intros Hin. apply In_eqb in Hin. congruence. }
      rewrite in_app_iff. simpl. tauto. }
  split.
  { unfold Playlist.findById. rewrite <- Hid.
    apply (find_by_id_replace_doc Playlist._id pl' _ _ Hr). }
  split; [exact Hme|]. split.
  { intros other Hne. simpl. unfold followers. destruct following.
    - rewrite filter_In, negb_true_iff, String.eqb_neq. tauto.
    - rewrite in_app_iff. simpl. split; [intros [?|[?|[]]]; [done|congruence]|tauto]. }
  split.
  { simpl. rewrite negb_true_iff. rewrite Hme. unfold following.
    rewrite <- In_eqb. by destruct (existsb _ _). }
  split; [done|]. split; [repeat split|].
  by apply (replace_doc_first Playlist._id pl').
Qed.

Lemma follow_toggles_witness :
  PlaylistRoutes.followPlaylist "u1" "p2" [MoreExamples.publicPlaylist] =
    (Success 200 (Some "Playlist followed") (PlaylistRoutes.mkFollowed true 2),
     [PlaylistRoutes.set_followers ["u3"; "u1"] MoreExamples.publicPlaylist]) /\
  PlaylistRoutes.followPlaylist "u1" "p1" [Examples.privatePlaylist] =
    (Failure 403 "Cannot follow private playlists" [], [Examples.privatePlaylist]).
Proof.
  split; [vm_compute; reflexivity|].
  exact (proj2 (follow_toggles "u1" "p1" [Examples.privatePlaylist]
                  Examples.privatePlaylist eq_refl) eq_refl).
Defined.

Lemma filter_not_in (uid : ObjectId) l :
  ~ In uid l ->
  List.filter (fun followerId => negb (String.eqb followerId uid)) l = l.
Proof.
  induction l as [|x l IH]; simpl; [done|]. intros Hn.
  rewrite (eqb_neq_false x uid) by (intros ->; apply Hn; by left).
  simpl. rewrite IH; [done|]. intros Hin. apply Hn. by right.
Qed.

(** X11: following a public playlist and then unfollowing it puts the store
    back exactly as it was: the second request undoes the first. *)
Theorem follow_then_unfollow uid id store playlist :
  Playlist.findById id store = Some playlist ->
  Playlist.isPublic playlist = true ->
  ~ In uid (Playlist.followers playlist) ->
  exists store',
    PlaylistRoutes.followPlaylist uid id store =
      (Success 200 (Some "Playlist followed")
         (PlaylistRoutes.mkFollowed true
            (Z.of_nat (length (Playlist.followers playlist)) + 1)),
       store') /\
    PlaylistRoutes.followPlaylist uid id store' =
      (Success 200 (Some "Playlist unfollowed")
         (PlaylistRoutes.mkFollowed false
            (Z.of_nat (length (Playlist.followers playlist)))),
       store).
Proof.
  intros Hf Hpub Hnot. pose proof (find_by_id_Some _ _ _ _ Hf) as [_ Hid].
  assert (existsb (String.eqb uid) (Playlist.followers playlist) = false) as Hex.
  { destruct (existsb _ _) eqn:E; [|done]. apply In_eqb in E. done. }
  set (pl' := PlaylistRoutes.set_followers
                (Playlist.followers playlist ++ [uid])%list playlist).
  assert (find_by_id Playlist._id (Playlist._id pl') store = Some playlist)
    as Hf' by (simpl; by rewrite Hid).
  destruct (replace_doc_found _ _ _ _ Hf') as [store' Hr].
  exists store'. split.
  - unfold PlaylistRoutes.followPlaylist. rewrite Hf, Hpub, Hex. simpl.
    fold pl'. rewrite Hr. rewrite length_app. simpl.
    do 3 f_equal. lia.
  - unfold PlaylistRoutes.followPlaylist, Playlist.findById.
    pose proof (find_by_id_replace_doc Playlist._id pl' _ _ Hr) as Hfd.
    simpl in Hfd. rewrite Hid in Hfd. rewrite Hfd.
    simpl. rewrite Hpub. simpl.
    assert (existsb (String.eqb uid) (Playlist.followers playlist ++ [uid]) = true)
      as ->.
    { apply In_eqb, in_or_app. right. by left. }
    rewrite List.filter_app, filter_not_in by done. simpl.
    rewrite String.eqb_refl. simpl. rewrite app_nil_r.
    assert (PlaylistRoutes.set_followers (Playlist.followers playlist) pl'
            = playlist) as -> by (by destruct playlist).
    assert (replace_doc Playlist._id playlist store' = Some store) as ->; [|done].
    eapply replace_doc_undo; eauto.
Qed.

Lemma follow_then_unfollow_witness :
  exists store',
    PlaylistRoutes.followPlaylist "u1" "p2" [MoreExamples.publicPlaylist] =
      (Success 200 (Some "Playlist followed") (PlaylistRoutes.mkFollowed true 2),
       store') /\
    PlaylistRoutes.followPlaylist "u1" "p2" store' =
      (Success 200 (Some "Playlist unfollowed")
         (PlaylistRoutes.mkFollowed false 1),
       [MoreExamples.publicPlaylist]).
Proof.
  apply (follow_then_unfollow "u1" "p2" [MoreExamples.publicPlaylist]
           MoreExamples.publicPlaylist eq_refl eq_refl).
  simpl. intuition discriminate.
Defined.

(** ** Game sessions: identity and isolation *)

Lemma replace_doc_map {A B} (key : A -> ObjectId) (f : A -> B) d m store store' :
  List.NoDup (map key store) -> In m store -> key d = key m -> f d = f m ->
  replace_doc key d store = Some store' ->
  map f store' = map f store.
Proof.
  intros Hnd Hin Hk Hfm Hr.
  pose proof (find_by_id_NoDup key m store Hnd Hin) as Hf. rewrite <- Hk in Hf.
  pose proof (replace_doc_first key d m store store' Hf Hr) as HF.
  clear -HF Hfm.
  induction HF as [|x x' l l' Hx _ IH]; [done|]. simpl. rewrite IH.
  destruct Hx as [->|[-> ->]]; [done|]. by rewrite Hfm.
Qed.

Lemma NoDup_map_inj {A B} (f : A -> B) l x y :
  List.NoDup (map f l) -> In x l -> In y l -> f x = f y -> x = y.
Proof.
  induction l as [|z l IH]; simpl; [done|].
  intros Hnd. inversion Hnd as [|? ? Hnin Hnd']. subst.
  intros [->|Hx] [->|Hy] Hf; [done| | |by apply IH].
  - destruct Hnin. rewrite Hf. by apply in_map.
  - destruct Hnin. rewrite <- Hf. by apply in_map.
Qed.

Section SessionFacts.
Context `{GameSession.TextToNumber} {numbers : NumberText} {mongoose : Mongoose}.

Lemma startSession_distinct now newId uid gid b games store :
  sessions_distinct store ->
  sessions_distinct
    (snd (snd (GameSession.startSession now newId uid gid b games store))).
Proof.
  intros Hok. unfold GameSession.startSession.
  destruct (GameSession.validate_start b); [|done].
  destruct (Game.findById gid games) as [game|]; [|done].
  destruct (Game.isActive game); simpl; [|done].
  destruct (GameSession.insert_session _ store) as [store'|] eqn:Hins; [|done].
  assert (sessions_distinct store') as Hok'.
  { unfold GameSession.insert_session in Hins.
    destruct (_ && _) eqn:Hc in Hins; [|discriminate].
    apply andb_true_iff in Hc as [_ Hsid]. apply negb_true_iff in Hsid.
    apply insert_doc_fresh in Hins as [-> Hfresh].
    destruct Hok as [Hnd Hnd']. split; rewrite map_app; simpl.
    - apply List.NoDup_app; [done| |].
      + constructor; [intros []|constructor].
      + intros x Hx [<-|[]]. by apply Hfresh.
    - apply List.NoDup_app; [done| |].
      + constructor; [intros []|constructor].
      + intros x Hx [<-|[]]. apply in_map_iff in Hx as (y & Hy & Hin).
        assert (existsb (fun x => String.eqb (GameSession.sessionId x)
                  (GameSession.newSessionId uid (Game._id game) now)) store
                = true); [|simpl in Hsid; congruence].
        apply existsb_exists. exists y. split; [done|]. by apply String.eqb_eq. }
  by destruct (Game.incrementPlayCount now game games) as [[? ?]|].
Qed.

Lemma completeRoute_distinct now uid sid b store :
  sessions_distinct store ->
  sessions_distinct (snd (GameSession.completeRoute now uid sid b store)).
Proof.
  intros [Hnd Hnd']. unfold GameSession.completeRoute.
  destruct (GameSession.validate_complete b); [|done].
  destruct (GameSession.findSession sid uid store) as [s|] eqn:Hf; [|done].
  destruct (GameSession.completed s); [done|].
  destruct (replace_doc _ _ store) as [store'|] eqn:Hr; [|done].
  apply findSession_Some in Hf as (Hin & _). simpl. split.
  - by rewrite (replace_doc_keys _ _ _ _ Hr).
  - pose proof (fun Hk Hf =>
        replace_doc_map GameSession._id GameSession.sessionId _ s store store'
          Hnd Hin Hk Hf Hr) as Hm.
    by rewrite Hm.
Qed.

Lemma rateGame_distinct now uid gid b games store :
  sessions_distinct store ->
  sessions_distinct (snd (snd (GameSession.rateGame now uid gid b games store))).
Proof.
  intros [Hnd Hnd']. unfold GameSession.rateGame.
  destruct (GameSession.validate_rate b); [|done].
  destruct (Game.findById gid games) as [game|]; [|done].
  destruct (List.find _ store); [|done].
  destruct (Game.updateRating _ _ _ _) as [[game' games']|]; [|done].
  simpl. destruct (head _) as [s|] eqn:Hh; [|done].
  destruct (replace_doc _ _ store) as [store'|] eqn:Hr; [|done].
  assert (In s (sort_by GameSession.latest_completed_first
                  (List.filter (GameSession.played uid (Game._id game)) store)))
    as Hin by (destruct (sort_by _ _); [discriminate|injection Hh as ->; by left]).
  apply sort_by_In, filter_In in Hin as [Hin _]. simpl. split.
  - by rewrite (replace_doc_keys _ _ _ _ Hr).
  - pose proof (fun Hk Hf =>
        replace_doc_map GameSession._id GameSession.sessionId _ s store store'
          Hnd Hin Hk Hf Hr) as Hm.
    by rewrite Hm.
Qed.

Lemma steps_distinct st st' :
  rtc GameSession.step st st' ->
  sessions_distinct (snd st) -> sessions_distinct (snd st').
Proof.
  induction 1 as [|x y z Hstep _ IH]; [done|].
  intros Hx. apply IH. destruct Hstep; simpl in *.
  - by apply startSession_distinct.
  - by apply completeRoute_distinct.
  - by apply rateGame_distinct.
Qed.

Lemma reachable_distinct st :
  GameSession.reachable st -> sessions_distinct (snd st).
Proof.
  intros [games Hrtc]. apply (steps_distinct _ _ Hrtc). split; constructor.
Qed.

(** X12: a stored session is read through GET /sessions/:sessionId by its own
    user, who gets exactly that session; for every other user the session
    does not exist: reading it and completing it are answered by 404 and
    change nothing. *)
Theorem session_private games store s :
  GameSession.reachable (games, store) ->
  In s store ->
  GameRoutes.getSession (GameSession.user s) (GameSession.sessionId s) store
    = Success 200 None s /\
  (forall other, other <> GameSession.user s ->
     GameRoutes.getSession other (GameSession.sessionId s) store
       = Failure 404 "Game session not found" [] /\
     forall now b,
       GameSession.validate_complete b = [] ->
       GameSession.completeRoute now other (GameSession.sessionId s) b store
         = (Failure 404 "Game session not found" [], store)).
Proof.
  intros Hreach Hin. apply reachable_distinct in Hreach as [_ Hnd]. simpl in Hnd.
  assert (forall who x,
    GameSession.findSession (GameSession.sessionId s) who store = Some x ->
    x = s /\ who = GameSession.user s) as Huniq.
  { intros who x Hf. apply findSession_Some in Hf as (Hx & Hsid & Hu).
    assert (x = s) as -> by (by eapply NoDup_map_inj). done. }
  split.
  - unfold GameRoutes.getSession.
    destruct (GameSession.findSession _ _ store) as [x|] eqn:Hf.
    + by destruct (Huniq _ _ Hf) as [-> _].
    + exfalso. unfold GameSession.findSession in Hf.
      pose proof (find_none _ _ Hf s Hin) as Hn. simpl in Hn.
      by rewrite !String.eqb_refl in Hn.
  - intros other Hne.
    assert (GameSession.findSession (GameSession.sessionId s) other store = None)
      as Hnone.
    { destruct (GameSession.findSession _ _ store) as [x|] eqn:Hf; [|done].
      by destruct (Huniq _ _ Hf) as [_ ->]. }
    split.
    + unfold GameRoutes.getSession. by rewrite Hnone.
    + intros now b Hv. unfold GameSession.completeRoute. by rewrite Hv, Hnone.
Qed.

(** Each rule awards at most its own name, in the fixed order. *)
Lemma calculateAchievements_sublist s :
  sublist (GameSession.calculateAchievements s) awardable.
Proof.
  unfold GameSession.calculateAchievements, awardable.
  assert (forall ok name, sublist (GameSession.award ok name) [name]) as Ha.
  { intros [] name; simpl; [done|apply sublist_nil_l]. }
  apply (sublist_app _ ["first-play"] _
           ["perfect-score"; "quick-finish"; "mood-improver"; "high-scorer"]);
    [apply Ha|].
  apply (sublist_app _ ["perfect-score"] _
           ["quick-finish"; "mood-improver"; "high-scorer"]); [apply Ha|].
  apply (sublist_app _ ["quick-finish"] _ ["mood-improver"; "high-scorer"]);
    [apply Ha|].
  apply (sublist_app _ ["mood-improver"] _ ["high-scorer"]); apply Ha.
Qed.

(** X13: in every state the service reaches, the achievements of a session
    are a selection of first-play, perfect-score, quick-finish, mood-improver
    and high-scorer, each at most once and in this order; the streak-3 and
    streak-7 achievements of the schema are never awarded, and a session that
    is not completed has none. *)
Theorem achievements_awardable games store s :
  GameSession.reachable (games, store) ->
  In s store ->
  sublist (GameSession.achievements s) awardable /\
  List.NoDup (GameSession.achievements s) /\
  ~ In "streak-3" (GameSession.achievements s) /\
  ~ In "streak-7" (GameSession.achievements s) /\
  (GameSession.completed s = false -> GameSession.achievements s = []).
Proof.
  intros Hreach Hin. apply reachable_ok in Hreach as [HF _]. simpl in HF.
  rewrite List.Forall_forall in HF. destruct (HF s Hin) as (_ & Hn & Hc).
  assert (sublist (GameSession.achievements s) awardable) as Hsub.
  { destruct (GameSession.completed s).
    - destruct (Hc eq_refl) as [_ ->]. apply calculateAchievements_sublist.
    - destruct (Hn eq_refl) as (_ & -> & _). apply sublist_nil_l. }
  split; [done|]. split.
  { apply NoDup_ListNoDup. eapply sublist_NoDup; [|exact Hsub].
    unfold awardable. apply NoDup_ListNoDup.
    repeat constructor; simpl; intuition discriminate. }
  split.
  { intros Hs. apply list_elem_of_In in Hs.
    eapply sublist_subseteq in Hs; [|exact Hsub].
    apply list_elem_of_In in Hs. unfold awardable in Hs. simpl in Hs.
    intuition discriminate. }
  split.
  { intros Hs. apply list_elem_of_In in Hs.
    eapply sublist_subseteq in Hs; [|exact Hsub].
    apply list_elem_of_In in Hs. unfold awardable in Hs. simpl in Hs.
    intuition discriminate. }
  intros Hf. by destruct (Hn Hf) as (_ & -> & _).
Qed.

End SessionFacts.

Lemma session_private_witness :
  Forall (fun s =>
            GameRoutes.getSession "u1" (GameSession.sessionId s)
              (snd Examples.run5) = Success 200 None s /\
            GameRoutes.getSession "u2" (GameSession.sessionId s)
              (snd Examples.run5) = Failure 404 "Game session not found" [])
         (snd Examples.run5).
Proof.
  apply List.Forall_forall. intros s Hin.
  destruct (session_private (H := Examples.nan_text) (fst Examples.run5)
              (snd Examples.run5) s run5_reachable Hin) as [Hown Hother].
  assert (GameSession.user s = "u1") as Hu.
  { simpl in Hin. destruct Hin as [<-|[<-|[<-|[]]]]; reflexivity. }
  rewrite Hu in *. split; [exact Hown|].
  apply Hother. discriminate.
Defined.

Lemma achievements_awardable_witness :
  Forall (fun s => sublist (GameSession.achievements s) awardable /\
                   ~ In "streak-3" (GameSession.achievements s))
         (snd Examples.run5).
Proof.
  apply List.Forall_forall. intros s Hin.
  destruct (achievements_awardable (H := Examples.nan_text) (fst Examples.run5)
              (snd Examples.run5) s run5_reachable Hin) as (Hs & _ & Hn & _).
  split; [exact Hs|exact Hn].
Defined.

(** ** Starting a session *)

Section StartFacts.
Context `{GameSession.TextToNumber} {numbers : NumberText} {mongoose : Mongoose}.

(** X14: a session starts only on a game that GET /api/games/:id shows (stored
    and active).  A started session is appended as the only change to the
    sessions: it belongs to the caller and the game, is not completed, has no
    mood after, no score, no achievements and no mood improvement, carries a
    [sessionId] no other session has, and records as [isFirstPlay] whether the
    caller had no session of this game before; the game's play count goes up
    by one and no other game changes. *)
Theorem startSession_effect now newId uid gid b games store st msg data games' store' :
  GameSession.startSession now newId uid gid b games store
    = (Success st msg data, (games', store')) ->
  exists game game' s,
    GameRoutes.getGame gid games = Success 200 None game /\
    store' = (store ++ [s])%list /\
    GameSession._id s = newId /\ GameSession.user s = uid /\
    GameSession.game s = gid /\
    GameSession.sessionId s = GameSession.st_sessionId data /\
    GameSession.sessionId s = GameSession.newSessionId uid gid now /\
    (forall x, In x store -> GameSession.sessionId x <> GameSession.sessionId s) /\
    GameSession.completed s = false /\
    GameSession.moodAfter s = GameSession.mkMoodAfter None None /\
    GameSession.score s = 0 /\ GameSession.achievements s = [] /\
    GameSession.moodImprovement s = None /\
    Some (GameSession.intensity (GameSession.moodBefore s))
      = GameSession.sb_intensity b /\
    (GameSession.gameData s !! "isFirstPlay" = Some (JBool true) <->
     forall x, In x store ->
       ~ (GameSession.user x = uid /\ GameSession.game x = gid)) /\
    (GameSession.gameData s !! "isFirstPlay" = Some (JBool true) \/
     GameSession.gameData s !! "isFirstPlay" = Some (JBool false)) /\
    Game.findById gid games' = Some game' /\
    Game.playCount game' = Game.playCount game + 1 /\
    Forall2 (fun g g' => g' = g \/ (g = game /\ g' = game')) games games'.
Proof.
  unfold GameSession.startSession.
  destruct (GameSession.validate_start b) eqn:Hv; [|discriminate].
  destruct (validate_start_ok b Hv) as (m & i & Hm & Hi & Hr).
  destruct (Game.findById gid games) as [game|] eqn:Hg; [|discriminate].
  pose proof (find_by_id_Some _ _ _ _ Hg) as [_ Hgid].
  destruct (Game.isActive game) eqn:Hact; simpl; [|discriminate].
  destruct (GameSession.insert_session _ store) as [store1|] eqn:Hins;
    [|discriminate].
  unfold GameSession.insert_session in Hins.
  destruct (_ && _) eqn:Hc in Hins; [|discriminate].
  apply andb_true_iff in Hc as [_ Hsid]. apply negb_true_iff in Hsid.
  apply insert_doc_fresh in Hins as [-> _].
  unfold Game.incrementPlayCount.
  set (game' := Game.pre_save now _).
  assert (find_by_id Game._id (Game._id game') games = Some game) as Hf'
    by (simpl; by rewrite Hgid).
  destruct (replace_doc_found _ _ _ _ Hf') as [games1 Hrep]. rewrite Hrep.
  simpl. intros [= _ _ <- <- <-].
  eexists game, game', _. split.
  { unfold GameRoutes.getGame. by rewrite Hg, Hact. }
  split; [reflexivity|]. simpl. rewrite Hgid.
  do 5 (split; [done|]). split.
  { intros x Hx Heq.
    assert (existsb (fun x0 => String.eqb (GameSession.sessionId x0)
              (GameSession.newSessionId uid (Game._id game) now)) store = true)
      as Hex; [|simpl in Hsid; congruence].
    apply existsb_exists. exists x. split; [done|].
    apply String.eqb_eq. by rewrite Hgid. }
  do 5 (split; [done|]). split; [by rewrite Hi|].
  split.
  { rewrite lookup_insert_eq. unfold GameSession.countSessions. split.
    - intros [= Hz]. apply Z.eqb_eq in Hz. intros x Hx [Hu Hgm].
      assert (In x (List.filter
                (fun s => String.eqb (GameSession.user s) uid
                          && String.eqb (GameSession.game s) gid) store)) as Hin'.
      { apply filter_In. split; [done|]. by rewrite Hu, Hgm, !String.eqb_refl. }
      destruct (List.filter _ store); [destruct Hin'|simpl in Hz; lia].
    - intros Hnone. do 2 f_equal. apply Z.eqb_eq.
      destruct (List.filter _ store) as [|x rest] eqn:Hfl; [done|].
      assert (In x (List.filter
                (fun s => String.eqb (GameSession.user s) uid
                          && String.eqb (GameSession.game s) gid) store)) as Hin'
        by (rewrite Hfl; by left).
      apply filter_In in Hin' as [Hx Hp].
      apply andb_true_iff in Hp as [Hu Hgm]. apply String.eqb_eq in Hu, Hgm.
      by destruct (Hnone x Hx). }
  split.
  { rewrite lookup_insert_eq.
    destruct (GameSession.countSessions uid gid store =? 0); [by left|by right]. }
  split.
  { unfold Game.findById. rewrite <- Hgid.
    apply (find_by_id_replace_doc Game._id game' _ _ Hrep). }
  split; [done|].
  by apply (replace_doc_first Game._id game').
Qed.

End StartFacts.

Lemma startSession_effect_witness :
  exists s,
    snd Examples.run1 = [s] /\
    GameSession.sessionId s = "u1_g1_1000" /\
    GameSession.gameData s !! "isFirstPlay" = Some (JBool true) /\
    GameSession.completed s = false.
Proof.
  destruct (startSession_effect (mongoose := Examples.mongoose8) 1000 "gs1"
              "u1" "g1" Examples.startBody
              Examples.games [] 201 (Some "Game session started successfully")
              (GameSession.mkStarted "u1_g1_1000" "g1" "Breathe" "breathing"
                 "easy" [(1, "Inhale")] 5)
              (fst Examples.run1) (snd Examples.run1))
    as (game & game' & s & _ & Hstore & _ & _ & _ & _ & Hsid & _ & Hc & _ & _
        & _ & _ & _ & Hfirst & _).
  { vm_compute. reflexivity. }
  exists s. split; [exact Hstore|]. split; [rewrite Hsid; reflexivity|].
  split; [|exact Hc]. apply Hfirst. intros x [].
Defined.

(** ** Rating a game *)

Lemma validate_rate_ok b :
  GameSession.validate_rate b = [] ->
  exists given r,
    GameSession.rb_rating b = Some given /\ intOfScalar given = Some r /\
    1 <= r <= 5.
Proof.
  unfold GameSession.validate_rate. intros Hv.
  apply app_eq_nil in Hv as [Hr _]. rewrite game_check_nil in Hr.
  destruct (GameSession.rb_rating b) as [given|]; [|discriminate].
  simpl in Hr. destruct (intOfScalar given) as [r|] eqn:Hi; [|discriminate].
  exists given, r. split; [done|]. split; [done|].
  apply andb_true_iff in Hr. lia.
Qed.

(** A number that [isInt] lets through is the integer it is read as. *)
Lemma intOfScalar_Num q r : intOfScalar (Num q) = Some r -> (q == inject_Z r)%Q.
Proof.
  simpl. destruct (_ =? 0) eqn:Hm; [|discriminate]. intros [= <-].
  apply Z.eqb_eq in Hm. unfold Qeq. simpl.
  pose proof (Z.div_mod (Qnum q) (Zpos (Qden q)) ltac:(done)) as Hdm. lia.
Qed.

Lemma inject_Z_le_iff a b : (inject_Z a <= inject_Z b)%Q <-> a <= b.
Proof. by rewrite <- Zle_Qle. Qed.

(** The running average stays within the rating scale. *)
Lemma running_average_range (avg r : Q) (count : Z) :
  (0 <= avg <= 5)%Q -> 0 <= count -> (1 <= r <= 5)%Q ->
  (0 <= (avg * inject_Z count + r) / inject_Z (count + 1) <= 5)%Q.
Proof.
  intros [Ha1 Ha2] Hc [Hr1 Hr2].
  assert (0 < inject_Z (count + 1))%Q as Hpos.
  { change 0%Q with (inject_Z 0). rewrite <- Zlt_Qlt. lia. }
  assert (0 <= inject_Z count)%Q as Hcq.
  { change 0%Q with (inject_Z 0). apply inject_Z_le_iff. lia. }
  assert (inject_Z (count + 1) == inject_Z count + 1)%Q as Hinj
    by (rewrite inject_Z_plus; reflexivity).
  assert (0 <= avg * inject_Z count)%Q as Hm1 by (by apply Qmult_le_0_compat).
  assert (avg * inject_Z count <= 5 * inject_Z count)%Q as Hm2
    by (by apply Qmult_le_compat_r).
  split.
  - apply Qle_shift_div_l; [done|]. lra.
  - apply Qle_shift_div_r; [done|]. rewrite Hinj. lra.
Qed.

Section RateFacts.
Context {numbers : NumberText}.

Lemma updateRating_Some now given g games g' games' :
  Game.updateRating now given g games = Some (g', games') ->
  exists total,
    totalRating given g = Some total /\
    Game.averageRating g' = (total / inject_Z (Game.ratingCount g + 1))%Q /\
    Game.ratingCount g' = Game.ratingCount g + 1 /\
    (0 <= Game.averageRating g' <= 5)%Q /\
    Game._id g' = Game._id g /\ Game.playCount g' = Game.playCount g /\
    Game.isActive g' = Game.isActive g /\
    replace_doc Game._id g' games = Some games'.
Proof.
  unfold Game.updateRating. fold (totalRating given g).
  destruct (totalRating given g) as [total|]; [|discriminate].
  set (d := Game.pre_save now _).
  destruct (Qle_bool 0 (Game.averageRating d)
            && Qle_bool (Game.averageRating d) 5) eqn:Hvalid; [|discriminate].
  destruct (replace_doc Game._id d games) as [games1|] eqn:Hrep;
    [|discriminate].
  simpl. intros [= <- <-]. exists total. split; [done|].
  apply andb_true_iff in Hvalid as [H1 H2]. rewrite !Qle_bool_iff in *.
  repeat split; done.
Qed.

(** X15: when POST /api/games/:id/rate answers with a success, the rating of
    the body is read by [isInt] as an integer in 1..5; the game's
    [ratingCount] has gone up by one and its [averageRating] is within 0..5
    and is what the answer reports; it is the total divided by the new
    count, where the total is, when the body held a number, the old average
    times the old count plus the rating, and when it held a string, the
    number the old product followed by that string reads as; no other game
    and no other path of the game but [updatedAt] changes.
    Among the sessions exactly one is written: the caller's completed
    session of this game that was completed last, whose [rating] becomes the
    integer and whose [feedback] becomes the one of the body, or stays when
    the body holds none. *)
Theorem rateGame_average now uid gid b games store game st msg data games' store' :
  Game.findById gid games = Some game ->
  0 <= Game.ratingCount game ->
  List.NoDup (map GameSession._id store) ->
  GameSession.rateGame now uid gid b games store
    = (Success st msg data, (games', store')) ->
  exists game' given rating total s,
    GameSession.rb_rating b = Some given /\
    intOfScalar given = Some rating /\ 1 <= rating <= 5 /\
    Game.findById gid games' = Some game' /\
    Game.ratingCount game' = Game.ratingCount game + 1 /\
    (0 <= Game.averageRating game' <= 5)%Q /\
    (Game.averageRating game'
     == total / inject_Z (Game.ratingCount game'))%Q /\
    (forall r, given = Num r ->
       (total == Game.averageRating game * inject_Z (Game.ratingCount game)
                 + inject_Z rating)%Q) /\
    (forall t, given = Text t ->
       numberText
         (Game.averageRating game * inject_Z (Game.ratingCount game))%Q t
       = Some total) /\
    GameSession.r_averageRating data = Game.averageRating game' /\
    GameSession.r_ratingCount data = Game.ratingCount game' /\
    Game.playCount game' = Game.playCount game /\
    Game.isActive game' = Game.isActive game /\
    Forall2 (fun g g' => g' = g \/ (g = game /\ g' = game')) games games' /\
    In s store /\ GameSession.user s = uid /\ GameSession.game s = gid /\
    GameSession.completed s = true /\
    (forall x, In x store -> GameSession.played uid gid x = true ->
               default 0 (GameSession.completedAt x)
               <= default 0 (GameSession.completedAt s)) /\
    Forall2 (fun x x' => x' = x \/ (x = s /\ x' = GameSession.rate b s))
            store store' /\
    GameSession.rating (GameSession.rate b s) = Some rating /\
    (forall f, GameSession.rb_feedback b = Some f ->
               GameSession.feedback (GameSession.rate b s) = Some (trim f)) /\
    (GameSession.rb_feedback b = None ->
     GameSession.feedback (GameSession.rate b s) = GameSession.feedback s).
Proof.
  intros Hg Hcount Hnd. unfold GameSession.rateGame.
  destruct (GameSession.validate_rate b) eqn:Hv; [|discriminate].
  destruct (validate_rate_ok b Hv) as (given & r & Hgiven & Hr & Hrange).
  rewrite Hg. pose proof (find_by_id_Some _ _ _ _ Hg) as [_ Hgid].
  destruct (List.find (GameSession.played uid (Game._id game)) store)
    as [s0|] eqn:Hplayed; [|discriminate].
  rewrite Hgiven. simpl default.
  destruct (Game.updateRating now given game games) as [[game' games1]|]
    eqn:Hup; [|discriminate].
  apply updateRating_Some in Hup
    as (total & Htotal & Havg & Hcnt & Hin5 & Hid & Hplay & Hact & Hrep).
  rewrite Hgid in *.
  destruct (head _) as [s|] eqn:Hh.
  2:{ apply find_some in Hplayed as [Hin Hp].
      assert (In s0 (sort_by GameSession.latest_completed_first
                       (List.filter (GameSession.played uid gid) store)))
        as Hin' by (apply sort_by_In, filter_In; done).
      destruct (sort_by _ _); [done|discriminate]. }
  apply (head_sort_by_max (fun x => default 0 (GameSession.completedAt x)))
    in Hh as [Hin Hmax].
  apply filter_In in Hin as [Hin Hp].
  pose proof (find_by_id_NoDup GameSession._id s store Hnd Hin) as Hfs.
  destruct (replace_doc_found GameSession._id (GameSession.rate b s) s store
              Hfs) as [store1 Hrs].
  rewrite Hrs. simpl. intros [= _ _ <- <- <-].
  exists game', given, r, total, s.
  do 3 (split; [done|]). split.
  { unfold Game.findById. rewrite <- Hid.
    apply (find_by_id_replace_doc Game._id game' _ _ Hrep). }
  do 2 (split; [done|]). split; [by rewrite Havg, Hcnt|]. split.
  { intros q ->. simpl in Htotal. injection Htotal as <-.
    by rewrite (intOfScalar_Num _ _ Hr). }
  split; [by intros t ->|].
  do 4 (split; [done|]). split.
  { apply (replace_doc_first Game._id game'); [|done]. by rewrite Hid. }
  split; [done|].
  unfold GameSession.played in Hp.
  apply andb_true_iff in Hp as [Hp Hc]. apply andb_true_iff in Hp as [Hu Hgm].
  apply String.eqb_eq in Hu, Hgm.
  do 3 (split; [done|]). split.
  { intros x Hx Hpx. apply Hmax. by apply filter_In. }
  split.
  { by apply (replace_doc_first GameSession._id (GameSession.rate b s) s). }
  unfold GameSession.rate. simpl. rewrite Hgiven. simpl.
  split; [done|]. split; [by intros f ->|by intros ->].
Qed.

(** X16: a rating sent as a number cannot fail on a well-formed catalogue:
    when the body is valid and holds a number, the game exists with an
    average in 0..5 over a non-negative number of ratings, and the caller
    has completed a session of it, the route answers 200.  A rating sent as
    a string passes the same validation and is appended to the old total
    instead of added: when the text so made reads as more than 5 times the
    new count, the save of the game is rejected, the route answers 500 and
    nothing is written. *)
Theorem rateGame_accepts now uid gid b games store game s :
  GameSession.validate_rate b = [] ->
  Game.findById gid games = Some game ->
  (0 <= Game.averageRating game <= 5)%Q ->
  0 <= Game.ratingCount game ->
  In s store -> GameSession.user s = uid -> GameSession.game s = gid ->
  GameSession.completed s = true ->
  (forall r, GameSession.rb_rating b = Some (Num r) ->
     exists data st',
       GameSession.rateGame now uid gid b games store
         = (Success 200 (Some "Game rated successfully") data, st')) /\
  (forall t total,
     GameSession.rb_rating b = Some (Text t) ->
     numberText (Game.averageRating game * inject_Z (Game.ratingCount game))%Q t
       = Some total ->
     (5 * inject_Z (Game.ratingCount game + 1) < total)%Q ->
     GameSession.rateGame now uid gid b games store
       = (Failure 500 "Server error rating game" [], (games, store))).
Proof.
  intros Hv Hg Havg Hcount Hin Hu Hgm Hc. unfold GameSession.rateGame.
  rewrite Hv, Hg.
  destruct (validate_rate_ok b Hv) as (given & r & Hgiven & Hr & Hrange).
  pose proof (find_by_id_Some _ _ _ _ Hg) as [_ Hgid].
  destruct (List.find (GameSession.played uid (Game._id game)) store)
    as [s0|] eqn:Hplayed.
  2:{ pose proof (find_none _ _ Hplayed s Hin) as Hn.
      unfold GameSession.played in Hn.
      by rewrite Hu, Hgm, Hgid, Hc, !String.eqb_refl in Hn. }
  assert (0 < inject_Z (Game.ratingCount game + 1))%Q as Hpos.
  { change 0%Q with (inject_Z 0). rewrite <- Zlt_Qlt. lia. }
  split.
  - intros q Hq. rewrite Hq in Hgiven. injection Hgiven as <-.
    rewrite Hq. simpl default. unfold Game.updateRating.
    set (game' := Game.pre_save now _).
    pose proof (intOfScalar_Num _ _ Hr) as Hqr.
    assert (1 <= q <= 5)%Q as Hq15.
    { rewrite Hqr. split.
      - change 1%Q with (inject_Z 1). apply inject_Z_le_iff. lia.
      - change 5%Q with (inject_Z 5). apply inject_Z_le_iff. lia. }
    pose proof (running_average_range _ q _ Havg Hcount Hq15) as [H1 H2].
    assert (Qle_bool 0 (Game.averageRating game')
            && Qle_bool (Game.averageRating game') 5 = true) as ->.
    { apply andb_true_iff. by rewrite !Qle_bool_iff. }
    destruct (replace_doc_found Game._id game' game games) as [games1 ->].
    { simpl. by rewrite Hgid. }
    simpl. eauto.
  - intros t total Ht Htotal Hbig. rewrite Ht. simpl default.
    unfold Game.updateRating. rewrite Htotal.
    set (game' := Game.pre_save now _).
    assert (Qle_bool (Game.averageRating game') 5 = false) as ->;
      [|by rewrite andb_false_r].
    destruct (Qle_bool (Game.averageRating game') 5) eqn:Hle; [|done].
    apply Qle_bool_iff in Hle. simpl in Hle. exfalso.
    apply (Qlt_not_le _ _ Hbig).
    apply (Qmult_le_r _ _ (/ inject_Z (Game.ratingCount game + 1)));
      [by apply Qinv_lt_0_compat|].
    unfold Qdiv in Hle.
    assert (5 * inject_Z (Game.ratingCount game + 1)
            * / inject_Z (Game.ratingCount game + 1) == 5)%Q as ->; [|done].
    field. intros Heq. rewrite Heq in Hpos. by apply Qlt_irrefl in Hpos.
Qed.

(** X17: a user who has not completed a session of a game cannot rate it:
    the route answers 400 or 404 and neither collection changes; sessions
    of other users, of other games, or not completed do not count. *)
Theorem rateGame_requires_play now uid gid b games store :
  Forall (fun s => GameSession.user s = uid -> GameSession.game s = gid ->
                   GameSession.completed s = false) store ->
  exists st msg errors,
    GameSession.rateGame now uid gid b games store
      = (Failure st msg errors, (games, store)) /\ (st = 400 \/ st = 404).
Proof.
  intros Hnone. unfold GameSession.rateGame.
  destruct (GameSession.validate_rate b) eqn:Hv; [|by eauto 7].
  destruct (Game.findById gid games) as [game|] eqn:Hg; [|by eauto 7].
  pose proof (find_by_id_Some _ _ _ _ Hg) as [_ Hgid].
  destruct (List.find _ store) as [s0|] eqn:Hplayed; [|by eauto 7].
  apply find_some in Hplayed as [Hin Hp].
  unfold GameSession.played in Hp.
  apply andb_true_iff in Hp as [Hp Hc]. apply andb_true_iff in Hp as [Hu Hgm].
  apply String.eqb_eq in Hu, Hgm.
  rewrite List.Forall_forall in Hnone. rewrite (Hnone s0 Hin Hu) in Hc; [done|].
  by rewrite Hgm.
Qed.

End RateFacts.

Lemma rateGame_average_witness :
  exists game' s,
    Game.findById "g1"
      (fst (snd (GameSession.rateGame (numbers := Examples.appendDigits) 300000
                   "u1" "g1" MoreExamples.rateBody (fst Examples.run6)
                   (snd Examples.run6)))) = Some game' /\
    Game.ratingCount game' = 1 /\
    (Game.averageRating game' == 4)%Q /\
    In s (snd Examples.run6) /\ GameSession.completed s = true /\
    GameSession.feedback (GameSession.rate MoreExamples.rateBody s)
    = Some "calming".
Proof.
  assert (List.NoDup (map GameSession._id (snd Examples.run6))) as Hnd.
  { vm_compute. repeat constructor; simpl; intuition discriminate. }
  edestruct (rateGame_average (numbers := Examples.appendDigits) 300000 "u1"
               "g1" MoreExamples.rateBody (fst Examples.run6)
               (snd Examples.run6))
    as (game' & given & rating & total & s & Hgiven & Hr & _ & Hf & Hcount & _
        & Havg & Hnum & _ & _ & _ & _ & _ & _ & Hin & _ & _ & Hc & _ & _ & _
        & Hfb & _);
    [reflexivity|vm_compute; discriminate|exact Hnd|vm_compute; reflexivity|].
  exists game', s. split; [exact Hf|]. split; [exact Hcount|].
  injection Hgiven as <-. injection Hr as <-.
  split; [|split; [exact Hin|split; [exact Hc|]]].
  - rewrite Havg, (Hnum _ eq_refl), Hcount. reflexivity.
  - rewrite (Hfb _ eq_refl). reflexivity.
Defined.

Lemma rateGame_accepts_witness :
  (exists data st',
     GameSession.rateGame (numbers := Examples.appendDigits) 300000 "u1" "g1"
       MoreExamples.rateBody (fst Examples.run6) (snd Examples.run6)
     = (Success 200 (Some "Game rated successfully") data, st')) /\
  GameSession.rateGame (numbers := Examples.appendDigits) 300000 "u1" "g1"
    MoreExamples.textRateBody MoreExamples.ratedGames (snd Examples.run6)
  = (Failure 500 "Server error rating game" [],
     (MoreExamples.ratedGames, snd Examples.run6)).
Proof.
  split.
  - edestruct (rateGame_accepts (numbers := Examples.appendDigits) 300000
                 "u1" "g1" MoreExamples.rateBody (fst Examples.run6)
                 (snd Examples.run6)) as [Hnumber _];
      [reflexivity|reflexivity|split; vm_compute; discriminate
      |vm_compute; discriminate|left; reflexivity|reflexivity|reflexivity
      |reflexivity|].
    exact (Hnumber _ eq_refl).
  - edestruct (rateGame_accepts (numbers := Examples.appendDigits) 300000
                 "u1" "g1" MoreExamples.textRateBody MoreExamples.ratedGames
                 (snd Examples.run6)) as [_ Htext];
      [reflexivity|reflexivity|split; vm_compute; discriminate
      |vm_compute; discriminate|left; reflexivity|reflexivity|reflexivity
      |reflexivity|].
    apply (Htext "5" 55%Q eq_refl); [vm_compute; reflexivity|].
    vm_compute. reflexivity.
Defined.

Lemma rateGame_requires_play_witness :
  exists st msg errors,
    GameSession.rateGame (numbers := Examples.appendDigits) 2000 "u1" "g1"
      MoreExamples.rateBody (fst Examples.run1) (snd Examples.run1)
    = (Failure st msg errors, Examples.run1) /\ (st = 400 \/ st = 404).
Proof.
  apply (rateGame_requires_play (numbers := Examples.appendDigits) 2000 "u1"
           "g1" MoreExamples.rateBody (fst Examples.run1) (snd Examples.run1)).
  repeat constructor.
Defined.

(** ** The session history *)

Lemma validate_history_ok q :
  GameRoutes.validate_history q = [] <->
  Paging.optional_int 1 None (GameRoutes.h_page q) = true /\
  Paging.optional_int 1 (Some 50) (GameRoutes.h_limit q) = true /\
  match GameRoutes.h_gameId q with
  | Some g => GameRoutes.isMongoId g
  | None => true
  end = true /\
  match GameRoutes.h_completed q with
  | Some c => GameRoutes.isBoolean c
  | None => true
  end = true.
Proof.
  unfold GameRoutes.validate_history. rewrite !app_nil, !game_check_nil. tauto.
Qed.

Lemma newest_first_sorted l :
  StronglySorted
    (fun a b => GameSession.createdAt b <= GameSession.createdAt a)
    (sort_by GameRoutes.newest_first l).
Proof.
  eapply StronglySorted_weaken; [|apply sort_by_sorted].
  - intros a b Hab. unfold GameRoutes.newest_first in Hab. lia.
  - unfold GameRoutes.newest_first. intros a b Hab. lia.
  - unfold GameRoutes.newest_first. intros a b c Hab Hbc. lia.
Qed.

(** X18: the session history answers with a page of at most [limit] (1..50,
    20 by default) sessions of the caller, of the requested game if one is
    given; with [completed] given, the completed sessions for the text
    [true] and the others for every other accepted value, [1] included;
    [total] counts the matching sessions and [pages] is the least number of
    pages that holds them; the pages 1..[pages], laid end to end, are the
    matching sessions, newest first, and every later page is empty. *)
Theorem sessionHistory_paging uid q games store :
  GameRoutes.validate_history q = [] ->
  let limit := default 20 (GameRoutes.h_limit q) in
  let matched := List.filter (GameRoutes.history_filter uid q) store in
  exists data,
    GameRoutes.sessionHistory uid q games store = Success 200 None data /\
    1 <= limit <= 50 /\
    Z.of_nat (length (GameRoutes.sessions data)) <= limit /\
    (forall s, In s (GameRoutes.sessions data) ->
       In s store /\ GameSession.user s = uid /\
       (forall g, GameRoutes.h_gameId q = Some g ->
                  GameSession.game s = GameRoutes.castObjectId g) /\
       (forall c, GameRoutes.h_completed q = Some c ->
                  GameSession.completed s = String.eqb c "true")) /\
    Paging.total (GameRoutes.pagination data) = Z.of_nat (length matched) /\
    (Paging.pages (GameRoutes.pagination data) - 1) * limit
      < Z.of_nat (length matched)
      <= Paging.pages (GameRoutes.pagination data) * limit /\
    flat_map (fun p => GameRoutes.listed
                         (GameRoutes.sessionHistory uid
                            (GameRoutes.with_page (Z.of_nat p) q) games store))
             (seq 1 (Z.to_nat (Paging.pages (GameRoutes.pagination data))))
      = sort_by GameRoutes.newest_first matched /\
    sort_by GameRoutes.newest_first matched ≡ₚ matched /\
    StronglySorted
      (fun a b => GameSession.createdAt b <= GameSession.createdAt a)
      (sort_by GameRoutes.newest_first matched) /\
    (forall p, Paging.pages (GameRoutes.pagination data) < p ->
       GameRoutes.listed
         (GameRoutes.sessionHistory uid (GameRoutes.with_page p q) games store)
       = []).
Proof.
  intros Hv limit matched.
  pose proof (proj1 (validate_history_ok q) Hv) as (Hp & Hl & Hg & Hc).
  assert (1 <= limit <= 50) as Hlimit by (by apply limit_range).
  set (sorted := sort_by GameRoutes.newest_first matched).
  assert (forall p, 1 <= p ->
            GameRoutes.listed
              (GameRoutes.sessionHistory uid (GameRoutes.with_page p q) games
                 store)
            = Paging.page_of p limit sorted) as Hpage.
  { intros p Hp1. unfold GameRoutes.sessionHistory.
    rewrite (proj2 (validate_history_ok (GameRoutes.with_page p q))); [done|].
    simpl. repeat split; try done. apply andb_true_iff. split; [lia|done]. }
  set (page := default 1 (GameRoutes.h_page q)).
  exists (GameRoutes.mkHistory
            (Paging.page_of page limit sorted)
            (map (fun s => Game.findById (GameSession.game s) games)
               (Paging.page_of page limit sorted))
            (Paging.pagination page limit matched)).
  split; [unfold GameRoutes.sessionHistory; by rewrite Hv|].
  unfold Paging.pagination. simpl.
  split; [done|]. split; [apply page_of_length; lia|].
  split.
  { intros s Hin. apply page_of_In, sort_by_In, filter_In in Hin as [Hin Hf].
    unfold GameRoutes.history_filter in Hf.
    apply andb_true_iff in Hf as [Hf Hfc]. apply andb_true_iff in Hf as [Hu Hfg].
    apply String.eqb_eq in Hu. split; [done|]. split; [done|]. split.
    - intros g Hq. rewrite Hq in Hfg. by apply String.eqb_eq.
    - intros c Hq. rewrite Hq in Hfc. by apply Bool.eqb_prop. }
  split; [done|].
  pose proof (ceil_div_bounds (Z.of_nat (length matched)) limit ltac:(lia))
    as Hceil.
  assert (0 <= Paging.ceil_div (Z.of_nat (length matched)) limit) as Hnn
    by (apply ceil_div_nonneg; lia).
  split; [exact Hceil|].
  split.
  { rewrite <- seq_shift, flat_map_concat_map, map_map, <- flat_map_concat_map.
    rewrite (flat_map_ext _
      (fun k => firstn (Z.to_nat limit) (skipn (k * Z.to_nat limit) sorted))).
    - apply pages_cover; [lia|]. unfold sorted.
      rewrite (Permutation_length (sort_by_perm _ _)).
      apply Nat2Z.inj_le. rewrite Nat2Z.inj_mul, !Z2Nat.id by lia. lia.
    - intros k. rewrite Hpage by lia. apply page_of_nat. lia. }
  split; [apply sort_by_perm|]. split; [apply newest_first_sorted|].
  intros p Hp'. rewrite Hpage by lia. apply page_of_beyond; [lia|].
  unfold sorted. by rewrite (Permutation_length (sort_by_perm _ _)).
Qed.

Lemma sessionHistory_paging_witness :
  exists data,
    GameRoutes.sessionHistory "u1" MoreExamples.completedOne Examples.games
      (snd Examples.run5) = Success 200 None data /\
    map GameSession.sessionId (GameRoutes.sessions data) = ["u1_g1_200000"] /\
    Forall (fun s => GameSession.completed s = false) (GameRoutes.sessions data).
Proof.
  destruct (sessionHistory_paging "u1" MoreExamples.completedOne Examples.games
              (snd Examples.run5) eq_refl)
    as (data & Hr & _ & _ & Hs & _).
  exists data. split; [exact Hr|]. split.
  - vm_compute in Hr. injection Hr as <-. reflexivity.
  - apply List.Forall_forall. intros s Hin.
    destruct (Hs s Hin) as (_ & _ & _ & Hc). apply (Hc "1"). reflexivity.
Defined.

(** ** The statistics of a player *)

(** [Math.round] of a quotient of integers. *)
Lemma round_quotient a b :
  0 < b -> GameRoutes.round (inject_Z a / inject_Z b) = (2 * a + b) / (2 * b).
Proof.
  intros Hb. destruct b as [|p|p]; try lia.
  unfold GameRoutes.round, Qfloor, Qdiv, Qinv, Qmult, Qplus, inject_Z. simpl.
  f_equal; lia.
Qed.

Lemma round_nearest a b :
  0 < b ->
  2 * a - b < 2 * b * GameRoutes.round (inject_Z a / inject_Z b) <= 2 * a + b.
Proof.
  intros Hb. rewrite round_quotient by done.
  pose proof (Z.div_mod (2 * a + b) (2 * b) ltac:(lia)) as Hdm.
  pose proof (Z.mod_pos_bound (2 * a + b) (2 * b) ltac:(lia)) as Hm. lia.
Qed.

Lemma getUserGameHistory_In uid limit store s :
  In s (GameRoutes.getUserGameHistory uid limit store) ->
  In s store /\ GameSession.user s = uid.
Proof.
  unfold GameRoutes.getUserGameHistory. intros Hin.
  apply In_limit, sort_by_In, filter_In in Hin as [Hin Hu].
  by apply String.eqb_eq in Hu.
Qed.

Lemma filter_length_le {A} (P : A -> bool) l :
  (length (List.filter P l) <= length l)%nat.
Proof. induction l as [|x l IH]; simpl; [done|]. destruct (P x); simpl; lia. Qed.

Section PlayerStats.
Context {mongoose : Mongoose}.

(** X19: GET /api/games/stats/user first asks for the mood improvement
    statistics, whose static calls [mongoose.Types.ObjectId] without [new]:
    on a release that throws there the route answers 500.  On a release that
    casts, it answers 200 and the overview is taken over the 100 newest
    sessions of the caller, whatever [days] is: [completedSessions] is at
    most [totalSessions], which is at most 100; [completionRate] is their
    ratio in percent, within 0..100; [averageScore] is an integer nearest to
    the mean score; at most 10 recent sessions are listed, all of the
    caller, newest first; and a different [days] changes nothing of the
    overview, the achievement counts or the recent sessions. *)
Theorem userStats_overview now uid days games store :
  Paging.optional_int 1 (Some 365) days = true ->
  let history := GameRoutes.getUserGameHistory uid 100 store in
  (objectIdCallable = false ->
   GameRoutes.userStats now uid days games store
   = Failure 500 "Server error fetching user game statistics" []) /\
  (objectIdCallable = true ->
  exists data,
    GameRoutes.userStats now uid days games store = Success 200 None data /\
    let o := GameRoutes.u_overview data in
    GameRoutes.totalSessions o = Z.of_nat (length history) /\
    0 <= GameRoutes.completedSessions o <= GameRoutes.totalSessions o /\
    GameRoutes.totalSessions o <= 100 /\
    (0 <= GameRoutes.completionRate o <= 100)%Q /\
    (GameRoutes.completionRate o * inject_Z (GameRoutes.totalSessions o)
     == 100 * inject_Z (GameRoutes.completedSessions o))%Q /\
    (let total := GameRoutes.totalSessions o in
     let sum := MoodLog.sumZ (map GameSession.score history) in
     (0 < total ->
      2 * sum - total < 2 * total * GameRoutes.averageScore o <= 2 * sum + total)
     /\ (total = 0 -> GameRoutes.averageScore o = 0)) /\
    (length (GameRoutes.u_recentSessions data) <= 10)%nat /\
    (forall s, In s (GameRoutes.u_recentSessions data) ->
               In s store /\ GameSession.user s = uid) /\
    StronglySorted
      (fun a b => GameSession.createdAt b <= GameSession.createdAt a)
      (GameRoutes.u_recentSessions data) /\
    (forall now' days',
       Paging.optional_int 1 (Some 365) days' = true ->
       exists data',
         GameRoutes.userStats now' uid days' games store
           = Success 200 None data' /\
         GameRoutes.u_overview data' = GameRoutes.u_overview data /\
         GameRoutes.u_achievements data' = GameRoutes.u_achievements data /\
         GameRoutes.u_recentSessions data' = GameRoutes.u_recentSessions data)).
Proof.
  intros Hd history.
  unfold GameRoutes.userStats, GameRoutes.getMoodImprovementStats.
  rewrite Hd. simpl. split; intros Hcall; rewrite Hcall; [done|].
  eexists. split; [reflexivity|]. simpl. fold history.
  set (total := Z.of_nat (length history)).
  set (finished := Z.of_nat (length (List.filter GameSession.completed history))).
  assert (0 <= finished <= total) as Hdone.
  { unfold finished, total. pose proof (filter_length_le GameSession.completed history).
    lia. }
  assert (total <= 100) as Htotal.
  { unfold total, history, GameRoutes.getUserGameHistory.
    rewrite length_take. lia. }
  split; [done|]. split; [done|]. split; [done|].
  assert (0 <= inject_Z finished)%Q as Hdq
    by (change 0%Q with (inject_Z 0); apply inject_Z_le_iff; lia).
  assert (inject_Z finished <= inject_Z total)%Q as Hdt
    by (apply inject_Z_le_iff; lia).
  split.
  { destruct (0 <? total) eqn:Hpos; [|split; [apply Qle_refl|discriminate]].
    apply Z.ltb_lt in Hpos.
    assert (0 < inject_Z total)%Q as Htq
      by (change 0%Q with (inject_Z 0); rewrite <- Zlt_Qlt; lia).
    split.
    - apply Qmult_le_0_compat; [|discriminate].
      apply Qle_shift_div_l; [done|]. lra.
    - assert (inject_Z finished / inject_Z total <= 1)%Q as H1
        by (apply Qle_shift_div_r; [done|]; lra).
      lra. }
  split.
  { destruct (0 <? total) eqn:Hpos.
    - apply Z.ltb_lt in Hpos. field. intros Heq.
      unfold Qeq in Heq. simpl in Heq. lia.
    - apply Z.ltb_ge in Hpos. assert (total = 0) as Ht by lia.
      assert (finished = 0) as -> by lia. rewrite Ht. reflexivity. }
  split.
  { split.
    - intros Hpos. destruct (total =? 0) eqn:Hz; [lia|].
      by apply round_nearest.
    - intros ->. reflexivity. }
  split; [rewrite length_take; lia|]. split.
  { intros s Hin. apply In_limit in Hin.
    by apply getUserGameHistory_In in Hin. }
  split.
  { apply StronglySorted_firstn. unfold history, GameRoutes.getUserGameHistory.
    apply StronglySorted_firstn, newest_first_sorted. }
  intros now' days' Hd'. rewrite Hd'. eexists. split; [reflexivity|]. done.
Qed.

End PlayerStats.

Lemma userStats_overview_witness :
  exists data,
    GameRoutes.userStats (mongoose := Examples.mongoose6) 300000 "u1" (Some 7)
      Examples.games (snd Examples.run6) = Success 200 None data /\
    GameRoutes.totalSessions (GameRoutes.u_overview data) = 3 /\
    GameRoutes.averageScore (GameRoutes.u_overview data) = 67.
Proof.
  destruct (userStats_overview (mongoose := Examples.mongoose6) 300000 "u1"
              (Some 7) Examples.games (snd Examples.run6) eq_refl)
    as [_ Hruns].
  destruct (Hruns eq_refl)
    as (data & Hr & Htotal & _ & _ & _ & _ & [Havg _] & _).
  exists data. split; [exact Hr|]. split; [exact Htotal|].
  rewrite Htotal in Havg. vm_compute Z.of_nat in Havg.
  specialize (Havg eq_refl).
  change (MoodLog.sumZ _) with 201 in Havg. lia.
Defined.

(** The number of times [a] occurs in a list of names. *)
Lemma count_achievement_foldl (a : string) l counts :
  foldl (fun counts x => GameRoutes.count_achievement x counts) counts l !! a
  = if Z.of_nat (length (List.filter (String.eqb a) l)) =? 0 then counts !! a
    else Some (default 0 (counts !! a)
               + Z.of_nat (length (List.filter (String.eqb a) l))).
Proof.
  revert counts. induction l as [|x l IH]; intros counts; [done|].
  simpl foldl. rewrite IH. simpl List.filter.
  unfold GameRoutes.count_achievement.
  destruct (String.eqb a x) eqn:E; simpl length;
    set (k := length (List.filter (String.eqb a) l)).
  - apply String.eqb_eq in E. subst x. rewrite lookup_insert_eq. simpl default.
    destruct (Z.eqb_spec (Z.of_nat k) 0), (Z.eqb_spec (Z.of_nat (S k)) 0);
      try lia; f_equal; lia.
  - apply String.eqb_neq in E. by rewrite lookup_insert_ne.
Qed.

Lemma achievementCounts_flat history :
  GameRoutes.achievementCounts history
  = foldl (fun counts x => GameRoutes.count_achievement x counts) ∅
      (flat_map GameSession.achievements history).
Proof.
  unfold GameRoutes.achievementCounts. generalize (∅ : gmap string Z).
  induction history as [|s history IH]; intros counts; [done|].
  simpl. rewrite foldl_app. apply IH.
Qed.

(** X20: the achievement table of a player's statistics has an entry for
    exactly the achievements earned in the 100 newest sessions of the
    caller, and the entry of each is the number of times it was earned
    there. *)
Theorem userStats_achievements {mongoose : Mongoose} now uid days games store
    data a :
  GameRoutes.userStats now uid days games store = Success 200 None data ->
  let earned :=
    flat_map GameSession.achievements
      (GameRoutes.getUserGameHistory uid 100 store) in
  let n := Z.of_nat (length (List.filter (String.eqb a) earned)) in
  (In a earned -> GameRoutes.u_achievements data !! a = Some n /\ 0 < n) /\
  (~ In a earned -> GameRoutes.u_achievements data !! a = None).
Proof.
  unfold GameRoutes.userStats.
  destruct (GameSession.check _ _); [|discriminate].
  destruct (GameRoutes.getMoodImprovementStats _ _ _ _) as [stats|];
    [|discriminate].
  intros [= <-]. simpl. rewrite achievementCounts_flat, count_achievement_foldl.
  set (earned := flat_map _ _). rewrite lookup_empty. simpl.
  split.
  - intros Hin.
    assert (In a (List.filter (String.eqb a) earned)) as Hf
      by (apply filter_In; split; [done|apply String.eqb_refl]).
    destruct (List.filter _ earned); [done|]. simpl length.
    replace (Z.of_nat (S _) =? 0) with false by (symmetry; apply Z.eqb_neq; lia).
    split; [done|lia].
  - intros Hnin.
    destruct (List.filter (String.eqb a) earned) as [|x l] eqn:Hf; [done|].
    assert (In x (List.filter (String.eqb a) earned)) as Hx
      by (rewrite Hf; by left).
    apply filter_In in Hx as [Hx Hax]. apply String.eqb_eq in Hax. by subst.
Qed.

Lemma userStats_achievements_witness :
  exists data,
    GameRoutes.userStats (mongoose := Examples.mongoose6) 300000 "u1" None
      Examples.games (snd Examples.run6) = Success 200 None data /\
    GameRoutes.u_achievements data !! "perfect-score" = Some 2 /\
    GameRoutes.u_achievements data !! "streak-3" = None.
Proof.
  eexists. split; [reflexivity|]. split.
  - refine (proj1 (proj1 (userStats_achievements
                            (mongoose := Examples.mongoose6) 300000 "u1" None
                            Examples.games (snd Examples.run6) _
                            "perfect-score" eq_refl) _)).
    vm_compute. tauto.
  - refine (proj2 (userStats_achievements (mongoose := Examples.mongoose6)
                     300000 "u1" None Examples.games (snd Examples.run6) _
                     "streak-3" eq_refl) _).
    vm_compute. intuition discriminate.
Defined.

(** ** Mood improvement over the sessions the service produces *)

Lemma sumZ_bounds lo hi l :
  Forall (fun y => lo <= y <= hi) l ->
  lo * Z.of_nat (length l) <= MoodLog.sumZ l <= hi * Z.of_nat (length l).
Proof.
  induction 1 as [|y l Hy _ IH]; simpl MoodLog.sumZ; simpl length; [lia|].
  rewrite Nat2Z.inj_succ. lia.
Qed.

Lemma avgZ_bounds lo hi l :
  l <> [] -> Forall (fun y => lo <= y <= hi) l ->
  (inject_Z lo <= MoodRoutes.avgZ l <= inject_Z hi)%Q.
Proof.
  intros Hne Hall. pose proof (sumZ_bounds lo hi l Hall) as [H1 H2].
  assert (0 < Z.of_nat (length l)) as Hlen by (destruct l; [done|simpl; lia]).
  assert (0 < inject_Z (Z.of_nat (length l)))%Q as Hq
    by (change 0%Q with (inject_Z 0); by rewrite <- Zlt_Qlt).
  unfold MoodRoutes.avgZ. split.
  - apply Qle_shift_div_l; [done|]. rewrite <- inject_Z_mult.
    by apply inject_Z_le_iff.
  - apply Qle_shift_div_r; [done|]. rewrite <- inject_Z_mult.
    by apply inject_Z_le_iff.
Qed.

Lemma somes_all {A B} (f : A -> option B) (P : B -> Prop) l :
  Forall (fun x => exists y, f x = Some y /\ P y) l ->
  length (GameRoutes.somes (map f l)) = length l /\
  Forall P (GameRoutes.somes (map f l)).
Proof.
  induction 1 as [|x l (y & Hy & HP) _ [IH1 IH2]]; simpl; [done|].
  rewrite Hy. simpl. split; [by rewrite IH1|by constructor].
Qed.

Section Improvement.
Context `{GameSession.TextToNumber} {numbers : NumberText} {mongoose : Mongoose}.

Lemma session_ok_intensities s : session_ok s -> intensities_ok s.
Proof.
  intros (Hb & _ & Hdone). split; [done|]. intros Hc.
  by destruct (Hdone Hc) as [Hafter _].
Qed.

(** On a release whose [enum] validator rejects [null] no session is ever
    stored: the default of [moodAfter.mood] fails every start. *)
Lemma steps_empty st st' :
  enumAcceptsNull = false ->
  rtc GameSession.step st st' -> snd st = [] -> snd st' = [].
Proof.
  intros Hnull. induction 1 as [|st st1 st2 Hstep _ IH]; [done|].
  intros Hst. apply IH. destruct Hstep; simpl in *; subst store.
  - unfold GameSession.startSession.
    destruct (GameSession.validate_start b); [|done].
    destruct (Game.findById gid games) as [game|]; [|done].
    destruct (Game.isActive game); simpl; [|done].
    unfold GameSession.insert_session, GameSession.moodAfter_ok. simpl.
    by rewrite Hnull.
  - unfold GameSession.completeRoute.
    by destruct (GameSession.validate_complete b).
  - unfold GameSession.rateGame.
    destruct (GameSession.validate_rate b); [|done].
    by destruct (Game.findById gid games).
Qed.

(** X21: [getMoodImprovementStats] calls [mongoose.Types.ObjectId] without
    [new] and throws on every release that does not cast there.  On a
    release that casts, over stored sessions whose intensities are in 1..10
    it yields no record exactly when the user has no completed session in
    the window, and otherwise one record: [totalSessions] is the number of
    those sessions, [positiveImprovements] is at most that, and the least,
    the mean and the greatest improvement are all present and ordered
    within -9..9.  Over the sessions the service itself can produce by
    starting, completing and rating, it never yields a record: where the
    static runs, the [enum] validator rejects the [null] that
    [moodAfter.mood] defaults to, and no session is ever stored. *)
Theorem improvement_stats_bounds now uid days store :
  let window :=
    List.filter
      (fun s => String.eqb (GameSession.user s) uid && GameSession.completed s
                && (now - days * MoodLog.msPerDay <=? GameSession.createdAt s))
      store in
  (objectIdCallable = false ->
   GameRoutes.getMoodImprovementStats now uid days store = None) /\
  (objectIdCallable = true -> Forall intensities_ok store ->
   exists stats,
     GameRoutes.getMoodImprovementStats now uid days store = Some stats /\
     match stats with
     | [] => window = []
     | [st] =>
         GameRoutes.i_totalSessions st = Z.of_nat (length window) /\
         0 < GameRoutes.i_totalSessions st /\
         0 <= GameRoutes.i_positiveImprovements st
           <= GameRoutes.i_totalSessions st /\
         exists least mean greatest,
           GameRoutes.i_minImprovement st = Some least /\
           GameRoutes.i_avgMoodImprovement st = Some mean /\
           GameRoutes.i_maxImprovement st = Some greatest /\
           -9 <= least /\ greatest <= 9 /\
           (inject_Z least <= mean <= inject_Z greatest)%Q
     | _ => False
     end) /\
  (forall games,
     GameSession.reachable (games, store) ->
     GameRoutes.getMoodImprovementStats now uid days store = None \/
     GameRoutes.getMoodImprovementStats now uid days store = Some []).
Proof.
  intros window. unfold GameRoutes.getMoodImprovementStats.
  split; [by intros ->|]. split.
  2:{ intros games [games0 Hrtc]. unfold objectIdCallable.
      destruct release eqn:Hrel; [right|by left|by left].
      assert (store = []) as ->; [|done].
      apply (steps_empty _ _ ltac:(unfold enumAcceptsNull; by rewrite Hrel)
               Hrtc eq_refl). }
  intros -> Hall. eexists. split; [reflexivity|].
  unfold GameRoutes.improvementPipeline. fold window.
  assert (Forall (fun s => exists m, GameRoutes.improvement s = Some m
                                     /\ -9 <= m <= 9) window) as Himp.
  { apply List.Forall_forall. intros s Hin.
    apply filter_In in Hin as [Hin Hf].
    apply andb_true_iff in Hf as [Hf _]. apply andb_true_iff in Hf as [_ Hc].
    rewrite List.Forall_forall in Hall.
    destruct (Hall s Hin) as (Hb & Hdone).
    destruct (Hdone Hc) as (after & Ha & Hrange).
    unfold GameRoutes.improvement. rewrite Ha. eexists. split; [done|]. lia. }
  destruct (somes_all _ _ _ Himp) as [Hlen Hrange].
  destruct window as [|s window']; [done|].
  set (ms := GameRoutes.somes _) in *.
  split; [done|]. split; [simpl; lia|]. split.
  { simpl GameRoutes.i_positiveImprovements. simpl GameRoutes.i_totalSessions.
    pose proof (filter_length_le (fun m => 0 <? m) ms) as Hle.
    rewrite Hlen in Hle. simpl length in Hle. lia. }
  destruct ms as [|m ms']; [discriminate|].
  simpl GameRoutes.i_minImprovement. simpl GameRoutes.i_avgMoodImprovement.
  simpl GameRoutes.i_maxImprovement.
  eexists _, _, _. do 3 (split; [reflexivity|]).
  pose proof (minZ_bounds m ms') as [Hmin1 Hmin2].
  pose proof (maxZ_bounds m ms') as [Hmax1 Hmax2].
  assert (Forall (fun y => MoodRoutes.minZ m ms' <= y <= MoodRoutes.maxZ m ms')
                 (m :: ms')) as Hbetween.
  { constructor; [lia|]. apply List.Forall_forall. intros y Hy.
    split; [by apply Hmin2|by apply Hmax2]. }
  pose proof (avgZ_bounds _ _ (m :: ms') ltac:(done) Hbetween) as Havg.
  rewrite List.Forall_forall in Hrange.
  assert (exists y, In y (m :: ms') /\ MoodRoutes.minZ m ms' = y)
    as (y1 & Hy1 & Hleast).
  { clear. induction ms' as [|z l (y & Hy & IH)]; simpl; [eauto|].
    destruct (Z.min_spec z (MoodRoutes.minZ m l)) as [[_ ->]|[_ ->]].
    - exists z. eauto.
    - exists y. split; [|done]. destruct Hy as [->|Hy]; [by left|by right; right]. }
  assert (exists y, In y (m :: ms') /\ MoodRoutes.maxZ m ms' = y)
    as (y2 & Hy2 & Hgreatest).
  { clear. induction ms' as [|z l (y & Hy & IH)]; simpl; [eauto|].
    destruct (Z.max_spec z (MoodRoutes.maxZ m l)) as [[_ ->]|[_ ->]].
    - exists y. split; [|done]. destruct Hy as [->|Hy]; [by left|by right; right].
    - exists z. eauto. }
  split; [rewrite Hleast; apply (Hrange y1 Hy1)|].
  split; [rewrite Hgreatest; apply (Hrange y2 Hy2)|]. exact Havg.
Qed.

End Improvement.

(** The sessions of the run, stored as they are under a release that casts:
    two completed sessions of the user are counted. *)
Lemma improvement_stats_bounds_witness :
  exists st,
    GameRoutes.getMoodImprovementStats (mongoose := Examples.mongoose6) 300000
      "u1" 30 (snd Examples.run5) = Some [st]
    /\ GameRoutes.i_totalSessions st = 2
    /\ GameRoutes.i_positiveImprovements st <= 2.
Proof.
  destruct (improvement_stats_bounds (H := Examples.nan_text)
              (numbers := Examples.appendDigits)
              (mongoose := Examples.mongoose6) 300000 "u1" 30
              (snd Examples.run5)) as (_ & Hruns & _).
  destruct (Hruns eq_refl) as (stats & Hs & Hst).
  { eapply List.Forall_impl; [|exact (proj1 (reachable_ok _ run5_reachable))].
    intros s. apply session_ok_intensities. }
  injection Hs as <-. eexists. split; [reflexivity|].
  destruct Hst as (Ht & _ & [_ Hp] & _).
  split; [exact Ht|]. rewrite Ht in Hp. exact Hp.
Defined.

(** ** Who may change a playlist *)

(** X22: only its owner changes a playlist.  A user who does not own a stored
    playlist can neither update nor delete it: the update route answers 400
    or 403, the delete route 403, and the collection is unchanged.  When the
    update route answers with a success the caller is the owner, the stored
    playlist is the one answered, and its owner, songs, followers, play
    count and generation record are the old ones. *)
Theorem playlist_owner_only uid id b store pl :
  Playlist.findById id store = Some pl ->
  (Playlist.owner pl <> uid ->
   (exists st msg errors,
      Playlist.updatePlaylist uid id b store = (Failure st msg errors, store) /\
      (st = 400 \/ st = 403)) /\
   (exists msg,
      Playlist.deletePlaylist uid id store = (Failure 403 msg [], store))) /\
  (forall st msg pl' store',
     Playlist.updatePlaylist uid id b store = (Success st msg pl', store') ->
     Playlist.owner pl = uid /\
     Playlist.findById id store' = Some pl' /\
     Playlist._id pl' = Playlist._id pl /\
     Playlist.owner pl' = Playlist.owner pl /\
     Playlist.songs pl' = Playlist.songs pl /\
     Playlist.followers pl' = Playlist.followers pl /\
     Playlist.playCount pl' = Playlist.playCount pl /\
     Playlist.isAutoGenerated pl' = Playlist.isAutoGenerated pl /\
     Playlist.generatedFor pl' = Playlist.generatedFor pl).
Proof.
  intros Hf.
  unfold Playlist.updatePlaylist, Playlist.deletePlaylist. rewrite Hf.
  split.
  - intros Hown. apply String.eqb_neq in Hown. rewrite Hown. simpl. split.
    + destruct (Playlist.validate_update b); eauto 7.
    + eauto.
  - intros st msg pl' store'.
    destruct (Playlist.validate_update b); [|discriminate].
    destruct (String.eqb (Playlist.owner pl) uid) eqn:Hown; [|discriminate].
    simpl.
    destruct (replace_doc _ _ store) as [store1|] eqn:Hr; [|discriminate].
    intros [= _ _ <- <-]. apply String.eqb_eq in Hown. split; [done|].
    split; [|done].
    pose proof (find_by_id_Some _ _ _ _ Hf) as [_ Hid].
    pose proof (find_by_id_replace_doc Playlist._id _ _ _ Hr) as Hfd.
    simpl in Hfd. rewrite Hid in Hfd. exact Hfd.
Qed.

Lemma playlist_owner_only_witness :
  exists msg,
    Playlist.deletePlaylist "u1" "p2" [MoreExamples.publicPlaylist]
    = (Failure 403 msg [], [MoreExamples.publicPlaylist]).
Proof.
  destruct (playlist_owner_only "u1" "p2"
              (Playlist.mkUpdateBody (Some "Mine") None None None None)
              [MoreExamples.publicPlaylist] MoreExamples.publicPlaylist
              eq_refl) as [Hno _].
  destruct Hno as [_ Hd]; [discriminate|]. exact Hd.
Defined.
